(** * Instance-record synchronisation of the panel: a shallow embedding

    The panel keeps every instance in three places of one key-value store:
    the record under [<id>_instance], an entry of the owner's list under
    [<user>_instances] and an entry of the global list under [instances].
    This file embeds the route handlers that read and write these places
    (routes/Instance/Edit.js, routes/Instance/Startup.js with the reinstall
    router that follows it, routes/Instance/Instance.js, routes/api.js, the
    admin instance router and utils/authHelper) and states the properties of
    the specification over them.  It goes on to the routes of routes/api.js
    that deploy an instance and that keep the nodes and the users, and to
    the state routes of routes/Instance/Instance.js, with properties read
    off the handlers themselves.

    Modelling conventions.
    - JavaScript values are the type [jsval]; numbers are the integers
      ([JNum] carries a [Z]), which is all the handlers store or compare.
      The text of a number is its decimal digits, as JavaScript prints an
      integer below 10^21 in size; larger numbers, which it prints in
      exponent form, and fractions are outside the model.
    - A string is the sequence of its UTF-16 code units, one [ascii] each:
      the texts of the model are those whose code units are below 256.
      Length, [trim], [split], [includes] and [===] are those of JavaScript
      on such texts ([trim] strips U+00A0 too).
    - An object is a finite map from field names to values; reading a field
      that is absent gives [JUndef], as in JavaScript.
    - A handler is a function on a [world]: the store, the log of requests
      sent to node daemons, the daemon's behaviour and the clock.  Awaited
      calls run in program order.
    - A thrown JavaScript exception is an explicit [Throw]. *)

From Stdlib Require Import Ascii.
From stdpp Require Import gmap strings list fin_maps pretty.

Local Open Scope Z_scope.

(** ** JavaScript values *)

#[warnings="-register-all"]
Inductive jsval : Type :=
| JUndef
| JNull
| JBool (b : bool)
| JNum (n : Z)
| JStr (s : string)
| JArr (l : list jsval)
| JObj (o : gmap string jsval).

(** Thrown values: an axios error (with its [code], its [message] and, for an
    HTTP answer that the status policy rejects, the [response] as status and
    body), a plain [Error], a [TypeError] and the [ReferenceError] of a name
    that is not in scope. *)
Inductive jserr : Type :=
| AxiosError (code : option string) (message : string)
             (response : option (Z * jsval))
| Error (message : string)
| TypeError (message : string)
| ReferenceError (message : string).

Inductive result (A : Type) : Type :=
| Ok (a : A)
| Throw (e : jserr).
Arguments Ok {A} a.
Arguments Throw {A} e.

Module JS.

(** [!v] is [negb (truthy v)]. *)
Definition truthy (v : jsval) : bool :=
  match v with
  | JUndef | JNull => false
  | JBool b => b
  | JNum n => negb (n =? 0)
  | JStr s => negb (String.eqb s "")
  | JArr _ | JObj _ => true
  end.

Definition nullish (v : jsval) : bool :=
  match v with
  | JUndef | JNull => true
  | _ => false
  end.

(** [a === b].  Arrays and objects compare by reference; the values the
    handlers compare come from separate reads of the store or from the
    request, so two of them are never the same reference. *)
Definition strict_eq (a b : jsval) : bool :=
  match a, b with
  | JUndef, JUndef => true
  | JNull, JNull => true
  | JBool x, JBool y => bool_decide (x = y)
  | JNum x, JNum y => bool_decide (x = y)
  | JStr x, JStr y => bool_decide (x = y)
  | _, _ => false
  end.

(** String conversion, as in a template literal or [v + "..."] . *)
Fixpoint to_str (v : jsval) : string :=
  match v with
  | JUndef => "undefined"
  | JNull => "null"
  | JBool true => "true"
  | JBool false => "false"
  | JNum n => pretty n
  | JStr s => s
  | JArr l =>
      String.concat ","
        (map (fun x => if nullish x then "" else to_str x) l)
  | JObj _ => "[object Object]"
  end.

(** [typeof v], for the three answers the handlers test. *)
Definition typeof (v : jsval) : string :=
  match v with
  | JUndef => "undefined"
  | JNull => "object"
  | JBool _ => "boolean"
  | JNum _ => "number"
  | JStr _ => "string"
  | JArr _ | JObj _ => "object"
  end.

(** Own enumerable properties, as the spread [{...v}] copies them: the
    fields of an object, the indexed elements of an array, the indexed
    characters of a string, nothing for the other primitives. *)
Definition indexed {A} (f : A -> jsval) (l : list A) : gmap string jsval :=
  list_to_map (imap (fun i x => (pretty i, f x)) l).

Fixpoint chars (s : string) : list string :=
  match s with
  | EmptyString => []
  | String c r => String c EmptyString :: chars r
  end.

Definition own_props (v : jsval) : gmap string jsval :=
  match v with
  | JObj o => o
  | JArr l => indexed (fun x => x) l
  | JStr s => indexed JStr (chars s)
  | _ => ∅
  end.

(** [v.f] for a field name [f] of the source.  The names the handlers read
    ([Id], [Node], [suspended], ...) are neither indices nor inherited
    properties, so on anything but an object the read gives [undefined].
    Reading from [undefined] or [null] throws: see [prop]. *)
Definition getf (v : jsval) (f : string) : jsval :=
  match v with
  | JObj o => default JUndef (o !! f)
  | _ => JUndef
  end.

Definition prop (v : jsval) (f : string) : result jsval :=
  if nullish v
  then Throw (TypeError ("Cannot read properties of " +:+ to_str v))
  else Ok (getf v f).

(** [v?.f] *)
Definition opt_prop (v : jsval) (f : string) : jsval :=
  if nullish v then JUndef else getf v f.

(** [v.f = x] on a value that is not nullish.  The modules are not in strict
    mode: the assignment to a primitive is ignored; a named property given
    to an array is not part of what the store keeps of it. *)
Definition setf (v : jsval) (f : string) (x : jsval) : jsval :=
  match v with
  | JObj o => JObj (<[f := x]> o)
  | _ => v
  end.

(** [{...a, ...b}]: the fields of [b] win. *)
Definition spread2 (a b : jsval) : jsval :=
  JObj (own_props b ∪ own_props a).

(** [{...a, f: x}] *)
Definition spread_set (a : jsval) (f : string) (x : jsval) : jsval :=
  JObj (<[f := x]> (own_props a)).

(** [a || b] *)
Definition or_else (a b : jsval) : jsval :=
  if truthy a then a else b.

Definition obj (fields : list (string * jsval)) : jsval :=
  JObj (list_to_map fields).

Definition is_obj (v : jsval) : Prop :=
  match v with JObj _ => True | _ => False end.

End JS.

(** ** Helpers on strings *)

Module Str.

(** [s.split(sep)[0]]: the part of [s] before the first [sep]. *)
Fixpoint before (sep : ascii) (s : string) : string :=
  match s with
  | EmptyString => EmptyString
  | String c r => if Ascii.eqb c sep then EmptyString else String c (before sep r)
  end.

Fixpoint is_prefix (p s : string) : bool :=
  match p, s with
  | EmptyString, _ => true
  | String a p', String b s' => Ascii.eqb a b && is_prefix p' s'
  | String _ _, EmptyString => false
  end.

(** [s.includes(p)] *)
Fixpoint includes (s p : string) : bool :=
  is_prefix p s ||
  match s with
  | EmptyString => false
  | String _ r => includes r p
  end.

Fixpoint last (s : string) : option ascii :=
  match s with
  | EmptyString => None
  | String c EmptyString => Some c
  | String _ r => last r
  end.

Fixpoint all_chars (p : ascii -> bool) (s : string) : bool :=
  match s with
  | EmptyString => true
  | String c r => p c && all_chars p r
  end.

Definition is_digit (c : ascii) : bool :=
  let n := nat_of_ascii c in ((48 <=? n) && (n <=? 57))%nat.

(** A character of the class [[a-zA-Z0-9-_]]. *)
Definition id_char (c : ascii) : bool :=
  let n := nat_of_ascii c in
  ((97 <=? n) && (n <=? 122))%nat || ((65 <=? n) && (n <=? 90))%nat ||
  ((48 <=? n) && (n <=? 57))%nat || (n =? 45)%nat || (n =? 95)%nat.

(** A character of the class [[a-zA-Z0-9 ]]. *)
Definition name_char (c : ascii) : bool :=
  let n := nat_of_ascii c in
  ((97 <=? n) && (n <=? 122))%nat || ((65 <=? n) && (n <=? 90))%nat ||
  ((48 <=? n) && (n <=? 57))%nat || (n =? 32)%nat.

(** [s.split(sep)] for a one-character separator. *)
Fixpoint split_go (sep : ascii) (s : string) (cur : string -> string) : list string :=
  match s with
  | EmptyString => [cur EmptyString]
  | String c r =>
      if Ascii.eqb c sep then cur EmptyString :: split_go sep r (fun x => x)
      else split_go sep r (fun x => cur (String c x))
  end.

Definition split (sep : ascii) (s : string) : list string :=
  split_go sep s (fun x => x).

(** White space and line ends below 256: space, tab, line feed, vertical
    tab, form feed, return and the no-break space U+00A0. *)
Definition is_space (c : ascii) : bool :=
  let n := nat_of_ascii c in
  (n =? 32)%nat || ((9 <=? n) && (n <=? 13))%nat || (n =? 160)%nat.

Fixpoint trim_start (s : string) : string :=
  match s with
  | String c r => if is_space c then trim_start r else s
  | EmptyString => EmptyString
  end.

Fixpoint trim_end (s : string) : string :=
  match s with
  | EmptyString => EmptyString
  | String c r =>
      match trim_end r with
      | EmptyString => if is_space c then EmptyString else String c EmptyString
      | r' => String c r'
      end
  end.

(** [s.trim()] *)
Definition trim (s : string) : string := trim_end (trim_start s).

Definition digit (radix : Z) (c : ascii) : option Z :=
  let n := Z.of_nat (nat_of_ascii c) in
  let d :=
    if (48 <=? n) && (n <=? 57) then Some (n - 48)
    else if (97 <=? n) && (n <=? 122) then Some (n - 87)
    else if (65 <=? n) && (n <=? 90) then Some (n - 55)
    else None in
  match d with
  | Some v => if v <? radix then Some v else None
  | None => None
  end.

Fixpoint digits (radix : Z) (acc : option Z) (s : string) : option Z :=
  match s with
  | EmptyString => acc
  | String c r =>
      match digit radix c with
      | Some d => digits radix (Some (radix * default 0 acc + d)) r
      | None => acc
      end
  end.

(** [parseInt(s)]: leading white space, a sign, a [0x] prefix for radix 16,
    then the longest run of digits; [None] is [NaN]. *)
Definition parse_int (s : string) : option Z :=
  let s := trim_start s in
  let '(neg, s) :=
    match s with
    | String "-" r => (true, r)
    | String "+" r => (false, r)
    | _ => (false, s)
    end in
  let '(radix, s) :=
    match s with
    | String "0" (String "x" r) | String "0" (String "X" r) => (16, r)
    | _ => (10, s)
    end in
  (fun v => if neg : bool then - v else v) <$> digits radix None s.

Definition hex_digit (n : nat) : ascii :=
  ascii_of_nat (if (n <? 10)%nat then 48 + n else 55 + n)%nat.

(** The characters [encodeURIComponent] keeps: letters, digits and
    [-_.!~*'()].  The others are written as the bytes of their UTF-8 form:
    one byte below 128, two from 128 on. *)
Definition unreserved (c : ascii) : bool :=
  let n := nat_of_ascii c in
  ((97 <=? n) && (n <=? 122))%nat || ((65 <=? n) && (n <=? 90))%nat ||
  ((48 <=? n) && (n <=? 57))%nat ||
  existsb (Nat.eqb n) [45; 95; 46; 33; 126; 42; 39; 40; 41]%nat.

(** [%XX] for one byte. *)
Definition escape (byte : nat) (rest : string) : string :=
  String "%" (String (hex_digit (byte / 16)) (String (hex_digit (byte mod 16)) rest)).

Fixpoint encodeURIComponent (s : string) : string :=
  match s with
  | EmptyString => EmptyString
  | String c r =>
      if unreserved c then String c (encodeURIComponent r)
      else
        let n := nat_of_ascii c in
        if (n <? 128)%nat
        then escape n (encodeURIComponent r)
        else escape (192 + n / 64) (escape (128 + n mod 64) (encodeURIComponent r))
  end.

End Str.

(** ** Array methods with callbacks that can throw *)

Definition rbind {A B} (r : result A) (k : A -> result B) : result B :=
  match r with
  | Ok a => k a
  | Throw e => Throw e
  end.

Notation "'let?' x ':=' r 'in' k" := (rbind r (fun x => k))
  (at level 10, x name, r at level 100, k at level 200).

Module Arr.
Import JS.

(** The receiver of [find], [findIndex], [filter], [map], [some] or [push]:
    anything but an array has no such method. *)
Definition as_array (v : jsval) : result (list jsval) :=
  match v with
  | JArr l => Ok l
  | _ => Throw (TypeError (to_str v +:+ " has no such method"))
  end.

Fixpoint findIndex (p : jsval -> result bool) (l : list jsval) : result (option nat) :=
  match l with
  | [] => Ok None
  | x :: r =>
      let? b := p x in
      if b then Ok (Some 0%nat)
      else let? i := findIndex p r in Ok (S <$> i)
  end.

Fixpoint find (p : jsval -> result bool) (l : list jsval) : result jsval :=
  match l with
  | [] => Ok JUndef
  | x :: r => let? b := p x in if b then Ok x else find p r
  end.

Fixpoint some (p : jsval -> result bool) (l : list jsval) : result bool :=
  match l with
  | [] => Ok false
  | x :: r => let? b := p x in if b then Ok true else some p r
  end.

Fixpoint filter (p : jsval -> result bool) (l : list jsval) : result (list jsval) :=
  match l with
  | [] => Ok []
  | x :: r =>
      let? b := p x in
      let? r' := filter p r in
      Ok (if b then x :: r' else r')
  end.

Fixpoint map (f : jsval -> result jsval) (l : list jsval) : result (list jsval) :=
  match l with
  | [] => Ok []
  | x :: r => let? y := f x in let? r' := map f r in Ok (y :: r')
  end.

(** The callback [e => e.f === x] and its negation [e => e.f !== x]. *)
Definition field_is (f : string) (x : jsval) (e : jsval) : result bool :=
  let? v := prop e f in Ok (strict_eq v x).

Definition field_is_not (f : string) (x : jsval) (e : jsval) : result bool :=
  let? v := prop e f in Ok (negb (strict_eq v x)).

End Arr.

(** ** The world of a handler: store, node daemons, clock *)

(** The [validateStatus] option of a request: axios resolves with the
    response when the status passes it and rejects otherwise.  The default
    accepts the 2xx statuses. *)
Inductive status_policy : Type :=
| Only2xx      (* default *)
| Below500     (* status => status < 500 *)
| AnyStatus.   (* () => true *)

Definition validateStatus (p : status_policy) (status : Z) : bool :=
  match p with
  | Only2xx => (200 <=? status) && (status <? 300)
  | Below500 => status <? 500
  | AnyStatus => true
  end.

(** An axios request configuration.  The constant headers and the basic-auth
    user name ("Skyport") are left out. *)
Record request : Type := {
  method : string;
  url : string;
  password : jsval;
  timeout : option Z;
  validate : status_policy;
  data : jsval }.

(** What comes back from the daemon for one request sent: no answer at all
    (the transport fails with an error code such as ECONNREFUSED, or
    ECONNABORTED on a timeout) or an HTTP answer. *)
Inductive wire : Type :=
| NoReply (code message : string)
| Reply (status : Z) (body : jsval).

Record response : Type := { r_status : Z; r_data : jsval }.

Record world : Type := {
  db : gmap string jsval;
  sent : list request;
  daemon : nat -> request -> wire;
  clock : nat -> string;
  ticks : nat }.

Definition with_db (f : gmap string jsval -> gmap string jsval) (w : world) : world :=
  {| db := f (db w); sent := sent w; daemon := daemon w;
     clock := clock w; ticks := ticks w |}.

Definition M (A : Type) : Type := world -> result A * world.

Definition ret {A} (a : A) : M A := fun w => (Ok a, w).
Definition throw {A} (e : jserr) : M A := fun w => (Throw e, w).
Definition lift {A} (r : result A) : M A := fun w => (r, w).

Definition bind {A B} (m : M A) (k : A -> M B) : M B :=
  fun w =>
    match m w with
    | (Ok a, w') => k a w'
    | (Throw e, w') => (Throw e, w')
    end.

(** [try { m } catch (e) { h e }] *)
Definition try_catch {A} (m : M A) (h : jserr -> M A) : M A :=
  fun w =>
    match m w with
    | (Ok a, w') => (Ok a, w')
    | (Throw e, w') => h e w'
    end.

Notation "'let*' x ':=' m 'in' k" := (bind m (fun x => k))
  (at level 10, x name, m at level 100, k at level 200).
Notation "m ';;' k" := (bind m (fun _ => k))
  (at level 100, k at level 200, right associativity).

(** A computation that leaves the world as it found it. *)
Definition reads_only {A} (m : M A) : Prop := forall w, (m w).2 = w.

(** [new Date().toISOString()]: the clock is read and moves on; two readings
    may or may not give the same text. *)
Definition now : M jsval :=
  fun w =>
    (Ok (JStr (clock w (ticks w))),
     {| db := db w; sent := sent w; daemon := daemon w;
        clock := clock w; ticks := S (ticks w) |}).

(** *** The key-value store *)

Module Db.

(** Modelled from the spec: the store of handlers/db.js, which is not among
    the sources.  The specification gives its interface,
    [get(key) -> value|null], [set(key, value)], [delete(key)] and
    [batch() -> {set, del, write}], atomic per key.  A key that is absent
    reads as [undefined]; every handler tests the value read with [!v] or
    [v || []], which treat [null] alike. *)
Definition get (k : string) : M jsval :=
  fun w => (Ok (default JUndef (db w !! k)), w).

Definition set (k : string) (v : jsval) : M unit :=
  fun w => (Ok tt, with_db (insert k v) w).

Definition delete (k : string) : M unit :=
  fun w => (Ok tt, with_db (base.delete k) w).

(** Modelled from the spec: a batch collects writes and deletions and
    [write] commits them together, in the order they were added. *)
Inductive op : Type :=
| Set_ (k : string) (v : jsval)
| Del (k : string).

Definition apply (o : op) (m : gmap string jsval) : gmap string jsval :=
  match o with
  | Set_ k v => <[k := v]> m
  | Del k => base.delete k m
  end.

Definition write (batch : list op) : M unit :=
  fun w => (Ok tt, with_db (fun m => foldl (fun m o => apply o m) m batch) w).

End Db.

(** *** The node client *)

(** The [code] axios gives to the error of a rejected status. *)
Definition bad_status_code (status : Z) : option string :=
  if (400 <=? status) && (status <? 500) then Some "ERR_BAD_REQUEST"
  else if (500 <=? status) && (status <? 600) then Some "ERR_BAD_RESPONSE"
  else None.

(** The error axios throws for an answer it rejects. *)
Definition rejection (a : wire) : jserr :=
  match a with
  | NoReply c m => AxiosError (Some c) m None
  | Reply st b =>
      AxiosError (bad_status_code st)
        ("Request failed with status code " +:+ pretty st) (Some (st, b))
  end.

(** How axios settles a request on the daemon's answer: it resolves with the
    response when the status passes the policy of the request, and rejects
    otherwise. *)
Definition settle (rq : request) (a : wire) : result response :=
  match a with
  | NoReply _ _ => Throw (rejection a)
  | Reply st b =>
      if validateStatus (validate rq) st
      then Ok {| r_status := st; r_data := b |}
      else Throw (rejection a)
  end.

Definition sending (rq : request) (w : world) : world :=
  {| db := db w; sent := sent w ++ [rq]; daemon := daemon w;
     clock := clock w; ticks := ticks w |}.

(** [axios(rq)]: the request is sent (logged in [sent]); the daemon's answer
    to the [n]-th request of the run is [daemon w n rq]. *)
Definition axios (rq : request) : M response :=
  fun w => (settle rq (daemon w (length (sent w)) rq), sending rq w).

(** What a handler answers.  The status of [Redirect] is the one the handler
    gave to [res.status] before [redirect], 302 when it gave none.
    [Flash ok msg url] sets [req.session.success] (or [.error]) to [msg] and
    redirects to [url].  [Unhandled e]: the handler has no [catch] around
    the statement that threw, and gives no answer of its own. *)
Inductive reply : Type :=
| Json (status : Z) (body : jsval)
| Send (status : Z) (text : string)
| Render (status : Z) (view : string)
| Redirect (status : Z) (url : string)
| Flash (ok : bool) (msg : string) (url : string)
| Unhandled (e : jserr).

(** A route: the body runs inside [try]; the [catch] block answers. *)
Definition route (body : M reply) (on_error : jserr -> reply) : world -> reply * world :=
  fun w =>
    match body w with
    | (Ok r, w') => (r, w')
    | (Throw e, w') => (on_error e, w')
    end.

(** [logAudit(...)] and the workflow file of the admin router are services
    outside the store; they are taken to succeed and leave no trace here. *)
Definition logAudit : M unit := ret tt.

(** The rename handler: [l.findIndex((e) => e.f === id)] on
    [(await db.get(k)) || []], then [l[index].Name = name].  The result is
    the list with the name written into the first entry whose field [f] is
    the id of the request, [None] when no entry has it. *)
Definition renamed_list (f : string) (stored : jsval) (id name : string)
    : result (option (list jsval)) :=
  let? l := Arr.as_array (JS.or_else stored (JArr [])) in
  let? found := Arr.findIndex (Arr.field_is f (JStr id)) l in
  Ok (match found with
      | Some i =>
          Some (<[i := JS.setf (default JUndef (l !! i)) "Name" (JStr name)]> l)
      | None => None
      end).

(** [if (index !== -1) { ...; await db.set(k, l) }] *)
Definition write_back (k : string) (l : option (list jsval)) : M unit :=
  match l with
  | Some l => Db.set k (JArr l)
  | None => ret tt
  end.

(** ** utils/authHelper *)

Module AuthHelper.
Import JS.

(** [recv.includes(x)]: membership for an array, containment of the text of
    [x] for a string; nothing else has the method. *)
Definition includes (recv x : jsval) : result bool :=
  match recv with
  | JArr l => Ok (existsb (strict_eq x) l)
  | JStr s => Ok (Str.includes s (to_str x))
  | _ => Throw (TypeError "includes is not a function")
  end.

(** [db.get(...) || []] is applied to the promise, which is never falsy: the
    value awaited is what the store holds, [undefined] included. *)
Definition isUserAuthorizedForContainer (userId containerId : jsval) : M bool :=
  if negb (truthy userId) || negb (truthy containerId) then ret false
  else
    try_catch
      (let* userInstances := Db.get (to_str userId +:+ "_instances") in
       let* users := Db.get "users" in
       let* user :=
         lift (let? l := Arr.as_array users in
               Arr.find (Arr.field_is "userId" userId) l) in
       if negb (truthy user) then ret false
       else if truthy (getf user "admin") then ret true
       else
         let subUserInstances := or_else (getf user "accessTo") (JArr []) in
         let* isInSubUserInstances :=
           lift (includes subUserInstances containerId) in
         let* isInUserInstances :=
           lift (let? l := Arr.as_array userInstances in
                 Arr.some (Arr.field_is "Id" containerId) l) in
         ret (isInSubUserInstances || isInUserInstances))
      (fun _ => ret false).

(** [isInstanceSuspended(instanceId)]: a record that is missing is created,
    one without [suspended] is given the flag. *)
Definition isInstanceSuspended (instanceId : jsval) : M bool :=
  if negb (truthy instanceId) then ret false
  else
    try_catch
      (let instanceKey := to_str instanceId +:+ "_instance" in
       let* instance := Db.get instanceKey in
       if negb (truthy instance) then
         let* createdAt := now in
         let* lastUpdated := now in
         Db.set instanceKey
           (obj [("suspended", JBool false); ("createdAt", createdAt);
                 ("lastUpdated", lastUpdated)]) ;;
         ret false
       else
         let* instance :=
           if String.eqb (typeof (getf instance "suspended")) "undefined"
           then
             let instance := setf instance "suspended" (JBool false) in
             let* lastUpdated := now in
             let instance := setf instance "lastUpdated" lastUpdated in
             Db.set instanceKey instance ;; ret instance
           else ret instance in
         ret (strict_eq (getf instance "suspended") (JBool true)))
      (fun _ => ret false).

End AuthHelper.

(** [http://${node.address}:${node.port}] *)
Definition node_url (node : jsval) : string :=
  "http://" +:+ JS.to_str (JS.getf node "address") +:+ ":" +:+
  JS.to_str (JS.getf node "port").

(** ** The admin instance router *)

Module AdminInstances.
Import JS.

Definition DEFAULT_TIMEOUT : Z := 5000.

Definition validateInstance (instance : jsval) : result unit :=
  if negb (truthy instance) || negb (String.eqb (typeof instance) "object")
  then Throw (Error "Invalid instance: must be an object")
  else
    match List.find (fun field => negb (truthy (getf instance field)))
            ["Id"; "ContainerId"; "User"; "Node"] with
    | Some field =>
        Throw (Error ("Invalid instance: missing required field " +:+ field))
    | None =>
        let node := getf instance "Node" in
        if negb (truthy (getf node "id")) || negb (truthy (getf node "address"))
           || negb (truthy (getf node "port")) || negb (truthy (getf node "apiKey"))
        then Throw (Error "Invalid instance: Node information incomplete")
        else Ok tt
    end.

Definition delete_request (instance : jsval) : request :=
  {| method := "delete";
     url := node_url (getf instance "Node") +:+ "/instances/" +:+
            to_str (getf instance "ContainerId");
     password := getf (getf instance "Node") "apiKey";
     timeout := Some DEFAULT_TIMEOUT;
     validate := AnyStatus;
     data := JUndef |}.

(** The inner [try] swallows whatever the request throws; the outer [catch]
    logs and throws again. *)
Definition deleteInstance (instance : jsval) : M bool :=
  lift (validateInstance instance) ;;
  try_catch (axios (delete_request instance) ;; ret tt) (fun _ => ret tt) ;;
  let* userInstances := Db.get (to_str (getf instance "User") +:+ "_instances") in
  let* globalInstances := Db.get "instances" in
  let* updatedUserInstances :=
    lift (let? l := Arr.as_array (or_else userInstances (JArr [])) in
          Arr.filter (Arr.field_is_not "Id" (getf instance "Id")) l) in
  let* updatedGlobalInstances :=
    lift (let? l := Arr.as_array (or_else globalInstances (JArr [])) in
          Arr.filter (Arr.field_is_not "Id" (getf instance "Id")) l) in
  Db.set (to_str (getf instance "User") +:+ "_instances") (JArr updatedUserInstances) ;;
  Db.set "instances" (JArr updatedGlobalInstances) ;;
  Db.delete (to_str (getf instance "Id") +:+ "_instance") ;;
  Db.delete (to_str (getf instance "Id") +:+ "_workflow") ;;
  ret true.

Definition back : string := "/admin/instances".

(** GET /admin/instance/delete/:id *)
Definition delete_instance (id : string) : world -> reply * world :=
  route
    (if String.eqb id "" then ret (Flash false "Instance ID is required" back)
     else
       let* instance := Db.get (id +:+ "_instance") in
       if negb (truthy instance) then ret (Flash false "Instance not found" back)
       else
         deleteInstance instance ;;
         logAudit ;;
         ret (Flash true "Instance deleted successfully" back))
    (fun _ => Flash false "Failed to delete instance" back).

(** [obj => obj.Id === instance.Id ? { ...obj, suspended: true } : obj] *)
Definition mark_suspended (instance obj : jsval) : result jsval :=
  let? i := prop obj "Id" in
  Ok (if strict_eq i (getf instance "Id")
      then spread_set obj "suspended" (JBool true)
      else obj).

(** POST /admin/instances/suspend/:id *)
Definition suspend (id : string) : world -> reply * world :=
  route
    (if String.eqb id "" then ret (Flash false "Instance ID is required" back)
     else
       let* instance := Db.get (id +:+ "_instance") in
       if negb (truthy instance) then ret (Flash false "Instance not found" back)
       else
         let updatedInstance := spread_set instance "suspended" (JBool true) in
         Db.set (id +:+ "_instance") updatedInstance ;;
         let* instances := Db.get "instances" in
         Db.set (id +:+ "_instance") updatedInstance ;;
         let* updatedInstances :=
           lift (let? l := Arr.as_array (or_else instances (JArr [])) in
                 Arr.map (mark_suspended instance) l) in
         Db.set "instances" (JArr updatedInstances) ;;
         logAudit ;;
         ret (Flash true "Instance suspended successfully" back))
    (fun _ => Flash false "Failed to suspend instance" back).

(** [{ ...v, suspended: false }] without a truthy ["suspended-flagg"]. *)
Definition cleared (v : jsval) : jsval :=
  let o := <["suspended" := JBool false]> (own_props v) in
  if truthy (default JUndef (o !! "suspended-flagg"))
  then JObj (base.delete "suspended-flagg" o)
  else JObj o.

Definition mark_unsuspended (instance obj : jsval) : result jsval :=
  let? i := prop obj "Id" in
  Ok (if strict_eq i (getf instance "Id") then cleared obj else obj).

(** POST /admin/instances/unsuspend/:id *)
Definition unsuspend (id : string) : world -> reply * world :=
  route
    (if String.eqb id "" then ret (Flash false "Instance ID is required" back)
     else
       let* instance := Db.get (id +:+ "_instance") in
       if negb (truthy instance) then ret (Flash false "Instance not found" back)
       else
         let updatedInstance := cleared instance in
         let* instances := Db.get "instances" in
         Db.set (id +:+ "_instance") updatedInstance ;;
         let* updatedInstances :=
           lift (let? l := Arr.as_array (or_else instances (JArr [])) in
                 Arr.map (mark_unsuspended instance) l) in
         Db.set "instances" (JArr updatedInstances) ;;
         logAudit ;;
         ret (Flash true "Instance unsuspended successfully" back))
    (fun _ => Flash false "Failed to unsuspend instance" back).

End AdminInstances.

(** ** routes/api.js *)

Module Api.
Import JS.

(** [errorResponse(res, status, message)] *)
Definition errorResponse (status : Z) (message : string) : reply :=
  Json status (obj [("error", JStr message)]).

(** [axios.delete(url, { auth })]: default status policy, no timeout.  The
    configuration reads [instance.Node.address], [.port] and [.apiKey]. *)
Definition delete_request (instance : jsval) : result request :=
  let? node := prop instance "Node" in
  let? address := prop node "address" in
  let? port := prop node "port" in
  let? containerId := prop instance "ContainerId" in
  let? apiKey := prop node "apiKey" in
  Ok {| method := "delete";
        url := "http://" +:+ to_str address +:+ ":" +:+ to_str port +:+
               "/instances/" +:+ to_str containerId;
        password := apiKey;
        timeout := None;
        validate := Only2xx;
        data := JUndef |}.

(** The [catch] block logs the error and throws it again. *)
Definition deleteInstance (instance : jsval) : M unit :=
  try_catch
    (let* rq := lift (delete_request instance) in
     axios rq ;;
     let* userInstances := Db.get (to_str (getf instance "User") +:+ "_instances") in
     let* userInstances' :=
       lift (let? l := Arr.as_array (or_else userInstances (JArr [])) in
             Arr.filter (Arr.field_is_not "ContainerId" (getf instance "ContainerId")) l) in
     Db.set (to_str (getf instance "User") +:+ "_instances") (JArr userInstances') ;;
     let* globalInstances := Db.get "instances" in
     let* globalInstances' :=
       lift (let? l := Arr.as_array (or_else globalInstances (JArr [])) in
             Arr.filter (Arr.field_is_not "ContainerId" (getf instance "ContainerId")) l) in
     Db.set "instances" (JArr globalInstances') ;;
     Db.delete (to_str (getf instance "Id") +:+ "_instance"))
    (fun error => throw error).

(** DELETE /api/instance/delete *)
Definition delete_instance (id : jsval) : world -> reply * world :=
  if negb (truthy id) then fun w => (errorResponse 400 "Instance ID is required", w)
  else
    route
      (let* instance := Db.get (to_str id +:+ "_instance") in
       if negb (truthy instance) then ret (errorResponse 404 "Instance not found")
       else
         deleteInstance instance ;;
         ret (Json 200 (obj [("message", JStr "Instance successfully deleted")])))
      (fun _ => errorResponse 500 "Failed to delete instance").

(** The shared shape of the suspend and unsuspend handlers:
    [instance.suspended = flag; instance[stamp] = now; set; find the entry of
    the global list with the same ContainerId; if there is one, flag and
    stamp it; set the list]. *)
Definition flagged (v : jsval) (flag : bool) (stamp : string) (t : jsval) : jsval :=
  setf (setf v "suspended" (JBool flag)) stamp t.

Definition set_flag (id instance : jsval) (flag : bool) (stamp : string) : M unit :=
  let* t := now in
  let instance := flagged instance flag stamp t in
  Db.set (to_str id +:+ "_instance") instance ;;
  let* stored := Db.get "instances" in
  let instances := or_else stored (JArr []) in
  let* l := lift (Arr.as_array instances) in
  let* found :=
    lift (Arr.findIndex (Arr.field_is "ContainerId" (getf instance "ContainerId")) l) in
  let* l' :=
    match found with
    | Some i =>
        let entry := default JUndef (l !! i) in
        if truthy entry
        then let* t' := now in
             ret (<[i := flagged entry flag stamp t']> l)
        else ret l
    | None => ret l
    end in
  Db.set "instances" (JArr l').

(** POST /api/instances/suspend *)
Definition suspend (id : jsval) : world -> reply * world :=
  if negb (truthy id) then fun w => (errorResponse 400 "Instance ID is required", w)
  else
    route
      (let* instance := Db.get (to_str id +:+ "_instance") in
       if negb (truthy instance) then ret (errorResponse 404 "Instance not found")
       else
         set_flag id instance true "suspendedAt" ;;
         ret (Json 200 (obj [("success", JBool true);
                             ("message", JStr ("Instance " +:+ to_str id +:+
                                               " has been suspended"))])))
      (fun _ => errorResponse 500 "Failed to suspend instance").

(** POST /api/instances/unsuspend.  [user] is [req.user]: the audit call
    reads [req.user.userId] and [req.user.username]. *)
Definition unsuspend (user id : jsval) : world -> reply * world :=
  if negb (truthy id) then fun w => (errorResponse 400 "Instance ID is required", w)
  else
    route
      (let* instance := Db.get (to_str id +:+ "_instance") in
       if negb (truthy instance) then ret (errorResponse 404 "Instance not found")
       else
         set_flag id instance false "unsuspendedAt" ;;
         lift (prop user "userId") ;;
         lift (prop user "username") ;;
         logAudit ;;
         ret (Json 200 (obj [("success", JBool true);
                             ("message", JStr ("Instance " +:+ to_str id +:+
                                               " has been unsuspended"))])))
      (fun _ => errorResponse 500 "Failed to unsuspend instance").

End Api.

(** ** routes/Instance/Edit.js *)

Module Edit.
Import JS.

Definition NODE_API_TIMEOUT : Z := 15000.
Definition MAX_MEMORY : Z := 1024 * 1024.
Definition MAX_CPU : Z := 1024.

(** The body of an edit request.  [Memory] and [Cpu] are absent ([None]) or
    numbers, here integers: [isNaN] is then false and [parseFloat] the
    identity.  [Image] is any value. *)
Record body : Type := { Image : jsval; Memory : option Z; Cpu : option Z }.

Definition num (n : option Z) : jsval :=
  match n with
  | Some z => JNum z
  | None => JUndef
  end.

(** [x !== undefined ? x : old] *)
Definition pick (x old : jsval) : jsval :=
  if strict_eq x JUndef then old else x.

Definition message (status : Z) (text : string) : reply :=
  Json status (obj [("message", JStr text)]).

Definition prepareEditRequestData (instance Image Memory Cpu : jsval) : request :=
  {| method := "put";
     url := node_url (getf instance "Node") +:+ "/instances/edit/" +:+
            to_str (getf instance "ContainerId");
     password := getf (getf instance "Node") "apiKey";
     timeout := Some NODE_API_TIMEOUT;
     validate := Below500;
     data := obj [("Image", pick Image (getf instance "Image"));
                  ("Memory", pick Memory (getf instance "Memory"));
                  ("Cpu", pick Cpu (getf instance "Cpu"));
                  ("VolumeId", getf instance "VolumeId")] |}.

(** [axios(requestData).catch(error => retry once on ECONNABORTED or a
    response of status >= 500, else throw error)] *)
Definition send_with_retry (requestData : request) : M response :=
  try_catch (axios requestData)
    (fun error =>
       match error with
       | AxiosError code _ resp =>
           if bool_decide (code = Some "ECONNABORTED") ||
              match resp with
              | Some (status, _) => 500 <=? status
              | None => false
              end
           then axios requestData
           else throw error
       | _ => throw error
       end).

(** [{ ...entry, ...updatedInstance }] at the first entry whose ContainerId
    is [id]; [None] when there is none and the list is left alone. *)
Definition merged_list (stored : jsval) (id : string) (updatedInstance : jsval)
  : result (option (list jsval)) :=
  let? l := Arr.as_array (or_else stored (JArr [])) in
  let? found := Arr.findIndex (Arr.field_is "ContainerId" (JStr id)) l in
  match found with
  | Some i =>
      Ok (Some (<[i := spread2 (default JUndef (l !! i)) updatedInstance]> l))
  | None => Ok None
  end.

Definition batch_set (k : string) (l : option (list jsval)) : list Db.op :=
  match l with
  | Some l => [Db.Set_ k (JArr l)]
  | None => []
  end.

(** [{ ...instance, Image, Memory, Cpu, ContainerId: newContainerId,
    updatedAt }] *)
Definition updated_record (instance Image Memory Cpu newContainerId t : jsval) : jsval :=
  JObj (<["updatedAt" := t]>
       (<["ContainerId" := newContainerId]>
       (<["Cpu" := pick Cpu (getf instance "Cpu")]>
       (<["Memory" := pick Memory (getf instance "Memory")]>
       (<["Image" := pick Image (getf instance "Image")]>
          (own_props instance)))))).

Definition updateInstanceInDatabase (id : string)
    (instance Image Memory Cpu newContainerId : jsval) : M jsval :=
  let* t := now in
  let updatedInstance :=
    updated_record instance Image Memory Cpu newContainerId t in
  let batch :=
    [Db.Set_ (to_str newContainerId +:+ "_instance") updatedInstance;
     Db.Del (id +:+ "_instance")] in
  let user_key := to_str (getf instance "User") +:+ "_instances" in
  let* userInstances := Db.get user_key in
  let* updatedUserInstances := lift (merged_list userInstances id updatedInstance) in
  let batch := batch ++ batch_set user_key updatedUserInstances in
  let* globalInstances := Db.get "instances" in
  let* updatedGlobalInstances := lift (merged_list globalInstances id updatedInstance) in
  let batch := batch ++ batch_set "instances" updatedGlobalInstances in
  Db.write batch ;;
  ret updatedInstance.

Definition changes (b : body) : jsval :=
  let tag (v : jsval) := JStr (if truthy v then "updated" else "unchanged") in
  obj [("Image", tag (Image b)); ("Memory", tag (num (Memory b)));
       ("Cpu", tag (num (Cpu b)))].

(** The [catch] block:
    [status = error.response?.status || 500],
    [message = error.response?.data?.message || error.message || "Failed to update instance"]. *)
Definition error_message (error : jserr) : jsval :=
  match error with
  | AxiosError _ m _ | Error m | TypeError m | ReferenceError m => JStr m
  end.

Definition on_error (error : jserr) : reply :=
  let resp := match error with AxiosError _ _ r => r | _ => None end in
  let status :=
    match resp with
    | Some (st, _) => if st =? 0 then 500 else st
    | None => 500
    end in
  let from_node :=
    match resp with
    | Some (_, d) => opt_prop d "message"
    | None => JUndef
    end in
  Json status
    (obj [("message",
           or_else from_node
             (or_else (error_message error) (JStr "Failed to update instance")))]).

Definition out_of_range (n : option Z) (max : Z) : bool :=
  match n with
  | Some z => (z <=? 0) || (max <? z)
  | None => false
  end.

(** The checks of the request that come before the store is read; [None]
    when the request passes them all. *)
Definition rejected (user : jsval) (id : string) (b : body) : option reply :=
  if negb (truthy user) then Some (message 401 "Authentication required")
  else if String.eqb id "" || (64 <? Z.of_nat (String.length id))
  then Some (message 400 "Invalid instance ID")
  else if negb (truthy (Image b)) && negb (truthy (num (Memory b)))
          && negb (truthy (num (Cpu b)))
  then Some (message 400
               "At least one update parameter (Image, Memory, Cpu) is required")
  else if out_of_range (Memory b) MAX_MEMORY
  then Some (message 400 ("Memory must be between 0 and " +:+
                          pretty MAX_MEMORY +:+ " MB"))
  else if out_of_range (Cpu b) MAX_CPU
  then Some (message 400 ("CPU must be between 0 and " +:+ pretty MAX_CPU))
  else if truthy (Image b) &&
          match Image b with
          | JStr s => 512 <? Z.of_nat (String.length s)
          | _ => true
          end
  then Some (message 400 "Invalid image format or length")
  else None.

(** [!instance.Node || !instance.Node.address || !instance.Node.port ||
    !instance.Node.apiKey] *)
Definition bad_node (instance : jsval) : bool :=
  let node := getf instance "Node" in
  negb (truthy node) || negb (truthy (getf node "address"))
  || negb (truthy (getf node "port")) || negb (truthy (getf node "apiKey")).

(** [req.user && req.user.admin === true], the test of [isAdmin]. *)
Definition is_admin (user : jsval) : bool :=
  truthy user && strict_eq (getf user "admin") (JBool true).

(** PUT /instances/edit/:id, behind the [isAdmin] middleware of the file.
    The [details] of an error answer, present in development only, are left
    out. *)
Definition edit (user : jsval) (id : string) (b : body) : world -> reply * world :=
  if negb (is_admin user)
  then fun w => (message 403 "Forbidden: Admin access required", w)
  else
    route
      (match rejected user id b with
       | Some answer => ret answer
       | None =>
           let* instance := Db.get (id +:+ "_instance") in
           if negb (truthy instance) then ret (message 404 "Instance not found")
           else if bad_node instance
           then ret (message 500 "Invalid node configuration for this instance")
           else
             let requestData :=
               prepareEditRequestData instance (Image b) (num (Memory b))
                 (num (Cpu b)) in
             let* response := send_with_retry requestData in
             if negb (truthy (r_data response)) ||
                negb (truthy (getf (r_data response) "newContainerId"))
             then throw (Error "Invalid response from node API")
             else
               let newContainerId := getf (r_data response) "newContainerId" in
               updateInstanceInDatabase id instance (Image b) (num (Memory b))
                 (num (Cpu b)) newContainerId ;;
               logAudit ;;
               ret (Json 200
                      (obj [("message", JStr "Instance updated successfully");
                            ("oldContainerId", JStr id);
                            ("newContainerId", newContainerId);
                            ("changes", changes b)]))
       end)
      on_error.

End Edit.

(** ** Values shared by the image-change and reinstall handlers *)

Module Deploy.
Import JS.

(** [parseInt(v)]: the text of [v] is read; the text of a number is its
    digits (see the conventions: integers below 10^21 in size). *)
Definition parseInt (v : jsval) : option Z := Str.parse_int (to_str v).

(** [parseInt(v) || d] *)
Definition parseInt_or (v : jsval) (d : Z) : jsval :=
  match parseInt v with
  | Some z => JNum (if z =? 0 then d else z)
  | None => JNum d
  end.

(** One mapping [containerPort:hostPort] of the [Ports] text adds the key
    [containerPort/tcp] to [ExposedPorts] and to [PortBindings]. *)
Definition add_port (maps : gmap string jsval * gmap string jsval)
    (portMapping : string) : gmap string jsval * gmap string jsval :=
  let parts := Str.split ":" portMapping in
  let containerPort := default "" (parts !! 0%nat) in
  let hostPort := default "" (parts !! 1%nat) in
  if negb (String.eqb containerPort "") && negb (String.eqb hostPort "")
  then
    let key := containerPort +:+ "/tcp" in
    (<[key := JObj ∅]> maps.1,
     <[key := JArr [obj [("HostPort", JStr hostPort)]]]> maps.2)
  else maps.

Definition port_maps (mappings : list string) : gmap string jsval * gmap string jsval :=
  foldl add_port (∅, ∅) mappings.

(** [rawImages.find(i => i.Image === image)] over [db.get("images") || []] *)
Definition find_image (image : jsval) : M jsval :=
  let* rawImages := Db.get "images" in
  lift (let? l := Arr.as_array (or_else rawImages (JArr [])) in
        Arr.find (Arr.field_is "Image" image) l).

End Deploy.

(** ** routes/Instance/Startup.js *)

Module Startup.
Import JS Deploy.

Definition updateInstanceInUserAndGlobalArrays (instanceData : jsval) : M unit :=
  let user_key := to_str (getf instanceData "User") +:+ "_instances" in
  let* userInstances := Db.get user_key in
  let* userInstances' :=
    lift (let? l := Arr.as_array (or_else userInstances (JArr [])) in
          Arr.filter (Arr.field_is_not "Id" (getf instanceData "Id")) l) in
  Db.set user_key (JArr (userInstances' ++ [instanceData])) ;;
  let* globalInstances := Db.get "instances" in
  let* globalInstances' :=
    lift (let? l := Arr.as_array (or_else globalInstances (JArr [])) in
          Arr.filter (Arr.field_is_not "Id" (getf instanceData "Id")) l) in
  Db.set "instances" (JArr (globalInstances' ++ [instanceData])).

(** [if (typeof instance.suspended === "undefined") { instance.suspended =
    false; await db.set(key, instance) }] *)
Definition init_suspended (key : string) (instance : jsval) : M jsval :=
  if String.eqb (typeof (getf instance "suspended")) "undefined"
  then let instance := setf instance "suspended" (JBool false) in
       Db.set key instance ;; ret instance
  else ret instance.

(** The callback of [instance.Env.map]: the entry whose key is [variable]
    becomes [key=value]; the flag tells whether some entry matched. *)
Definition set_variable (variable value : jsval) (envVar : jsval)
  : result (jsval * bool) :=
  match envVar with
  | JStr s =>
      let key := Str.before "=" s in
      if strict_eq (JStr key) variable
      then Ok (JStr (key +:+ "=" +:+ to_str (or_else value (JStr ""))), true)
      else Ok (envVar, false)
  | _ => Throw (TypeError "envVar.split is not a function")
  end.

Fixpoint map_env (variable value : jsval) (env : list jsval)
  : result (list jsval * bool) :=
  match env with
  | [] => Ok ([], false)
  | x :: r =>
      let? y := set_variable variable value x in
      let? r' := map_env variable value r in
      Ok (y.1 :: r'.1, y.2 || r'.2)
  end.

Definition updated_env (variable value env : jsval) : result jsval :=
  let? l := Arr.as_array env in
  let? r := map_env variable value l in
  Ok (JArr (if r.2 then r.1
            else r.1 ++ [JStr (to_str variable +:+ "=" +:+
                               to_str (or_else value (JStr "")))])).

Definition error (status : Z) (text : string) : reply :=
  Json status (obj [("error", JStr text)]).

Definition error_details (text : string) (e : jserr) : reply :=
  Json 500 (obj [("error", JStr text); ("details", Edit.error_message e)]).

(** POST /instances/startup/changevariable/:id; [variable] and [value] come
    from the query string. *)
Definition change_variable (user : jsval) (id : string) (variable value : jsval)
  : world -> reply * world :=
  if negb (truthy user) then fun w => (Redirect 302 "/", w)
  else if String.eqb id "" || negb (truthy variable)
  then fun w => (error 400 "Missing parameters", w)
  else
    route
      (let* instance := Db.get (id +:+ "_instance") in
       if negb (truthy instance) then ret (error 404 "Instance not found")
       else
         let* isAuthorized :=
           AuthHelper.isUserAuthorizedForContainer (getf user "userId")
             (getf instance "Id") in
         if negb isAuthorized
         then ret (Send 403 "Unauthorized access to this instance.")
         else
           let* instance := init_suspended (id +:+ "_instance") instance in
           if strict_eq (getf instance "suspended") (JBool true)
           then ret (error 403 "Instance is suspended")
           else
             let* updatedEnv :=
               lift (let? env := prop instance "Env" in
                     updated_env variable value env) in
             let updatedInstance := spread_set instance "Env" updatedEnv in
             Db.set (id +:+ "_instance") updatedInstance ;;
             updateInstanceInUserAndGlobalArrays updatedInstance ;;
             logAudit ;;
             ret (Json 200 (obj [("success", JBool true)])))
      (error_details "Failed to update environment variable").

(** The first [prepareRequestData]: the redeploy request. *)
Definition prepareRequestData
    (image memory cpu disk ports name node : jsval) (id : string)
    (containerId Env : jsval) : M request :=
  let* imageData := find_image image in
  let number (v : jsval) : jsval :=
    if truthy v
    then match parseInt v with Some z => JNum z | None => JNull end
    else JUndef in
  let* maps :=
    if truthy ports
    then match ports with
         | JStr s => ret (port_maps (Str.split "," s))
         | _ => throw (TypeError "ports.split is not a function")
         end
    else ret (∅, ∅) in
  ret {| method := "post";
         url := node_url node +:+ "/instances/redeploy/" +:+ to_str containerId;
         password := getf node "apiKey";
         timeout := None;
         validate := Only2xx;
         data := obj [("Name", name); ("Id", JStr id); ("Image", image);
                      ("Env", match Env with JArr _ => Env | _ => JArr [] end);
                      ("Scripts", if truthy imageData then getf imageData "Scripts"
                                  else JUndef);
                      ("Memory", number memory); ("Cpu", number cpu);
                      ("ExposedPorts", JObj maps.1);
                      ("PortBindings", JObj maps.2);
                      ("AltImages", if truthy imageData
                                    then getf imageData "AltImages" else JArr [])] |}.

(** The first [updateDatabaseWithNewInstance]. *)
Definition updateDatabaseWithNewInstance
    (responseData userId node image memory cpu disk ports primary name : jsval)
    (id : string) (currentimage imagedata Env : jsval) : M unit :=
  let* imageData := find_image image in
  let altImages := if truthy imageData then getf imageData "AltImages" else JArr [] in
  let* containerId := lift (prop responseData "containerId") in
  let instanceData :=
    obj [("Name", name); ("Id", JStr id); ("Node", node); ("User", userId);
         ("ContainerId", containerId); ("VolumeId", JStr id);
         ("Memory", parseInt_or memory 0); ("Cpu", parseInt_or cpu 0);
         ("Disk", parseInt_or disk 0); ("Ports", ports); ("Primary", primary);
         ("currentimage", currentimage);
         ("Env", match Env with JArr _ => Env | _ => JArr [] end);
         ("Image", image); ("AltImages", altImages); ("imageData", imagedata);
         ("suspended", JBool false)] in
  updateInstanceInUserAndGlobalArrays instanceData ;;
  Db.set (id +:+ "_instance") instanceData.

(** GET /instances/startup/changeimage/:id; [image] and [quser] are the
    [image] and [user] parameters of the query string. *)
Definition change_image (user : jsval) (id : string) (image quser : jsval)
  : world -> reply * world :=
  if negb (truthy user) then fun w => (Redirect 302 "/", w)
  else if String.eqb id "" then fun w => (Redirect 302 "/instances", w)
  else
    route
      (let* instance := Db.get (id +:+ "_instance") in
       if negb (truthy instance) then ret (Redirect 302 "/instances")
       else
         let* isAuthorized :=
           AuthHelper.isUserAuthorizedForContainer (getf user "userId")
             (getf instance "Id") in
         if negb isAuthorized
         then ret (Send 403 "Unauthorized access to this instance.")
         else
           let* instance := init_suspended (id +:+ "_instance") instance in
           if strict_eq (getf instance "suspended") (JBool true)
           then ret (Redirect 302 ("../../instance/" +:+ id +:+ "/suspended"))
           else
             let* nodeId := lift (prop (getf instance "Node") "id") in
             if negb (truthy image) || negb (truthy quser) || negb (truthy nodeId)
             then ret (error 400 "Missing parameters")
             else
               let* node := Db.get (to_str nodeId +:+ "_node") in
               if negb (truthy node) then ret (error 400 "Invalid node")
               else
                 let* requestData :=
                   prepareRequestData image (getf instance "Memory")
                     (getf instance "Cpu") (getf instance "Disk")
                     (getf instance "Ports") (getf instance "Name") node id
                     (getf instance "ContainerId") (getf instance "Env") in
                 let* response := axios requestData in
                 let* oldImage := lift (prop (getf instance "imageData") "Image") in
                 updateDatabaseWithNewInstance (r_data response) quser node
                   oldImage (getf instance "Memory") (getf instance "Cpu")
                   (getf instance "Disk") (getf instance "Ports")
                   (getf instance "Primary") (getf instance "Name") id image
                   (getf instance "imageData") (getf instance "Env") ;;
                 logAudit ;;
                 ret (Redirect 201 ("/instance/" +:+ id +:+ "/startup")))
      (fun e =>
         Json 500
           (obj [("error", JStr "Failed to change container image");
                 ("details",
                  match e with
                  | AxiosError _ _ (Some (_, d)) =>
                      or_else d (JStr "No additional error info")
                  | _ => Edit.error_message e
                  end)])).

(** GET /instance/:id/change/name/:name.  The handler has no [try].  Once
    the caller is authorised it calls [isInstanceSuspended], a name the
    module neither defines nor imports (it requires
    [isUserAuthorizedForContainer] alone): the call throws a
    [ReferenceError], and the renaming that follows it in the source is
    never reached. *)
Definition rename (user : jsval) (id name : string) : world -> reply * world :=
  route
    (if negb (truthy user) then ret (Send 401 "Authentication required")
     else if String.eqb (Str.trim name) ""
     then ret (Send 400 "Name cannot be empty")
     else if (50 <? String.length name)%nat
     then ret (Send 400 "Name cannot exceed 50 characters")
     else if negb (Str.all_chars Str.name_char name)
     then ret (Send 400 "Name can only contain alphanumeric characters and spaces")
     else
       let* instance := Db.get (id +:+ "_instance") in
       if negb (truthy instance) then ret (Send 404 "Instance not found")
       else
         let* isAuthorized :=
           AuthHelper.isUserAuthorizedForContainer (getf user "userId")
             (getf instance "Id") in
         if negb isAuthorized
         then ret (Send 403 "Unauthorized access to this instance.")
         else throw (ReferenceError "isInstanceSuspended is not defined"))
    Unhandled.

End Startup.

(** ** The reinstall router (second part of routes/Instance/Startup.js) *)

Module Reinstall.
Import JS Deploy.

Definition DEFAULT_MEMORY : Z := 512.
Definition DEFAULT_CPU : Z := 100.
Definition DEFAULT_DISK : Z := 10.
Definition REQUEST_TIMEOUT : Z := 30000.

Definition requiredFields : list string :=
  ["Node"; "Image"; "Memory"; "Cpu"; "Name"; "User"; "Primary"; "ContainerId"].

(** [requiredFields.filter(field => !instance[field])] *)
Definition missingFields (instance : jsval) : list string :=
  List.filter (fun field => negb (truthy (getf instance field))) requiredFields.

(** A destructuring default: [{ f = d } = instance]. *)
Definition field_or (instance : jsval) (f : string) (d : jsval) : jsval :=
  if strict_eq (getf instance f) JUndef then d else getf instance f.

(** The body of [prepareRequestData] inside its [try]. *)
Definition request_data
    (image memory cpu disk ports name node : jsval) (id : string)
    (containerId Env : jsval) : M request :=
  let* imageData := find_image image in
  if negb (truthy imageData)
  then throw (Error ("Image " +:+ to_str image +:+ " not found in database"))
  else if negb (truthy (opt_prop node "address")) || negb (truthy (opt_prop node "port"))
          || negb (truthy (opt_prop node "apiKey"))
  then throw (Error "Invalid node configuration")
  else
    let maps :=
      match ports with
      | JStr s =>
          port_maps
            (List.filter (fun p => negb (String.eqb p ""))
               (List.map Str.trim (Str.split "," s)))
      | _ => (∅, ∅)
      end in
    ret {| method := "post";
           url := node_url node +:+ "/instances/reinstall/" +:+ to_str containerId;
           password := getf node "apiKey";
           timeout := Some REQUEST_TIMEOUT;
           validate := Only2xx;
           data := obj [("Name", name); ("Id", JStr id); ("Image", image);
                        ("Env", or_else Env (JObj ∅));
                        ("Scripts", or_else (getf imageData "Scripts") (JArr []));
                        ("Memory", parseInt_or memory DEFAULT_MEMORY);
                        ("Cpu", parseInt_or cpu DEFAULT_CPU);
                        ("Disk", parseInt_or disk DEFAULT_DISK);
                        ("ExposedPorts", JObj maps.1);
                        ("PortBindings", JObj maps.2);
                        ("AltImages", or_else (getf imageData "AltImages") (JArr []));
                        ("imageData", or_else imageData (JObj ∅))] |}.

Definition prepareRequestData
    (image memory cpu disk ports name node : jsval) (id : string)
    (containerId Env : jsval) : M request :=
  try_catch
    (request_data image memory cpu disk ports name node id containerId Env)
    (fun error =>
       throw (Error ("Failed to prepare request data: " +:+
                     to_str (Edit.error_message error)))).

(** The record written after a reinstall. *)
Definition instance_data
    (responseData userId node image memory cpu disk ports primary name : jsval)
    (id : string) (Env imageData now : jsval) : jsval :=
  obj [("Name", name); ("Id", JStr id); ("Node", node); ("User", userId);
       ("ContainerId", getf responseData "containerId");
       ("VolumeId", JStr id);
       ("Memory", parseInt_or memory DEFAULT_MEMORY);
       ("Cpu", parseInt_or cpu DEFAULT_CPU);
       ("Disk", parseInt_or disk DEFAULT_DISK);
       ("Ports", ports); ("Primary", primary); ("Image", image);
       ("AltImages", or_else (opt_prop imageData "AltImages") (JArr []));
       ("imageData", or_else imageData (JObj ∅));
       ("Env", or_else Env (JObj ∅));
       ("createdAt", now); ("updatedAt", now);
       ("status", JStr "running");
       ("lastOperation", obj [("type", JStr "reinstall"); ("timestamp", now);
                              ("status", JStr "completed")])].

(** The second [updateDatabaseWithNewInstance]: both lists and the record
    are set, in this order; an error is thrown again under a new message. *)
Definition updateDatabaseWithNewInstance
    (responseData userId node image memory cpu disk ports primary name : jsval)
    (id : string) (Env : jsval) : M unit :=
  try_catch
    (let* imageData := find_image image in
     let* t := now in
     let* _ := lift (prop responseData "containerId") in
     let instanceData :=
       instance_data responseData userId node image memory cpu disk ports
         primary name id Env imageData t in
     let user_key := to_str userId +:+ "_instances" in
     let* userInstances := Db.get user_key in
     let* userInstances' :=
       lift (let? l := Arr.as_array (or_else userInstances (JArr [])) in
             Arr.filter (Arr.field_is_not "Id" (JStr id)) l) in
     Db.set user_key (JArr (userInstances' ++ [instanceData])) ;;
     let* globalInstances := Db.get "instances" in
     let* globalInstances' :=
       lift (let? l := Arr.as_array (or_else globalInstances (JArr [])) in
             Arr.filter (Arr.field_is_not "Id" (JStr id)) l) in
     Db.set "instances" (JArr (globalInstances' ++ [instanceData])) ;;
     Db.set (id +:+ "_instance") instanceData ;;
     logAudit)
    (fun error =>
       logAudit ;;
       throw (Error ("Failed to update database: " +:+
                     to_str (Edit.error_message error)))).

(** [handleReinstallError].  [accept] is [res.get("Accept")]; the headers,
    the request object and the stack are left out of the details. *)
Definition handleReinstallError (accept : option string) (error : jserr) : reply :=
  let base := "Failed to reinstall container" in
  let '(statusCode, errorMessage, errorDetails) :=
    match error with
    | AxiosError _ _ (Some (st, d)) =>
        let statusCode := if st =? 0 then 502 else st in
        (statusCode, base +:+ ": Node responded with " +:+ pretty statusCode,
         obj [("nodeResponse", d); ("status", JNum st)])
    | AxiosError _ _ None =>
        (504, base +:+ ": No response received from node",
         obj [("message", JStr "Node may be offline or unreachable")])
    | Error m | TypeError m | ReferenceError m =>
        (500, base, obj [("message", JStr m)])
    end in
  if match accept with
     | Some a => Str.includes a "application/json"
     | None => false
     end
  then Json statusCode (obj [("error", JStr errorMessage); ("details", errorDetails)])
  else Redirect 302 ("../../instances?err=REINSTALL_FAILED&message=" +:+
                 Str.encodeURIComponent errorMessage).

(** POST /instance/reinstall/:id *)
Definition reinstall (accept : option string) (user : jsval) (id : string)
  : world -> reply * world :=
  if negb (truthy user) then fun w => (Redirect 401 "/", w)
  else if String.eqb id ""
  then fun w => (Redirect 400 "/instances?err=MISSING_INSTANCE_ID", w)
  else
    route
      (let* instance := Db.get (id +:+ "_instance") in
       if negb (truthy instance)
       then ret (Redirect 404 "/instances?err=INSTANCE_NOT_FOUND")
       else
         let* isAuthorized :=
           AuthHelper.isUserAuthorizedForContainer (getf user "userId")
             (getf instance "Id") in
         if negb isAuthorized then ret (Render 403 "error")
         else if strict_eq (getf instance "suspended") (JBool true)
         then ret (Redirect 302 "../../instances?err=SUSPENDED")
         else
           match missingFields instance with
           | _ :: _ =>
               ret (Json 400
                      (obj [("error", JStr "Missing required parameters");
                            ("missingFields",
                             JArr (JStr <$> missingFields instance))]))
           | [] =>
               let node := getf instance "Node" in
               let image := getf instance "Image" in
               let memory := field_or instance "Memory" (JNum DEFAULT_MEMORY) in
               let cpu := field_or instance "Cpu" (JNum DEFAULT_CPU) in
               let disk := field_or instance "Disk" (JNum DEFAULT_DISK) in
               let ports := field_or instance "Ports" (JStr "") in
               let name := getf instance "Name" in
               let user' := getf instance "User" in
               let primary := getf instance "Primary" in
               let containerId := getf instance "ContainerId" in
               let Env := field_or instance "Env" (JObj ∅) in
               let* requestData :=
                 prepareRequestData image memory cpu disk ports name node id
                   containerId Env in
               let* response := axios requestData in
               if negb (truthy (opt_prop (r_data response) "containerId"))
               then throw (Error "Invalid response from node: Missing containerId")
               else
                 updateDatabaseWithNewInstance (r_data response) user' node image
                   memory cpu disk ports primary name id Env ;;
                 logAudit ;;
                 ret (Redirect 201 ("../../instance/" +:+ id))
           end)
      (handleReinstallError accept).

End Reinstall.

(** ** routes/Instance/Instance.js *)

Module InstanceView.
Import JS.

(** [typeof id === "string" && id.length > 0 && /^[a-zA-Z0-9-_]+$/.test(id)] *)
Definition validateInstanceId (id : string) : bool :=
  negb (String.eqb id "") && Str.all_chars Str.id_char id.

(** [instance.suspended = typeof instance.suspended === "boolean" ?
    instance.suspended : false; instance.State = instance.State || "UNKNOWN"] *)
Definition normalized (instance : jsval) : jsval :=
  let instance :=
    setf instance "suspended"
      (if String.eqb (typeof (getf instance "suspended")) "boolean"
       then getf instance "suspended" else JBool false) in
  setf instance "State" (or_else (getf instance "State") (JStr "UNKNOWN")).

(** GET /instance/:id.  The file listing handed to the view is fetched
    inside its own [try] and does not touch the store. *)
Definition view (user : jsval) (id : string) : world -> reply * world :=
  route
    (if negb (truthy user) then ret (Redirect 302 "/")
     else if negb (validateInstanceId id) then ret (Redirect 302 "/")
     else
       let* instance := Db.get (id +:+ "_instance") in
       if negb (truthy instance) then ret (Redirect 302 "../instances")
       else
         let* isAuthorized :=
           AuthHelper.isUserAuthorizedForContainer (getf user "userId")
             (getf instance "Id") in
         if negb isAuthorized then ret (Render 403 "error")
         else
           let instance := normalized instance in
           Db.set (id +:+ "_instance") instance ;;
           if strict_eq (getf instance "State") (JStr "INSTALLING")
           then ret (Redirect 302 ("../../instance/" +:+ id +:+ "/installing"))
           else if strict_eq (getf instance "suspended") (JBool true)
           then ret (Redirect 302 "../../instances?err=SUSPENDED")
           else ret (Render 200 "instance/instance"))
    (fun _ => Render 500 "error").

(** The inner [try] of the rename handler: the record, the global list, the
    list of the signed-in user. *)
Definition write_names (user : jsval) (id : string) (instance oldName : jsval)
    (trimmedName : string) : M reply :=
  Db.set (id +:+ "_instance") instance ;;
  let* allInstances := Db.get "instances" in
  let* global := lift (renamed_list "Id" allInstances id trimmedName) in
  write_back "instances" global ;;
  let own := to_str (getf user "userId") +:+ "_instances" in
  let* userInstances := Db.get own in
  let* mine := lift (renamed_list "Id" userInstances id trimmedName) in
  write_back own mine ;;
  ret (Json 200 (obj [("success", JBool true); ("newName", JStr trimmedName);
                      ("oldName", oldName)])).

(** [!newName || typeof newName !== "string" || newName.trim().length === 0] *)
Definition bad_name (newName : jsval) : bool :=
  match newName with
  | JStr s => String.eqb (Str.trim s) ""
  | _ => true
  end.

(** POST /instance/:id/rename; [newName] is read from the body. *)
Definition rename (user : jsval) (id : string) (newName : jsval)
    : world -> reply * world :=
  route
    (if negb (validateInstanceId id)
     then ret (Json 400 (obj [("success", JBool false);
                              ("error", JStr "Invalid instance ID")]))
     else if bad_name newName
     then ret (Json 400 (obj [("success", JBool false);
                              ("error", JStr "Invalid name provided")]))
     else
       let trimmedName := Str.trim (to_str newName) in
       if (64 <? String.length trimmedName)%nat
       then ret (Json 400 (obj [("success", JBool false);
                                ("error", JStr "Name too long (max 64 characters)")]))
       else
         let* instance := Db.get (id +:+ "_instance") in
         if negb (truthy instance)
         then ret (Json 404 (obj [("success", JBool false);
                                  ("error", JStr "Instance not found")]))
         else
           let* userId := lift (prop user "userId") in
           let* isAuthorized :=
             AuthHelper.isUserAuthorizedForContainer userId (getf instance "Id") in
           if negb isAuthorized
           then ret (Json 403 (obj [("success", JBool false);
                                    ("error", JStr "Unauthorized access to this instance.")]))
           else
             let oldName := getf instance "Name" in
             let instance := setf instance "Name" (JStr trimmedName) in
             try_catch (write_names user id instance oldName trimmedName)
               (fun _ =>
                  Db.set (id +:+ "_instance") (setf instance "Name" oldName) ;;
                  ret (Json 500 (obj [("success", JBool false);
                                      ("error", JStr "Failed to update instance name")]))))
    (fun _ => Json 500 (obj [("success", JBool false);
                             ("error", JStr "Internal Server Error")])).

End InstanceView.

(** ** The three places of an instance, and what it means to agree *)

Module Sync.
Import JS.

Definition rec_at (w : world) (k : string) : jsval :=
  default JUndef (db w !! k).

(** What a handler reads under [k] as a list: [(await db.get(k)) || []]. *)
Definition list_at (w : world) (k : string) : jsval :=
  or_else (rec_at w k) (JArr []).

Definition entries (w : world) (k : string) : list jsval :=
  match list_at w k with
  | JArr l => l
  | _ => []
  end.

Definition instance_key (id : string) : string := id +:+ "_instance".

Definition owner_key (record : jsval) : string :=
  to_str (getf record "User") +:+ "_instances".

Definition same_id (a b : jsval) : Prop :=
  strict_eq (getf a "Id") (getf b "Id") = true.

Definition agree_on (fields : list string) (a b : jsval) : Prop :=
  forall f, f ∈ fields -> getf a f = getf b f.

(** Every entry of the list under [k] that carries the Id of the record
    under [key] agrees with that record on [fields]. *)
Definition list_agrees (fields : list string) (w : world) (key k : string) : Prop :=
  forall e, e ∈ entries w k -> same_id e (rec_at w key) ->
            agree_on fields e (rec_at w key).


(** Every entry of the list under [k] with the Id of the record under [key]
    is that very record, and there is one. *)
Definition list_holds (w : world) (key k : string) : Prop :=
  rec_at w key ∈ entries w k /\
  forall e, e ∈ entries w k -> same_id e (rec_at w key) -> e = rec_at w key.

(** The entries of a list whose field [f] is not [x]. *)
Definition without (f : string) (x : jsval) (l : list jsval) : list jsval :=
  List.filter (fun e => negb (strict_eq (getf e f) x)) l.

Definition no_hole (l : list jsval) : Prop :=
  Forall (fun e => nullish e = false) l.

(** [i] is the first position of [l] whose field [f] is [x]. *)
Definition first_at (f : string) (x : jsval) (l : list jsval) (i : nat) : Prop :=
  (exists e, l !! i = Some e /\ strict_eq (getf e f) x = true) /\
  forall j e, (j < i)%nat -> l !! j = Some e -> strict_eq (getf e f) x = false.

(** The synchroniser as the specification words it: locate the entry whose
    Id equals the record's stable id; if found, replace it in place, else
    append. *)
Fixpoint spec_locate (record : jsval) (l : list jsval) : option nat :=
  match l with
  | [] => None
  | e :: r =>
      if strict_eq (getf e "Id") (getf record "Id") then Some 0%nat
      else S <$> spec_locate record r
  end.

Definition spec_sync (record : jsval) (l : list jsval) : list jsval :=
  match spec_locate record l with
  | Some i => <[i := record]> l
  | None => l ++ [record]
  end.

(** The mutating operations and their handlers. *)
Inductive mutation : Type :=
| AdminSuspend (id : string)
| AdminUnsuspend (id : string)
| ApiSuspend (id : jsval)
| ApiUnsuspend (user id : jsval)
| ChangeVariable (user : jsval) (id : string) (variable value : jsval)
| ChangeImage (user : jsval) (id : string) (image quser : jsval)
| ReinstallOp (accept : option string) (user : jsval) (id : string)
| EditOp (user : jsval) (id : string) (b : Edit.body)
| RenameOp (user : jsval) (id : string) (newName : jsval).

Definition run (m : mutation) : world -> reply * world :=
  match m with
  | AdminSuspend id => AdminInstances.suspend id
  | AdminUnsuspend id => AdminInstances.unsuspend id
  | ApiSuspend id => Api.suspend id
  | ApiUnsuspend user id => Api.unsuspend user id
  | ChangeVariable user id variable value =>
      Startup.change_variable user id variable value
  | ChangeImage user id image quser => Startup.change_image user id image quser
  | ReinstallOp accept user id => Reinstall.reinstall accept user id
  | EditOp user id b => Edit.edit user id b
  | RenameOp user id newName => InstanceView.rename user id newName
  end.

(** The answer of a handler that went through: the success flash of the
    admin routes, status 200 of the JSON routes, the 201 redirect of image
    change and reinstall. *)
Definition succeeded (m : mutation) (r : reply) : Prop :=
  match m, r with
  | (AdminSuspend _ | AdminUnsuspend _), Flash ok _ _ => ok = true
  | (ApiSuspend _ | ApiUnsuspend _ _ | ChangeVariable _ _ _ _ | EditOp _ _ _
     | RenameOp _ _ _),
    Json status _ => status = 200
  | (ChangeImage _ _ _ _ | ReinstallOp _ _ _), Redirect status _ => status = 201
  | _, _ => False
  end.

(** The batch [updateInstanceInDatabase] commits: the record under the new
    key, the deletion of the old key, and each list in which an entry was
    found. *)
Definition edit_batch (id : string) (record ncid : jsval)
    (ru rg : option (list jsval)) : list Db.op :=
  [Db.Set_ (to_str ncid +:+ "_instance") record; Db.Del (id +:+ "_instance")]
  ++ Edit.batch_set (owner_key record) ru ++ Edit.batch_set "instances" rg.

(** What the handlers leave in the three places, by design. *)







End Sync.

(** ** The node client as the specification words it *)

Module NodeClient.

(** A transport failure or an HTTP status of 500 and above. *)
Definition failure (a : wire) : bool :=
  match a with
  | NoReply _ _ => true
  | Reply st _ => 500 <=? st
  end.

Definition client_error (a : wire) : bool :=
  match a with
  | NoReply _ _ => false
  | Reply st _ => (400 <=? st) && (st <? 500)
  end.

(** "On transport failure or HTTP >= 500, retries exactly once; on a second
    failure or any 4xx, surfaces the error unmodified to the caller", said of
    the call [call rq] made in world [w]. *)
Definition retries_once_then_surfaces
    (call : request -> M response) (rq : request) (w : world) : Prop :=
  let first := daemon w (length (sent w)) rq in
  let second := daemon w (S (length (sent w))) rq in
  (failure first = true ->
   sent (call rq w).2 = sent w ++ [rq; rq] /\
   (failure second = true \/ client_error second = true ->
    (call rq w).1 = Throw (rejection second))) /\
  (client_error first = true ->
   sent (call rq w).2 = sent w ++ [rq] /\ (call rq w).1 = Throw (rejection first)).

(** What the edit handler retries on: a timeout ([ECONNABORTED]) or an
    answer of status 500 and above. *)
Definition retried (a : wire) : bool :=
  match a with
  | NoReply code _ => bool_decide (code = "ECONNABORTED")
  | Reply st _ => 500 <=? st
  end.

(** A computation, or a handler, that sends no request ... *)
Definition sends_nothing {A} (h : world -> A * world) : Prop :=
  forall w, sent (h w).2 = sent w.

(** ... and one that sends at most one request in a run, whatever the
    answer to it is. *)
Definition sends_at_most_once {A} (h : world -> A * world) : Prop :=
  forall w, sent (h w).2 = sent w \/ exists rq, sent (h w).2 = sent w ++ [rq].

End NodeClient.

(** ** A small installation, for the examples *)

Module Example.
Import JS.

Definition node1 : jsval :=
  obj [("id", JStr "n1"); ("address", JStr "10.0.0.1"); ("port", JNum 3002);
       ("apiKey", JStr "k1")].

(** The record of instance [i1] as the deploy route leaves it: stored under
    its Id, running in container [c1], owned by [u1]. *)
Definition fields1 : gmap string jsval :=
  list_to_map
    [("Id", JStr "i1"); ("ContainerId", JStr "c1"); ("User", JStr "u1");
     ("Name", JStr "srv"); ("Image", JStr "img"); ("Memory", JNum 512);
     ("Cpu", JNum 100); ("Node", node1); ("Primary", JStr "25565");
     ("Env", JArr [JStr "A=1"])].

Definition inst1 : jsval := JObj fields1.

(** The same record without its [Node]. *)
Definition nodeless : jsval := JObj (base.delete "Node" fields1).

Definition owner : jsval := obj [("userId", JStr "u1")].
Definition admin : jsval := obj [("userId", JStr "adm"); ("admin", JBool true)].
Definition users : jsval := JArr [owner; admin].
Definition images : jsval := JArr [obj [("Image", JStr "img")]].

(** The store in which [record] is the instance [i1], in its three places. *)
Definition store (record : jsval) : gmap string jsval :=
  list_to_map [("i1_instance", record); ("u1_instances", JArr [record]);
               ("instances", JArr [record]); ("users", users);
               ("images", images)].

Definition always (answer : wire) : nat -> request -> wire := fun _ _ => answer.

Definition world_of (m : gmap string jsval) (d : nat -> request -> wire) : world :=
  {| db := m; sent := []; daemon := d; clock := fun _ => "2024-01-01T00:00:00.000Z";
     ticks := 0 |}.

(** A daemon that answers every request with status 500. *)
Definition failing : nat -> request -> wire := always (Reply 500 JNull).

(** A daemon that cannot be reached. *)
Definition unreachable : nat -> request -> wire :=
  always (NoReply "ECONNREFUSED" "connect ECONNREFUSED 10.0.0.1:3002").

(** A daemon that carries out what it is asked and names the new container. *)
Definition obliging : nat -> request -> wire :=
  always (Reply 200 (obj [("newContainerId", JStr "c2"); ("containerId", JStr "c2")])).

Definition suspended1 : jsval := setf inst1 "suspended" (JBool true).

(** A daemon that refuses: status 404 on every request. *)
Definition refusing : nat -> request -> wire :=
  always (Reply 404 (obj [("message", JStr "no such container")])).


Definition healthy : world := world_of (store inst1) obliging.
Definition with_failing_node : world := world_of (store inst1) failing.
Definition with_unreachable_node : world := world_of (store inst1) unreachable.
Definition with_refusing_node : world := world_of (store inst1) refusing.
Definition with_suspended_instance : world := world_of (store suspended1) obliging.
Definition with_nodeless_instance : world := world_of (store nodeless) obliging.

(** An edit request that only raises the memory. *)
Definition more_memory : Edit.body :=
  {| Edit.Image := JUndef; Edit.Memory := Some 2048; Edit.Cpu := None |}.

Definition edit_request : request :=
  Edit.prepareEditRequestData inst1 JUndef (JNum 2048) JUndef.

(** The record [isInstanceSuspended] writes under a key that held nothing:
    it has no [Id]. Here it sits under the user id of the administrator. *)
Definition blank : jsval :=
  obj [("suspended", JBool false);
       ("createdAt", JStr "2024-01-01T00:00:00.000Z");
       ("lastUpdated", JStr "2024-01-01T00:00:00.000Z")].

Definition with_blank_record : world :=
  world_of (<["adm_instance" := blank]> (store inst1)) obliging.

(** A second instance whose container id reads like the Id of the first. *)
Definition inst2 : jsval :=
  obj [("Id", JStr "i2"); ("ContainerId", JStr "i1"); ("User", JStr "u1")].

(** The record of [i1] after its container was replaced by [c2]. *)
Definition moved1 : jsval := setf inst1 "ContainerId" (JStr "c2").

(** An entry of some other instance. *)
Definition inst3 : jsval :=
  obj [("Id", JStr "i3"); ("ContainerId", JStr "c3"); ("User", JStr "u1")].

End Example.

(** ** routes/api.js: the users as the API shows them

    The handlers run behind [validateApiKey]; what follows is what they do
    once the key has been accepted. *)

Module ApiUsers.
Import JS.

(** [const { f, ...rest } = v]: the own properties of [v] but [f].
    Destructuring [undefined] or [null] throws. *)
Definition rest_without (f : string) (v : jsval) : result jsval :=
  if nullish v
  then Throw (TypeError ("Cannot destructure property of " +:+ to_str v))
  else Ok (JObj (base.delete f (own_props v))).

(** GET /api/users *)
Definition users : world -> reply * world :=
  route
    (let* users := Db.get "users" in
     let* sanitizedUsers :=
       lift (let? l := Arr.as_array (or_else users (JArr [])) in
             Arr.map (rest_without "password") l) in
     ret (Json 200 (JArr sanitizedUsers)))
    (fun _ => Api.errorResponse 500 "Failed to retrieve users").

Definition quoted (s : string) : string :=
  String (ascii_of_nat 34) (s +:+ String (ascii_of_nat 34) EmptyString).

(** POST /api/getUser; [type] and [value] are read from the body. *)
Definition getUser (type value : jsval) : world -> reply * world :=
  route
    (if negb (truthy type) || negb (truthy value)
     then ret (Api.errorResponse 400 "Type and value are required")
     else
       let* stored := Db.get "users" in
       let users := or_else stored (JArr []) in
       let found (f : string) : M reply :=
         let* user := lift (let? l := Arr.as_array users in
                            Arr.find (Arr.field_is f value) l) in
         if negb (truthy user) then ret (Api.errorResponse 404 "User not found")
         else
           let* userData := lift (rest_without "password" user) in
           ret (Json 200 userData) in
       if strict_eq type (JStr "email") then found "email"
       else if strict_eq type (JStr "username") then found "username"
       else ret (Api.errorResponse 400
                   ("Invalid search type. Use " +:+ quoted "email" +:+ " or " +:+
                    quoted "username" +:+ ".")))
    (fun _ => Api.errorResponse 500 "Failed to retrieve user").

End ApiUsers.

(** ** routes/api.js: the nodes *)

Module ApiNodes.
Import JS.

Fixpoint mapM {A B} (f : A -> M B) (l : list A) : M (list B) :=
  match l with
  | [] => ret []
  | x :: r => let* y := f x in let* r' := mapM f r in ret (y :: r')
  end.

(** The callback of the listing: the record of the node, cut down to the
    fields that are public.  [node.id] throws when there is no record. *)
Definition node_details (id : jsval) : M jsval :=
  let* node := Db.get (to_str id +:+ "_node") in
  lift (let? nid := prop node "id" in
        Ok (obj [("id", nid); ("name", getf node "name");
                 ("status", getf node "status"); ("tags", getf node "tags");
                 ("address", getf node "address"); ("port", getf node "port");
                 ("versionFamily", getf node "versionFamily");
                 ("versionRelease", getf node "versionRelease")])).

(** GET /api/nodes.  The callbacks only read the store, so the order in
    which [Promise.all] lets them run does not show; one that throws makes
    the whole listing fail. *)
Definition nodes : world -> reply * world :=
  route
    (let* nodes := Db.get "nodes" in
     let* l := lift (Arr.as_array (or_else nodes (JArr []))) in
     let* nodeDetails := mapM node_details l in
     ret (Json 200 (JArr nodeDetails)))
    (fun _ => Api.errorResponse 500 "Failed to retrieve nodes").

Record params : Type := {
  name : jsval; tags : jsval; ram : jsval; disk : jsval; processor : jsval;
  address : jsval; port : jsval }.

Definition new_node (configureKey id : string) (p : params) (createdAt : jsval)
    : jsval :=
  obj [("id", JStr id); ("name", name p); ("tags", tags p); ("ram", ram p);
       ("disk", disk p); ("processor", processor p); ("address", address p);
       ("port", port p); ("apiKey", JNull); ("configureKey", JStr configureKey);
       ("status", JStr "Unconfigured"); ("createdAt", createdAt)].

(** POST /api/nodes/create.  [configureKey] and [id] are the two values
    [uuidv4()] gives, in the order of the calls. *)
Definition create (configureKey id : string) (p : params) : world -> reply * world :=
  if negb (truthy (name p)) || negb (truthy (tags p)) || negb (truthy (ram p)) ||
     negb (truthy (disk p)) || negb (truthy (processor p)) ||
     negb (truthy (address p)) || negb (truthy (port p))
  then fun w => (Api.errorResponse 400 "All node parameters are required", w)
  else
    route
      (let* createdAt := now in
       let node := new_node configureKey id p createdAt in
       Db.set (id +:+ "_node") node ;;
       let* stored := Db.get "nodes" in
       let* nodes := lift (Arr.as_array (or_else stored (JArr []))) in
       Db.set "nodes" (JArr (nodes ++ [JStr id])) ;;
       ret (Json 201 (obj [("success", JBool true); ("nodeId", JStr id);
                           ("configureKey", JStr configureKey)])))
      (fun _ => Api.errorResponse 500 "Failed to create node").

(** [instance => instance.Node && instance.Node.id === nodeId] *)
Definition runs_on (nodeId : jsval) (instance : jsval) : result bool :=
  let? node := prop instance "Node" in
  Ok (truthy node && strict_eq (getf node "id") nodeId).

(** [id => id !== nodeId] *)
Definition is_not (nodeId : jsval) (id : jsval) : result bool :=
  Ok (negb (strict_eq id nodeId)).

(** DELETE /api/nodes/delete/:id *)
Definition delete (nodeId : string) : world -> reply * world :=
  if String.eqb nodeId ""
  then fun w => (Api.errorResponse 400 "Node ID is required", w)
  else
    route
      (let* instances := Db.get "instances" in
       let* nodeInstances :=
         lift (let? l := Arr.as_array (or_else instances (JArr [])) in
               Arr.filter (runs_on (JStr nodeId)) l) in
       if (0 <? length nodeInstances)%nat
       then ret (Api.errorResponse 400 "Cannot delete node with active instances")
       else
         let* nodes := Db.get "nodes" in
         let* newNodes :=
           lift (let? l := Arr.as_array (or_else nodes (JArr [])) in
                 Arr.filter (is_not (JStr nodeId)) l) in
         Db.set "nodes" (JArr newNodes) ;;
         Db.delete (nodeId +:+ "_node") ;;
         ret (Json 200 (obj [("success", JBool true);
                             ("message", JStr "Node successfully deleted")])))
      (fun _ => Api.errorResponse 500 "Failed to delete node").

End ApiNodes.

(** ** routes/api.js: the deploy route *)

Module ApiDeploy.
Import JS.

(** The fields of the request body. *)
Record body : Type := {
  image : jsval; imagename : jsval; memory : jsval; cpu : jsval; disk : jsval;
  ports : jsval; nodeId : jsval; name : jsval; user : jsval; primary : jsval;
  variables : jsval }.

Definition requiredParams (b : body) : list (string * jsval) :=
  [("image", image b); ("memory", memory b); ("cpu", cpu b); ("ports", ports b);
   ("nodeId", nodeId b); ("name", name b); ("user", user b);
   ("primary", primary b)].

Definition missingParams (b : body) : list string :=
  (List.filter (fun kv => negb (truthy kv.2)) (requiredParams b)).*1.

(** [rawImages.find(i => i.Name === imagename)] over [db.get("images") || []] *)
Definition find_image (imagename : jsval) : M jsval :=
  let* rawImages := Db.get "images" in
  lift (let? l := Arr.as_array (or_else rawImages (JArr [])) in
        Arr.find (Arr.field_is "Name" imagename) l).

(** [parseInt(v)]; [NaN] is kept as [null] on the wire and in the store. *)
Definition number (v : jsval) : jsval :=
  match Deploy.parseInt v with
  | Some z => JNum z
  | None => JNull
  end.

(** [hostPort || d], [hostPort] being the second part of the mapping, when
    there is one. *)
Definition host_or (hostPort : option string) (d : string) : string :=
  match hostPort with
  | Some h => if String.eqb h "" then d else h
  | None => d
  end.

Definition binding (hostPort : string) : jsval :=
  JArr [obj [("HostPort", JStr hostPort)]].

(** [const [containerPort, hostPort] =
     portMapping.split(":").map(p => p.trim())] *)
Definition containerPort (portMapping : string) : string :=
  default "" ((Str.trim <$> Str.split ":" portMapping) !! 0%nat).

Definition hostPort (portMapping : string) : option string :=
  (Str.trim <$> Str.split ":" portMapping) !! 1%nat.

(** The callback of [portMappings.forEach]. *)
Definition add_port (maps : gmap string jsval * gmap string jsval)
    (portMapping : jsval) : gmap string jsval * gmap string jsval :=
  match portMapping with
  | JStr s =>
      if String.eqb (containerPort s) "" then maps
      else
        let tcpKey := containerPort s +:+ "/tcp" in
        let maps :=
          (<[tcpKey := JObj ∅]> maps.1,
           <[tcpKey := binding (host_or (hostPort s) (containerPort s))]> maps.2) in
        if Str.includes (containerPort s) "/udp"
        then (<[containerPort s := JObj ∅]> maps.1,
              <[containerPort s :=
                  binding (host_or (hostPort s)
                             (Str.before "/" (containerPort s)))]> maps.2)
        else maps
  | _ => maps
  end.

(** The keys under which a mapping is exposed: [<containerPort>/tcp], and
    the container port itself when it contains [/udp]. *)
Definition exposes (portMapping : jsval) (key : string) : Prop :=
  exists s, portMapping = JStr s /\ containerPort s ≠ "" /\
    (key = containerPort s +:+ "/tcp" \/
     (key = containerPort s /\ Str.includes (containerPort s) "/udp" = true)).

(** [typeof ports === "string" ? ports.split(",") :
     Array.isArray(ports) ? ports : []] *)
Definition portMappings (ports : jsval) : list jsval :=
  match ports with
  | JStr s => JStr <$> Str.split "," s
  | JArr l => l
  | _ => []
  end.

Definition port_maps (ports : jsval) : gmap string jsval * gmap string jsval :=
  if truthy ports then foldl add_port (∅, ∅) (portMappings ports) else (∅, ∅).

(** [prepareRequestData] *)
Definition prepareRequestData (image memory cpu ports name node : jsval)
    (Id : string) (variables imagename : jsval) : M request :=
  let* imageData := find_image imagename in
  let* address := lift (prop node "address") in
  let maps := port_maps ports in
  ret {| method := "post";
         url := "http://" +:+ to_str address +:+ ":" +:+ to_str (getf node "port") +:+
                "/instances/create";
         password := getf node "apiKey";
         timeout := Some 30000;
         validate := Only2xx;
         data :=
           obj [("Name", name); ("Id", JStr Id); ("Image", image);
                ("Env", if truthy imageData then getf imageData "Env" else JArr []);
                ("Scripts", if truthy imageData then getf imageData "Scripts"
                            else JArr []);
                ("Memory", number memory); ("Cpu", number cpu);
                ("ExposedPorts", JObj maps.1); ("PortBindings", JObj maps.2);
                ("variables", or_else variables (JObj ∅));
                ("AltImages", if truthy imageData then getf imageData "AltImages"
                              else JArr []);
                ("StopCommand", if truthy imageData then getf imageData "StopCommand"
                                else JStr "");
                ("imageData", or_else imageData (JObj ∅))] |}.

(** The record of a new instance. *)
Definition instanceData (responseData userId node image memory disk cpu ports
    primary name : jsval) (Id : string) (imageData createdAt updatedAt : jsval)
    : jsval :=
  obj [("Name", name); ("Id", JStr Id);
       ("Node", obj [("id", getf node "id"); ("name", getf node "name");
                     ("address", getf node "address"); ("port", getf node "port");
                     ("apiKey", getf node "apiKey")]);
       ("User", userId);
       ("ContainerId", getf responseData "containerId");
       ("VolumeId", or_else (getf responseData "volumeId") (JStr Id));
       ("Memory", number memory); ("Disk", Deploy.parseInt_or disk 0);
       ("Cpu", number cpu); ("Ports", ports); ("Primary", primary);
       ("Image", image);
       ("AltImages", if truthy imageData then getf imageData "AltImages"
                     else JArr []);
       ("StopCommand", if truthy imageData then getf imageData "StopCommand"
                       else JUndef);
       ("imageData", imageData);
       ("Env", or_else (getf responseData "Env") (JArr []));
       ("State", or_else (getf responseData "state") (JStr "running"));
       ("createdAt", createdAt); ("updatedAt", updatedAt)].

(** [updateDatabaseWithNewInstance]: the record is appended to the list of
    its user and to the global list, then stored under its Id.  The [catch]
    block logs the error and throws it again. *)
Definition updateDatabaseWithNewInstance (responseData userId node image memory
    disk cpu ports primary name : jsval) (Id : string) (imagename : jsval)
    : M unit :=
  try_catch
    (let* imageData := find_image imagename in
     lift (prop node "id") ;;
     lift (prop responseData "containerId") ;;
     let* createdAt := now in
     let* updatedAt := now in
     let record :=
       instanceData responseData userId node image memory disk cpu ports primary
         name Id imageData createdAt updatedAt in
     let* userInstances := Db.get (to_str userId +:+ "_instances") in
     let* mine := lift (Arr.as_array (or_else userInstances (JArr []))) in
     Db.set (to_str userId +:+ "_instances") (JArr (mine ++ [record])) ;;
     let* globalInstances := Db.get "instances" in
     let* all := lift (Arr.as_array (or_else globalInstances (JArr []))) in
     Db.set "instances" (JArr (all ++ [record])) ;;
     Db.set (Id +:+ "_instance") record)
    (fun error => throw error).

(** POST /api/instances/deploy.  [Id] is [uuidv4().split("-")[0]]. *)
Definition deploy (Id : string) (b : body) : world -> reply * world :=
  if (0 <? length (missingParams b))%nat
  then fun w =>
         (Api.errorResponse 400
            ("Missing parameters: " +:+ String.concat ", " (missingParams b)), w)
  else
    route
      (let* node := Db.get (to_str (nodeId b) +:+ "_node") in
       if negb (truthy node) then ret (Api.errorResponse 400 "Invalid node")
       else if negb (truthy (getf node "apiKey"))
       then ret (Api.errorResponse 400 "Node is not properly configured")
       else
         let* requestData :=
           prepareRequestData (image b) (memory b) (cpu b) (ports b) (name b) node
             Id (variables b) (imagename b) in
         let* response := axios requestData in
         if r_status response =? 201
         then
           updateDatabaseWithNewInstance (r_data response) (user b) node (image b)
             (memory b) (disk b) (cpu b) (ports b) (primary b) (name b) Id
             (imagename b) ;;
           let* containerId := lift (prop (r_data response) "containerId") in
           ret (Json 201 (obj [("message", JStr "Deployment successful");
                               ("containerId", containerId);
                               ("volumeId", getf (r_data response) "volumeId")]))
         else
           ret (Json (r_status response)
                  (obj [("error", JStr "Failed to deploy container");
                        ("details", r_data response)])))
      (fun _ => Api.errorResponse 500 "Failed to create container").

End ApiDeploy.

(** ** routes/Instance/Instance.js: the state of an installing instance *)

Module InstanceState.
Import JS.

(** [axios.get(url, { auth, timeout: 5000 })] *)
Definition state_request (url : string) (apiKey : jsval) : request :=
  {| method := "get"; url := url; password := apiKey; timeout := Some 5000;
     validate := Only2xx; data := JUndef |}.

Definition states_url (instance : jsval) : string :=
  "http://" +:+ to_str (getf (getf instance "Node") "address") +:+ ":" +:+
  to_str (getf (getf instance "Node") "port") +:+ "/instances/" +:+
  to_str (getf instance "Id") +:+ "/states/".

(** [checkState(instanceId)]: the state is asked from the node, confirmed to
    it, and written into the record.  The [catch] block logs the error and
    throws it again. *)
Definition checkState (instanceId : string) : M jsval :=
  if negb (InstanceView.validateInstanceId instanceId)
  then throw (Error "Invalid instance ID")
  else
    try_catch
      (let* instance := Db.get (instanceId +:+ "_instance") in
       if negb (truthy instance) then throw (Error "Instance not found")
       else
         let node := getf instance "Node" in
         if negb (truthy node) || negb (truthy (getf node "address")) ||
            negb (truthy (getf node "port")) || negb (truthy (getf node "apiKey"))
         then throw (Error "Invalid node configuration")
         else
           let* getStateResponse :=
             axios (state_request (states_url instance +:+ "get")
                      (getf node "apiKey")) in
           let data := r_data getStateResponse in
           if negb (truthy data) || negb (truthy (getf data "state"))
           then throw (Error "Invalid state response from server")
           else
             let newState := getf data "state" in
             axios (state_request
                      (states_url instance +:+ "set/" +:+ to_str newState)
                      (getf node "apiKey")) ;;
             Db.set (instanceId +:+ "_instance") (setf instance "State" newState) ;;
             ret newState)
      (fun error => throw error).

Definition failure (status : Z) (text : string) : reply :=
  Json status (obj [("success", JBool false); ("error", JStr text)]).

(** GET /instance/:id/installing/status *)
Definition installing_status (user : jsval) (id : string) : world -> reply * world :=
  route
    (if negb (InstanceView.validateInstanceId id)
     then ret (failure 400 "Invalid instance ID")
     else
       let* instance := Db.get (id +:+ "_instance") in
       if negb (truthy instance) then ret (failure 404 "Instance not found")
       else
         let* userId := lift (prop user "userId") in
         let* isAuthorized :=
           AuthHelper.isUserAuthorizedForContainer userId (getf instance "Id") in
         if negb isAuthorized
         then ret (failure 403 "Unauthorized access to this instance.")
         else
           let* state := checkState id in
           ret (Json 200 (obj [("success", JBool true); ("state", state)])))
    (fun _ => failure 500 "Internal Server Error").

(** GET /instance/:id/installing *)
Definition installing (user : jsval) (id : string) : world -> reply * world :=
  route
    (if negb (InstanceView.validateInstanceId id) then ret (Redirect 302 "/")
     else
       let* instance := Db.get (id +:+ "_instance") in
       if negb (truthy instance) then ret (Redirect 302 "../instances")
       else
         let* userId := lift (prop user "userId") in
         let* isAuthorized :=
           AuthHelper.isUserAuthorizedForContainer userId (getf instance "Id") in
         if negb isAuthorized then ret (Render 403 "error")
         else if negb (strict_eq (getf instance "State") (JStr "INSTALLING"))
         then ret (Redirect 302 ("../../instance/" +:+ id))
         else
           checkState id ;;
           ret (Render 200 "instance/installing"))
    (fun _ => Render 500 "error").

End InstanceState.

(** ** More of the example installation *)

Module Sample.
Import JS.

(** A user to whom instance [i1] is shared through [accessTo]. *)
Definition helper : jsval :=
  obj [("userId", JStr "u2"); ("accessTo", JArr [JStr "i1"])].

Definition shared_store : gmap string jsval :=
  <["users" := JArr [Example.owner; Example.admin; helper] ]>
    (Example.store Example.inst1).

(** The helper has no instance list of their own ... *)
Definition shared : world := Example.world_of shared_store Example.obliging.

(** ... or an empty one. *)
Definition shared_with_list : world :=
  Example.world_of (<["u2_instances" := JArr [] ]> shared_store) Example.obliging.

(** The record of [i1] with the image data the deploy route stores, in an
    installation that also holds the record of its node. *)
Definition inst_img : jsval :=
  setf Example.inst1 "imageData" (obj [("Image", JStr "img")]).

Definition with_node : world :=
  Example.world_of (<["n1_node" := Example.node1]> (Example.store inst_img))
    Example.obliging.

(** A daemon that creates what it is asked to create ... *)
Definition creating : nat -> request -> wire :=
  Example.always (Reply 201 (obj [("containerId", JStr "c9"); ("volumeId", JStr "v9")])).

(** ... and one that answers 200 where 201 is expected. *)
Definition lukewarm : nat -> request -> wire :=
  Example.always (Reply 200 (obj [("containerId", JStr "c9")])).

Definition store_with_node : gmap string jsval :=
  <["n1_node" := Example.node1]> (<["nodes" := JArr [JStr "n1"] ]> (Example.store Example.inst1)).

Definition deployable : world := Example.world_of store_with_node creating.
Definition half_hearted : world := Example.world_of store_with_node lukewarm.

(** The body of a deploy request; the second port is a UDP port. *)
Definition new_server : ApiDeploy.body :=
  {| ApiDeploy.image := JStr "img"; ApiDeploy.imagename := JStr "Paper";
     ApiDeploy.memory := JStr "1024"; ApiDeploy.cpu := JStr "100";
     ApiDeploy.disk := JUndef; ApiDeploy.ports := JStr "25565:25565, 19132/udp";
     ApiDeploy.nodeId := JStr "n1"; ApiDeploy.name := JStr "web";
     ApiDeploy.user := JStr "u1"; ApiDeploy.primary := JStr "25565";
     ApiDeploy.variables := JUndef |}.

(** The parameters of a new node. *)
Definition rack : ApiNodes.params :=
  {| ApiNodes.name := JStr "rack"; ApiNodes.tags := JStr "eu";
     ApiNodes.ram := JNum 64; ApiNodes.disk := JNum 500;
     ApiNodes.processor := JStr "x86"; ApiNodes.address := JStr "10.0.0.2";
     ApiNodes.port := JNum 3002 |}.

(** The list of nodes names a node of which no record is stored. *)
Definition dangling : world :=
  Example.world_of (<["nodes" := JArr [JStr "n1"; JStr "gone"] ]> store_with_node)
    creating.

(** A registered user, with the hash of a password. *)
Definition alice : jsval :=
  obj [("userId", JStr "u7"); ("username", JStr "alice");
       ("email", JStr "alice@example.org"); ("password", JStr "$2b$10$hash")].

Definition registry : world :=
  Example.world_of (<["users" := JArr [Example.owner; alice] ]> (Example.store Example.inst1))
    Example.obliging.

(** Instance [i1] while it is being installed, on a node that reports it as
    running. *)
Definition installing1 : jsval := setf Example.inst1 "State" (JStr "INSTALLING").

Definition reporting : nat -> request -> wire :=
  Example.always (Reply 200 (obj [("state", JStr "RUNNING")])).

Definition being_installed : world :=
  Example.world_of (Example.store installing1) reporting.

End Sample.

(** * Properties *)

Import JS Sync.

(** ** Keys of the three places never collide *)

Lemma last_append (a s : string) : s ≠ "" -> Str.last (a +:+ s) = Str.last s.
Proof.
  intros Hs. induction a as [|c a IH]; [done|].
  change (String c a +:+ s) with (String c (a +:+ s)).
  destruct (a +:+ s) eqn:E.
  - destruct a; [change (s = "") in E; congruence | discriminate].
  - rewrite <- IH. done.
Qed.

Lemma length_append (a b : string) :
  String.length (a +:+ b) = (String.length a + String.length b)%nat.
Proof.
  induction a as [|c a IH]; [done|].
  change (String c a +:+ b) with (String c (a +:+ b)). simpl. by rewrite IH.
Qed.

Lemma instance_key_not_list (a b : string) : a +:+ "_instance" ≠ b +:+ "_instances".
Proof.
  intros H. apply (f_equal Str.last) in H.
  rewrite !last_append in H by done. discriminate.
Qed.

Lemma instance_key_not_global (a : string) : a +:+ "_instance" ≠ "instances".
Proof.
  intros H. apply (f_equal Str.last) in H.
  rewrite last_append in H by done. discriminate.
Qed.

Lemma workflow_key_not_list (a b : string) : a +:+ "_workflow" ≠ b +:+ "_instances".
Proof.
  intros H. apply (f_equal Str.last) in H.
  rewrite !last_append in H by done. discriminate.
Qed.

Lemma workflow_key_not_global (a : string) : a +:+ "_workflow" ≠ "instances".
Proof.
  intros H. apply (f_equal Str.last) in H.
  rewrite last_append in H by done. discriminate.
Qed.

Lemma instance_key_not_workflow (a b : string) : a +:+ "_instance" ≠ b +:+ "_workflow".
Proof.
  intros H. apply (f_equal Str.last) in H.
  rewrite !last_append in H by done. discriminate.
Qed.

Lemma list_key_not_global (b : string) : b +:+ "_instances" ≠ "instances".
Proof.
  intros H. apply (f_equal String.length) in H.
  rewrite length_append in H. simpl in H. lia.
Qed.



Lemma ro_ret {A} (a : A) : reads_only (ret a).
Proof. done. Qed.
Lemma ro_throw {A} e : reads_only (@throw A e).
Proof. done. Qed.
Lemma ro_lift {A} (r : result A) : reads_only (lift r).
Proof. done. Qed.
Lemma ro_get k : reads_only (Db.get k).
Proof. done. Qed.
Lemma ro_bind {A B} (m : M A) (k : A -> M B) :
  reads_only m -> (forall a, reads_only (k a)) -> reads_only (bind m k).
Proof.
  intros Hm Hk w. unfold bind. specialize (Hm w).
  destruct (m w) as [[a|e] w1]; simpl in *; subst; [apply Hk | done].
Qed.
Lemma ro_try {A} (m : M A) (h : jserr -> M A) :
  reads_only m -> (forall e, reads_only (h e)) -> reads_only (try_catch m h).
Proof.
  intros Hm Hh w. unfold try_catch. specialize (Hm w).
  destruct (m w) as [[a|e] w1]; simpl in *; subst; [done | apply Hh].
Qed.

Ltac ro :=
  repeat first
    [ apply ro_ret | apply ro_throw | apply ro_lift | apply ro_get
    | apply ro_try; [|intros ?] | apply ro_bind; [|intros ?]
    | match goal with
      | |- reads_only (if ?b then _ else _) => destruct b
      | |- reads_only (match ?x with _ => _ end) => destruct x
      end ].

Lemma auth_reads_only userId containerId :
  reads_only (AuthHelper.isUserAuthorizedForContainer userId containerId).
Proof. unfold AuthHelper.isUserAuthorizedForContainer. ro. Qed.

Lemma auth_total userId containerId w :
  exists b, AuthHelper.isUserAuthorizedForContainer userId containerId w = (Ok b, w).
Proof.
  pose proof (auth_reads_only userId containerId w) as Hw.
  unfold AuthHelper.isUserAuthorizedForContainer in *.
  destruct (negb (truthy userId) || negb (truthy containerId)); [by exists false|].
  unfold try_catch in *.
  match goal with
  | |- context [match ?m w with _ => _ end] => destruct (m w) as [[b|e] w1]
  end; simpl in *; subst; eauto.
Qed.

(** ** Array methods *)

Lemma filter_inv f x l l' :
  Arr.filter (Arr.field_is_not f x) l = Ok l' -> no_hole l /\ l' = without f x l.
Proof.
  revert l'. induction l as [|e l IH]; intros l'; simpl.
  - intros [= <-]. split; [constructor | done].
  - unfold Arr.field_is_not at 1, prop.
    destruct (nullish e) eqn:Hn; simpl; [done|].
    destruct (Arr.filter _ l) as [r|]; simpl; [|done].
    intros [= <-]. destruct (IH r eq_refl) as [H1 ->].
    split; [by constructor|]. unfold without. simpl.
    by destruct (strict_eq _ _).
Qed.

Lemma filter_ok f x l :
  no_hole l -> Arr.filter (Arr.field_is_not f x) l = Ok (without f x l).
Proof.
  induction 1 as [|e l Hn _ IH]; simpl; [done|].
  unfold Arr.field_is_not at 1, prop. rewrite Hn. simpl. rewrite IH. simpl.
  unfold without. simpl. by destruct (strict_eq _ _).
Qed.


Lemma findIndex_inv f x l r :
  Arr.findIndex (Arr.field_is f x) l = Ok r ->
  match r with
  | Some i => first_at f x l i
  | None => Forall (fun e => strict_eq (getf e f) x = false) l
  end.
Proof.
  revert r. induction l as [|e l IH]; intros r; simpl.
  - intros [= <-]. constructor.
  - unfold Arr.field_is at 1, prop.
    destruct (nullish e) eqn:Hn; simpl; [done|].
    destruct (strict_eq (getf e f) x) eqn:He.
    + intros [= <-]. split; [by exists e|]. intros j e' Hj. lia.
    + destruct (Arr.findIndex _ l) as [r0|]; simpl; [|done].
      intros [= <-]. specialize (IH r0 eq_refl). destruct r0 as [i|]; simpl.
      * destruct IH as [[e' [Hl He']] Hlt]. split; [by exists e'|].
        intros [|j] e'' Hj Hl'; simpl in Hl'; [by injection Hl' as <-|].
        apply (Hlt j); [lia | done].
      * by constructor.
Qed.

Lemma findIndex_no_hole_prefix f x l r :
  Arr.findIndex (Arr.field_is f x) l = Ok r ->
  forall i e, (match r with Some n => (i <= n)%nat | None => True end) ->
              l !! i = Some e -> nullish e = false.
Proof.
  revert r. induction l as [|e l IH]; intros r; simpl; [by intros _ []|].
  unfold Arr.field_is at 1, prop.
  destruct (nullish e) eqn:Hn; simpl; [done|].
  destruct (strict_eq (getf e f) x) eqn:He.
  - intros [= <-] [|i] e' Hi; simpl; [by intros [= <-] | lia].
  - destruct (Arr.findIndex _ l) as [r0|]; simpl; [|done].
    intros [= <-] [|i] e'; simpl; [by intros _ [= <-]|].
    intros Hi. apply (IH r0 eq_refl i e'). destruct r0; simpl in *; [lia|done].
Qed.

Lemma findIndex_ok_none f x l :
  no_hole l -> Forall (fun e => strict_eq (getf e f) x = false) l ->
  Arr.findIndex (Arr.field_is f x) l = Ok None.
Proof.
  induction l as [|e l IH]; simpl; [done|].
  intros Hh Hf. apply Forall_cons in Hh as [Hn Hh]. apply Forall_cons in Hf as [He Hf].
  unfold Arr.field_is at 1, prop. rewrite Hn. simpl. rewrite He.
  by rewrite IH.
Qed.

Lemma map_inv (g : jsval -> result jsval) l l' :
  Arr.map g l = Ok l' -> Forall2 (fun a b => g a = Ok b) l l'.
Proof.
  revert l'. induction l as [|e l IH]; intros l'; simpl.
  - intros [= <-]. constructor.
  - destruct (g e) as [y|] eqn:Hg; simpl; [|done].
    destruct (Arr.map g l) as [r|]; simpl; [|done].
    intros [= <-]. constructor; auto.
Qed.

(** ** Reading fields of spread copies *)


Lemma pretty_N_char_digit x : Str.is_digit (pretty_N_char x) = true.
Proof. unfold pretty_N_char. by repeat case_match. Qed.

Lemma pretty_N_go_digits x s :
  Str.all_chars Str.is_digit s = true -> Str.all_chars Str.is_digit (pretty_N_go x s) = true.
Proof.
  revert s. induction (N.lt_wf_0 x) as [x _ IH]; intros s Hs.
  assert (x = 0 \/ 0 < x)%N as [->|?] by lia.
  - by rewrite pretty_N_go_0.
  - rewrite pretty_N_go_step by done. apply IH; [by apply N.div_lt|].
    simpl. by rewrite pretty_N_char_digit, Hs.
Qed.

Lemma pretty_nat_digits (i : nat) : Str.all_chars Str.is_digit (pretty i) = true.
Proof.
  unfold pretty, pretty_nat, pretty, pretty_N.
  case_decide; [done|]. by apply pretty_N_go_digits.
Qed.

Lemma indexed_lookup {A} (g : A -> jsval) (l : list A) (f : string) :
  Str.all_chars Str.is_digit f = false -> indexed g l !! f = None.
Proof.
  intros Hf. unfold indexed. apply not_elem_of_list_to_map_1.
  intros Hin. apply list_elem_of_fmap in Hin as [[k v] [-> Hin]].
  apply elem_of_lookup_imap in Hin as (i & x & [= -> ->] & _).
  simpl in Hf. by rewrite pretty_nat_digits in Hf.
Qed.

(** Reading a named field from a spread copy is reading it from the value. *)
Lemma own_props_getf (v : jsval) (f : string) :
  Str.all_chars Str.is_digit f = false -> default JUndef (own_props v !! f) = getf v f.
Proof.
  intros Hf. destruct v; simpl; try done; by rewrite indexed_lookup.
Qed.

Lemma getf_spread_set_ne v f x g :
  f ≠ g -> Str.all_chars Str.is_digit g = false -> getf (spread_set v f x) g = getf v g.
Proof.
  intros Hne Hg. unfold spread_set. simpl. rewrite lookup_insert_ne by done.
  by apply own_props_getf.
Qed.


(** ** The two synchronisers *)

Ltac name_lists :=
  repeat match goal with
    | |- context [or_else (default JUndef (db ?w !! ?k)) (JArr [])] =>
        change (or_else (default JUndef (db w !! k)) (JArr [])) with (list_at w k)
    end.

Lemma update_arrays_inv record w w' :
  Startup.updateInstanceInUserAndGlobalArrays record w = (Ok tt, w') ->
  exists lu lg,
    list_at w (owner_key record) = JArr lu /\ list_at w "instances" = JArr lg /\
    no_hole lu /\ no_hole lg /\
    w' = with_db
           (fun m => <["instances" := JArr (without "Id" (getf record "Id") lg ++ [record])]>
                     (<[owner_key record :=
                          JArr (without "Id" (getf record "Id") lu ++ [record])]> m)) w.
Proof.
  unfold Startup.updateInstanceInUserAndGlobalArrays, bind, lift, Db.get, Db.set.
  fold (owner_key record). name_lists.
  destruct (list_at w (owner_key record)) as [| | | | |lu|] eqn:Hlu; simpl; try done.
  destruct (Arr.filter _ lu) as [lu'|] eqn:Hfu; simpl; [|done].
  apply filter_inv in Hfu as [Hhu ->].
  rewrite lookup_insert_ne by apply list_key_not_global.
  name_lists.
  destruct (list_at w "instances") as [| | | | |lg|] eqn:Hlg; simpl; try done.
  destruct (Arr.filter _ lg) as [lg'|] eqn:Hfg; simpl; [|done].
  apply filter_inv in Hfg as [Hhg ->].
  intros [= <-]. by exists lu, lg.
Qed.

Lemma update_arrays_ok record w lu lg :
  list_at w (owner_key record) = JArr lu -> list_at w "instances" = JArr lg ->
  no_hole lu -> no_hole lg ->
  Startup.updateInstanceInUserAndGlobalArrays record w =
    (Ok tt,
     with_db
       (fun m => <["instances" := JArr (without "Id" (getf record "Id") lg ++ [record])]>
                 (<[owner_key record :=
                      JArr (without "Id" (getf record "Id") lu ++ [record])]> m)) w).
Proof.
  intros Hlu Hlg Hhu Hhg.
  unfold Startup.updateInstanceInUserAndGlobalArrays, bind, lift, Db.get, Db.set.
  fold (owner_key record). name_lists. rewrite Hlu. simpl.
  rewrite (filter_ok _ _ _ Hhu). simpl.
  rewrite lookup_insert_ne by apply list_key_not_global.
  name_lists. rewrite Hlg. simpl.
  by rewrite (filter_ok _ _ _ Hhg).
Qed.

Lemma merged_list_inv stored id record r :
  Edit.merged_list stored id record = Ok r ->
  exists l, or_else stored (JArr []) = JArr l /\
    match r with
    | Some l' =>
        exists i e, l !! i = Some e /\ first_at "ContainerId" (JStr id) l i /\
                    l' = <[i := spread2 e record]> l
    | None => Forall (fun e => strict_eq (getf e "ContainerId") (JStr id) = false) l
    end.
Proof.
  unfold Edit.merged_list.
  destruct (or_else stored (JArr [])) as [| | | | |l|]; simpl; try done.
  destruct (Arr.findIndex _ l) as [found|] eqn:Hf; simpl; [|done].
  apply findIndex_inv in Hf.
  destruct found as [i|]; intros [= <-]; exists l; (split; [done|]); [|done].
  destruct Hf as [[e [Hl He]] Hlt]. exists i, e. rewrite Hl. simpl.
  repeat split; eauto.
Qed.

(** ** Authorisation *)

Lemma strict_eq_truthy_not_nullish e f x :
  truthy x = true -> strict_eq (getf e f) x = true -> nullish e = false.
Proof. intros Hx He. destruct e; try done; simpl in He; by destruct x. Qed.

Lemma find_first_match f x pre u post :
  Forall (fun e => nullish e = false /\ strict_eq (getf e f) x = false) pre ->
  nullish u = false ->
  strict_eq (getf u f) x = true ->
  Arr.find (Arr.field_is f x) (pre ++ u :: post) = Ok u.
Proof.
  intros Hpre Hu Hx. induction Hpre as [|e pre [Hn He] _ IH]; simpl.
  - unfold Arr.field_is, prop. rewrite Hu. simpl. by rewrite Hx.
  - unfold Arr.field_is at 1, prop. rewrite Hn. simpl. by rewrite He.
Qed.

(** C9, amended.  For a truthy user id and a truthy container id, when the
    first record of the users list with that user id has a truthy [admin],
    [isUserAuthorizedForContainer] answers [true] -- whatever the user's
    instance list and [accessTo] hold, which the statement does not
    mention -- and leaves the world as it was. *)
Theorem admin_is_authorized
    (w : world) (userId containerId u : jsval) (pre post : list jsval) :
  truthy userId = true ->
  truthy containerId = true ->
  db w !! "users" = Some (JArr (pre ++ u :: post)) ->
  Forall (fun e => nullish e = false /\ strict_eq (getf e "userId") userId = false) pre ->
  strict_eq (getf u "userId") userId = true ->
  truthy (getf u "admin") = true ->
  AuthHelper.isUserAuthorizedForContainer userId containerId w = (Ok true, w).
Proof.
  intros Hu Hc Hdb Hpre Hm Hadm.
  pose proof (strict_eq_truthy_not_nullish _ _ _ Hu Hm) as Hn.
  unfold AuthHelper.isUserAuthorizedForContainer.
  rewrite Hu, Hc. simpl.
  unfold try_catch, bind, Db.get, lift, ret. simpl. rewrite Hdb. simpl.
  rewrite (find_first_match _ _ _ _ _ Hpre Hn Hm).
  assert (truthy u = true) as -> by (by destruct u).
  simpl. by rewrite Hadm.
Qed.

(** ** Reinstall validation and the view handler *)



(** C10.  GET /instance/:id writes on read: for an existing instance record
    viewed by an authorised user, the record stored back under the same key
    has a boolean [suspended] (the old value when it was a boolean, [false]
    otherwise) and a truthy, non-empty [State] (the old value when it was
    set, "UNKNOWN" otherwise); the other fields are as they were. *)
Theorem view_normalizes_record
    (w : world) (user : jsval) (id : string) (o : gmap string jsval) :
  truthy user = true ->
  InstanceView.validateInstanceId id = true ->
  db w !! (id +:+ "_instance") = Some (JObj o) ->
  (AuthHelper.isUserAuthorizedForContainer (getf user "userId")
     (getf (JObj o) "Id") w).1 = Ok true ->
  exists o' : gmap string jsval,
    db (InstanceView.view user id w).2 !! (id +:+ "_instance") = Some (JObj o') /\
    (exists b, o' !! "suspended" = Some (JBool b)) /\
    (forall b, o !! "suspended" = Some (JBool b) -> o' !! "suspended" = Some (JBool b)) /\
    ((forall b, o !! "suspended" ≠ Some (JBool b)) -> o' !! "suspended" = Some (JBool false)) /\
    (exists s, o' !! "State" = Some s /\ truthy s = true /\ s ≠ JStr "") /\
    (truthy (getf (JObj o) "State") = false -> o' !! "State" = Some (JStr "UNKNOWN")) /\
    (truthy (getf (JObj o) "State") = true -> o' !! "State" = o !! "State") /\
    (forall f, f ≠ "suspended" -> f ≠ "State" -> o' !! f = o !! f).
Proof.
  intros Hu Hid Hdb Hauth.
  destruct (auth_total (getf user "userId") (getf (JObj o) "Id") w) as [b Hb].
  rewrite Hb in Hauth. simpl in Hauth. injection Hauth as ->.
  unfold InstanceView.view, route, bind, Db.get, ret.
  rewrite Hu, Hid. simpl. rewrite Hdb. simpl in *. rewrite Hb. simpl.
  set (sv := if String.eqb (typeof (default JUndef (o !! "suspended"))) "boolean"
             then default JUndef (o !! "suspended") else JBool false).
  set (st := or_else (default JUndef (<["suspended" := sv]> o !! "State")) (JStr "UNKNOWN")).
  exists (<["State" := st]> (<["suspended" := sv]> o)).
  assert (Hst : st = or_else (default JUndef (o !! "State")) (JStr "UNKNOWN")).
  { subst st. by rewrite lookup_insert_ne. }
  assert (Hw : forall r : reply * world, db (let '(x, y) := r in (x, y)).2 = db r.2)
    by (by intros []).
  split.
  { repeat match goal with |- context [if ?c then _ else _] => destruct c end;
      simpl; by rewrite lookup_insert_eq. }
  rewrite lookup_insert_ne by done. rewrite !lookup_insert_eq.
  split; [|split; [|split; [|split; [|split; [|split]]]]].
  - subst sv. destruct (o !! "suspended") as [[]|]; simpl; eauto.
  - intros b Ho. subst sv. by rewrite Ho.
  - intros Ho. subst sv. destruct (o !! "suspended") as [[]|]; simpl; try done.
    by destruct (Ho b).
  - exists st. split; [done|]. rewrite Hst. unfold or_else.
    destruct (truthy (default JUndef (o !! "State"))) eqn:Ht; [|done].
    split; [done|]. intros E. by rewrite E in Ht.
  - intros Ht. rewrite Hst. unfold or_else. by rewrite Ht.
  - intros Ht. rewrite Hst. unfold or_else. rewrite Ht.
    destruct (o !! "State"); [done|]. done.
  - intros f H1 H2. by rewrite !lookup_insert_ne.
Qed.

(** ** Suspend and unsuspend, admin routes *)

Lemma admin_suspend_inv id w msg url w' :
  AdminInstances.suspend id w = (Flash true msg url, w') ->
  exists inst lg lg',
    db w !! instance_key id = Some inst /\ truthy inst = true /\
    list_at w "instances" = JArr lg /\
    Forall2 (fun a b => AdminInstances.mark_suspended inst a = Ok b) lg lg' /\
    w' = with_db (fun m => <["instances" := JArr lg']>
                    (<[instance_key id := spread_set inst "suspended" (JBool true)]> m)) w.
Proof.
  unfold AdminInstances.suspend, route, bind, Db.get, Db.set, lift, logAudit, ret.
  destruct (String.eqb id ""); simpl; [done|].
  fold (instance_key id).
  destruct (db w !! instance_key id) as [inst|] eqn:Hdb; simpl; [|done].
  destruct (truthy inst) eqn:Ht; simpl; [|done].
  rewrite lookup_insert_ne by apply instance_key_not_global. name_lists.
  destruct (list_at w "instances") as [| | | | |lg|] eqn:Hlg; simpl; try done.
  destruct (Arr.map _ lg) as [lg'|] eqn:Hm; simpl; [|done].
  apply map_inv in Hm. intros [= _ _ <-].
  exists inst, lg, lg'. repeat split; try done.
  unfold with_db. simpl. by rewrite insert_insert_eq.
Qed.

Lemma admin_unsuspend_inv id w msg url w' :
  AdminInstances.unsuspend id w = (Flash true msg url, w') ->
  exists inst lg lg',
    db w !! instance_key id = Some inst /\ truthy inst = true /\
    list_at w "instances" = JArr lg /\
    Forall2 (fun a b => AdminInstances.mark_unsuspended inst a = Ok b) lg lg' /\
    w' = with_db (fun m => <["instances" := JArr lg']>
                    (<[instance_key id := AdminInstances.cleared inst]> m)) w.
Proof.
  unfold AdminInstances.unsuspend, route, bind, Db.get, Db.set, lift, logAudit, ret.
  destruct (String.eqb id ""); simpl; [done|].
  fold (instance_key id).
  destruct (db w !! instance_key id) as [inst|] eqn:Hdb; simpl; [|done].
  destruct (truthy inst) eqn:Ht; simpl; [|done].
  name_lists.
  destruct (list_at w "instances") as [| | | | |lg|] eqn:Hlg; simpl; try done.
  destruct (Arr.map _ lg) as [lg'|] eqn:Hm; simpl; [|done].
  apply map_inv in Hm. intros [= _ _ <-].
  by exists inst, lg, lg'.
Qed.

Lemma getf_cleared_suspended v : getf (AdminInstances.cleared v) "suspended" = JBool false.
Proof.
  unfold AdminInstances.cleared.
  destruct (truthy _); simpl.
  - rewrite lookup_delete_ne by done. by rewrite lookup_insert_eq.
  - by rewrite lookup_insert_eq.
Qed.

Lemma getf_cleared_ne v g :
  g ≠ "suspended" -> g ≠ "suspended-flagg" -> Str.all_chars Str.is_digit g = false ->
  getf (AdminInstances.cleared v) g = getf v g.
Proof.
  intros H1 H2 Hg. unfold AdminInstances.cleared.
  destruct (truthy _); simpl.
  - rewrite lookup_delete_ne by done. rewrite lookup_insert_ne by done.
    by apply own_props_getf.
  - rewrite lookup_insert_ne by done. by apply own_props_getf.
Qed.


Lemma admin_unsuspend_sync id w msg url w' :
  AdminInstances.unsuspend id w = (Flash true msg url, w') ->
  getf (rec_at w' (instance_key id)) "suspended" = JBool false /\
  list_agrees ["suspended"] w' (instance_key id) "instances" /\
  forall u, db w' !! (u +:+ "_instances") = db w !! (u +:+ "_instances").
Proof.
  intros H. apply admin_unsuspend_inv in H as (inst & lg & lg' & Hdb & Ht & Hlg & Hm & ->).
  assert (Hrec : rec_at (with_db (fun m => <["instances" := JArr lg']>
                    (<[instance_key id := AdminInstances.cleared inst]> m)) w)
                   (instance_key id) = AdminInstances.cleared inst).
  { unfold rec_at. simpl.
    rewrite lookup_insert_ne by (apply not_eq_sym, instance_key_not_global).
    by rewrite lookup_insert_eq. }
  split; [|split].
  - rewrite Hrec. apply getf_cleared_suspended.
  - intros e He Hid f Hf. apply list_elem_of_singleton in Hf as ->.
    rewrite Hrec in *. rewrite getf_cleared_suspended.
    unfold entries, list_at, rec_at in He. simpl in He.
    rewrite lookup_insert_eq in He. simpl in He.
    apply list_elem_of_lookup in He as [i He].
    destruct (Forall2_lookup_r _ _ _ _ _ Hm He) as (a & _ & Ha).
    unfold AdminInstances.mark_unsuspended, prop in Ha.
    destruct (nullish a); simpl in Ha; [done|].
    destruct (strict_eq (getf a "Id") (getf inst "Id")) eqn:Hai;
      injection Ha as <-; [apply getf_cleared_suspended|].
    unfold same_id in Hid. rewrite getf_cleared_ne in Hid by done. congruence.
  - intros u. simpl.
    rewrite lookup_insert_ne by (apply not_eq_sym, list_key_not_global).
    by rewrite lookup_insert_ne by apply instance_key_not_list.
Qed.

(** ** Suspend and unsuspend, API routes *)

Lemma getf_setf_ne v f x g : f ≠ g -> getf (setf v f x) g = getf v g.
Proof. intros. destruct v; simpl; try done. by rewrite lookup_insert_ne. Qed.

Lemma getf_setf_eq v f x : is_obj v -> getf (setf v f x) f = x.
Proof. destruct v; simpl; try done. by rewrite lookup_insert_eq. Qed.

Lemma is_obj_setf v f x : is_obj (setf v f x) <-> is_obj v.
Proof. by destruct v. Qed.

Lemma first_at_unique f x l i j : first_at f x l i -> first_at f x l j -> i = j.
Proof.
  intros [[e [He Hx]] Hlt] [[e' [He' Hx']] Hlt'].
  destruct (Nat.lt_trichotomy i j) as [H|[H|H]]; [|done|].
  - specialize (Hlt' _ _ H He). congruence.
  - specialize (Hlt _ _ H He'). congruence.
Qed.

(** Changing fields other than [f] at one position moves no first match. *)
Lemma first_at_insert f x l i0 e0 e' i :
  l !! i0 = Some e0 -> getf e' f = getf e0 f ->
  first_at f x (<[i0 := e']> l) i -> first_at f x l i.
Proof.
  intros H0 Hf [[e [He Hx]] Hlt].
  assert (Hsame : forall j a, <[i0 := e']> l !! j = Some a ->
                    exists b, l !! j = Some b /\ getf b f = getf a f).
  { intros j a Ha. destruct (decide (i0 = j)) as [->|Hne].
    - rewrite list_lookup_insert_eq in Ha by (by eapply lookup_lt_Some).
      injection Ha as <-. eauto.
    - rewrite list_lookup_insert_ne in Ha by done. eauto. }
  assert (Hback : forall j b, l !! j = Some b ->
                    exists a, <[i0 := e']> l !! j = Some a /\ getf b f = getf a f).
  { intros j b Hb. destruct (decide (i0 = j)) as [->|Hne].
    - rewrite list_lookup_insert_eq by (by eapply lookup_lt_Some).
      exists e'. split; [done|]. congruence.
    - rewrite list_lookup_insert_ne by done. eauto. }
  split.
  - destruct (Hsame _ _ He) as (b & Hb & Hbf). exists b. by rewrite Hbf.
  - intros j b Hj Hb. destruct (Hback _ _ Hb) as (a & Ha & Haf).
    rewrite Haf. by eapply Hlt.
Qed.


Lemma set_flag_inv id inst flag stamp w w' :
  Api.set_flag id inst flag stamp w = (Ok tt, w') ->
  exists l found l' t t',
    list_at w "instances" = JArr l /\
    Arr.findIndex (Arr.field_is "ContainerId" (getf (Api.flagged inst flag stamp t) "ContainerId")) l
      = Ok found /\
    l' = match found with
         | Some i =>
             if truthy (default JUndef (l !! i))
             then <[i := Api.flagged (default JUndef (l !! i)) flag stamp t']> l
             else l
         | None => l
         end /\
    db w' = <["instances" := JArr l']>
              (<[to_str id +:+ "_instance" := Api.flagged inst flag stamp t]> (db w)) /\
    sent w' = sent w.
Proof.
  unfold Api.set_flag, bind, now, Db.get, Db.set, lift, ret. simpl.
  rewrite lookup_insert_ne by apply instance_key_not_global. name_lists.
  change (or_else (default JUndef (db w !! "instances")) (JArr []))
    with (list_at w "instances").
  destruct (list_at w "instances") as [| | | | |l|] eqn:Hl; simpl; try done.
  destruct (Arr.findIndex _ l) as [found|] eqn:Hf; simpl; [|done].
  destruct found as [i|]; simpl.
  - destruct (truthy (default JUndef (l !! i))) eqn:Ht; simpl; intros [= <-].
    + eexists l, (Some i), _, _, _; simpl; rewrite ?Ht; repeat split; done.
    + eexists l, (Some i), _, _, (JStr ""); simpl; rewrite ?Ht; repeat split; done.
  - intros [= <-]. eexists l, None, _, _, (JStr ""); simpl; repeat split; done.
Qed.

Lemma set_flag_sync id inst flag stamp w w' :
  stamp ≠ "ContainerId" -> stamp ≠ "suspended" ->
  db w !! (to_str id +:+ "_instance") = Some inst ->
  Api.set_flag id inst flag stamp w = (Ok tt, w') ->
  let r := rec_at w' (to_str id +:+ "_instance") in
  (is_obj inst -> getf r "suspended" = JBool flag) /\
  (forall i e, first_at "ContainerId" (getf r "ContainerId") (entries w' "instances") i ->
               entries w' "instances" !! i = Some e -> is_obj e ->
               getf e "suspended" = JBool flag) /\
  (forall u, db w' !! (u +:+ "_instances") = db w !! (u +:+ "_instances")).
Proof.
  intros Hs1 Hs2 Hdb H.
  apply set_flag_inv in H as (l & found & l' & t & t' & Hl & Hf & Hl' & Hw & _).
  intros r.
  assert (Hr : r = Api.flagged inst flag stamp t).
  { subst r. unfold rec_at. rewrite Hw.
    rewrite lookup_insert_ne by (apply not_eq_sym, instance_key_not_global).
    by rewrite lookup_insert_eq. }
  assert (He : entries w' "instances" = l').
  { unfold entries, list_at, rec_at. rewrite Hw. by rewrite lookup_insert_eq. }
  split; [|split].
  - intros Ho. rewrite Hr. unfold Api.flagged.
    rewrite getf_setf_ne by done. by apply getf_setf_eq.
  - rewrite He, Hr. intros i e Hfirst Hi Ho.
    apply findIndex_inv in Hf. destruct found as [i0|].
    + destruct Hf as [[e0 [He0 Hx0]] Hlt0].
      rewrite He0 in Hl'. simpl in Hl'.
      destruct (truthy e0) eqn:Ht0; subst l'.
      * assert (i = i0) as ->.
        { eapply first_at_unique; [|split; eauto].
          eapply first_at_insert; [done| |done].
          unfold Api.flagged. by rewrite !getf_setf_ne by done. }
        rewrite list_lookup_insert_eq in Hi by (by eapply lookup_lt_Some).
        injection Hi as <-. unfold Api.flagged in *.
        rewrite getf_setf_ne by done. apply getf_setf_eq.
        by apply is_obj_setf, is_obj_setf in Ho.
      * assert (i = i0) as -> by (eapply first_at_unique; [done|split; eauto]).
        rewrite He0 in Hi. injection Hi as <-. by destruct e0.
    + subst l'. destruct Hfirst as [[e1 [He1 Hx1]] _].
      eapply Forall_lookup_1 in Hf; [|done]. simpl in Hf. congruence.
  - intros u. rewrite Hw.
    rewrite lookup_insert_ne by (apply not_eq_sym, list_key_not_global).
    by rewrite lookup_insert_ne by apply instance_key_not_list.
Qed.



(** ** Handlers that write one record to the three places *)


Lemma list_holds_agrees fields w key k :
  list_holds w key k -> list_agrees fields w key k.
Proof. intros [_ H] e He Hid f _. by rewrite (H e He Hid). Qed.






(** ** The node call of the edit handler *)

Lemma sent_sending rq w : sent (sending rq w) = sent w ++ [rq].
Proof. done. Qed.

Lemma send_with_retry_run rq w :
  validate rq = Below500 ->
  Edit.send_with_retry rq w =
    if NodeClient.retried (daemon w (length (sent w)) rq)
    then (settle rq (daemon w (S (length (sent w))) rq), sending rq (sending rq w))
    else (settle rq (daemon w (length (sent w)) rq), sending rq w).
Proof.
  intros Hv. unfold Edit.send_with_retry, try_catch, axios.
  destruct (daemon w (length (sent w)) rq) as [c m|st d] eqn:Ha; simpl.
  - destruct (decide (c = "ECONNABORTED")) as [->|Hc].
    + rewrite !bool_decide_eq_true_2 by done. simpl.
      change (daemon (sending rq w)) with (daemon w).
      rewrite ?sent_sending, length_app. simpl.
      by replace (length (sent w) + 1)%nat with (S (length (sent w))) by lia.
    + rewrite !bool_decide_eq_false_2 by congruence. done.
  - rewrite Hv. simpl. destruct (st <? 500) eqn:Hst; simpl.
    + assert ((500 <=? st) = false) as -> by lia. done.
    + assert ((500 <=? st) = true) as -> by lia.
      rewrite orb_true_r. change (daemon (sending rq w)) with (daemon w).
      rewrite ?sent_sending, length_app. simpl.
      by replace (length (sent w) + 1)%nat with (S (length (sent w))) by lia.
Qed.



(** ** The synchroniser of the edit handler *)



Ltac not_in :=
  rewrite ?not_elem_of_cons; repeat split; try done; apply not_elem_of_nil.

Lemma getf_updated_record_ne inst I M C ncid t g :
  g ∉ ["updatedAt"; "ContainerId"; "Cpu"; "Memory"; "Image"] ->
  Str.all_chars Str.is_digit g = false ->
  getf (Edit.updated_record inst I M C ncid t) g = getf inst g.
Proof.
  intros Hg Hd. unfold Edit.updated_record. simpl.
  rewrite !not_elem_of_cons in Hg. destruct Hg as (?&?&?&?&?&_).
  rewrite !lookup_insert_ne by done. by apply own_props_getf.
Qed.

Lemma update_db_run id inst I M C ncid w record :
  record = Edit.updated_record inst I M C ncid (JStr (clock w (ticks w))) ->
  Edit.updateInstanceInDatabase id inst I M C ncid w =
  match Edit.merged_list (rec_at w (owner_key record)) id record with
  | Throw e => (Throw e, (now w).2)
  | Ok ru =>
      match Edit.merged_list (rec_at w "instances") id record with
      | Throw e => (Throw e, (now w).2)
      | Ok rg =>
          (Ok record,
           with_db (fun m => foldl (fun m o => Db.apply o m) m
                               (edit_batch id record ncid ru rg)) (now w).2)
      end
  end.
Proof.
  intros Hrec.
  assert (Hu : owner_key record = to_str (getf inst "User") +:+ "_instances").
  { unfold owner_key. rewrite Hrec, getf_updated_record_ne; [done|not_in|done]. }
  unfold Edit.updateInstanceInDatabase, bind, now, Db.get, Db.write, lift, ret,
    edit_batch, rec_at.
  rewrite Hu. simpl. rewrite <- Hrec.
  destruct (Edit.merged_list (default JUndef (db w !! _)) id record) as [ru|];
    simpl; [|done].
  destruct (Edit.merged_list (default JUndef (db w !! "instances")) id record) as [rg|];
    simpl; done.
Qed.

Lemma edit_batch_instance_key id record ncid ru rg (m : gmap string jsval) a :
  foldl (fun m o => Db.apply o m) m (edit_batch id record ncid ru rg) !! (a +:+ "_instance")
  = base.delete (id +:+ "_instance") (<[to_str ncid +:+ "_instance" := record]> m)
      !! (a +:+ "_instance").
Proof.
  unfold edit_batch, owner_key.
  destruct ru, rg; simpl;
    rewrite ?(lookup_insert_ne _ "instances") by (apply not_eq_sym, instance_key_not_global);
    rewrite ?(lookup_insert_ne _ (_ +:+ "_instances"))
      by (apply not_eq_sym, instance_key_not_list);
    done.
Qed.

Lemma edit_batch_owner_key id record ncid ru rg (m : gmap string jsval) :
  foldl (fun m o => Db.apply o m) m (edit_batch id record ncid ru rg) !! owner_key record
  = match ru with
    | Some l => Some (JArr l)
    | None => m !! owner_key record
    end.
Proof.
  unfold edit_batch, owner_key.
  destruct ru, rg; simpl;
    rewrite ?(lookup_insert_ne _ "instances") by apply not_eq_sym, list_key_not_global;
    rewrite ?lookup_insert_eq;
    rewrite ?lookup_delete_ne by apply instance_key_not_list;
    rewrite ?lookup_insert_ne by apply instance_key_not_list; done.
Qed.

Lemma edit_batch_global id record ncid ru rg (m : gmap string jsval) :
  foldl (fun m o => Db.apply o m) m (edit_batch id record ncid ru rg) !! "instances"
  = match rg with
    | Some l => Some (JArr l)
    | None => m !! "instances"
    end.
Proof.
  unfold edit_batch, owner_key.
  destruct ru, rg; simpl;
    rewrite ?lookup_insert_eq;
    rewrite ?(lookup_insert_ne _ (_ +:+ "_instances")) by apply list_key_not_global;
    rewrite ?lookup_delete_ne by apply instance_key_not_global;
    rewrite ?lookup_insert_ne by apply instance_key_not_global; done.
Qed.

Lemma findIndex_total f x l :
  no_hole l -> exists r, Arr.findIndex (Arr.field_is f x) l = Ok r.
Proof.
  induction 1 as [|e l Hn _ [r IH]]; simpl; [eauto|].
  unfold Arr.field_is at 1, prop. rewrite Hn. simpl.
  destruct (strict_eq _ _); [eauto|]. rewrite IH. simpl. eauto.
Qed.

Lemma merged_list_total stored id record l :
  or_else stored (JArr []) = JArr l -> no_hole l ->
  exists r, Edit.merged_list stored id record = Ok r.
Proof.
  intros Hl Hh. unfold Edit.merged_list. rewrite Hl. simpl.
  destruct (findIndex_total "ContainerId" (JStr id) l Hh) as [[i|] ->]; simpl; eauto.
Qed.

(** The edit handler past its checks. *)
Lemma edit_run user id b w inst :
  Edit.is_admin user = true ->
  Edit.rejected user id b = None ->
  db w !! instance_key id = Some inst -> truthy inst = true ->
  Edit.bad_node inst = false ->
  Edit.edit user id b w =
  match Edit.send_with_retry
          (Edit.prepareEditRequestData inst (Edit.Image b) (Edit.num (Edit.Memory b))
             (Edit.num (Edit.Cpu b))) w with
  | (Throw e, w1) => (Edit.on_error e, w1)
  | (Ok resp, w1) =>
      if negb (truthy (r_data resp)) ||
         negb (truthy (getf (r_data resp) "newContainerId"))
      then (Edit.on_error (Error "Invalid response from node API"), w1)
      else
        match Edit.updateInstanceInDatabase id inst (Edit.Image b)
                (Edit.num (Edit.Memory b)) (Edit.num (Edit.Cpu b))
                (getf (r_data resp) "newContainerId") w1 with
        | (Throw e, w2) => (Edit.on_error e, w2)
        | (Ok _, w2) =>
            (Json 200
               (obj [("message", JStr "Instance updated successfully");
                     ("oldContainerId", JStr id);
                     ("newContainerId", getf (r_data resp) "newContainerId");
                     ("changes", Edit.changes b)]), w2)
        end
  end.
Proof.
  intros Ha Hr Hdb Ht Hn. unfold Edit.edit. rewrite Ha, Hr. simpl.
  unfold route, bind at 1, Db.get. fold (instance_key id). rewrite Hdb. simpl.
  rewrite Ht, Hn. simpl. unfold bind at 1.
  destruct (Edit.send_with_retry _ w) as [[resp|e] w1]; [|done].
  destruct (negb (truthy (r_data resp)) || _); [done|].
  unfold bind, logAudit, ret.
  by destruct (Edit.updateInstanceInDatabase _ _ _ _ _ _ w1) as [[upd|e] w2].
Qed.

(** ** C6: retries of the node call *)

(** Sending composes: a computation that sends nothing before or after one
    that sends at most once sends at most once. *)
Lemma sn_of_reads_only {A} (m : M A) : reads_only m -> NodeClient.sends_nothing m.
Proof. intros H w. by rewrite H. Qed.
Lemma sn_ret {A} (a : A) : NodeClient.sends_nothing (ret a).
Proof. done. Qed.
Lemma sn_throw {A} e : NodeClient.sends_nothing (@throw A e).
Proof. done. Qed.
Lemma sn_lift {A} (r : result A) : NodeClient.sends_nothing (lift r).
Proof. done. Qed.
Lemma sn_get k : NodeClient.sends_nothing (Db.get k).
Proof. done. Qed.
Lemma sn_set k v : NodeClient.sends_nothing (Db.set k v).
Proof. done. Qed.
Lemma sn_delete k : NodeClient.sends_nothing (Db.delete k).
Proof. done. Qed.
Lemma sn_write b : NodeClient.sends_nothing (Db.write b).
Proof. done. Qed.
Lemma sn_now : NodeClient.sends_nothing now.
Proof. done. Qed.
Lemma sn_logAudit : NodeClient.sends_nothing logAudit.
Proof. done. Qed.
Lemma sn_auth userId containerId :
  NodeClient.sends_nothing (AuthHelper.isUserAuthorizedForContainer userId containerId).
Proof. apply sn_of_reads_only, auth_reads_only. Qed.
Lemma sn_bind {A B} (m : M A) (k : A -> M B) :
  NodeClient.sends_nothing m -> (forall a, NodeClient.sends_nothing (k a)) ->
  NodeClient.sends_nothing (bind m k).
Proof.
  intros Hm Hk w. unfold bind. specialize (Hm w).
  destruct (m w) as [[a|e] w1]; simpl in *; [|done]. by rewrite Hk.
Qed.
Lemma sn_try {A} (m : M A) (h : jserr -> M A) :
  NodeClient.sends_nothing m -> (forall e, NodeClient.sends_nothing (h e)) ->
  NodeClient.sends_nothing (try_catch m h).
Proof.
  intros Hm Hh w. unfold try_catch. specialize (Hm w).
  destruct (m w) as [[a|e] w1]; simpl in *; [done|]. by rewrite Hh.
Qed.

Ltac sn :=
  repeat first
    [ apply sn_ret | apply sn_throw | apply sn_lift | apply sn_get | apply sn_set
    | apply sn_delete | apply sn_write | apply sn_now | apply sn_logAudit
    | apply sn_auth
    | apply sn_try; [|intros ?] | apply sn_bind; [|intros ?]
    | match goal with
      | |- NodeClient.sends_nothing (if ?b then _ else _) => destruct b
      | |- NodeClient.sends_nothing (match ?x with _ => _ end) => destruct x
      | |- NodeClient.sends_nothing (let '(_, _) := ?x in _) => destruct x
      end ].

Lemma amo_of_sn {A} (h : world -> A * world) :
  NodeClient.sends_nothing h -> NodeClient.sends_at_most_once h.
Proof. intros H w. left. apply H. Qed.
Lemma amo_axios rq : NodeClient.sends_at_most_once (axios rq).
Proof. intros w. right. by exists rq. Qed.
Lemma amo_after {A B} (m : M A) (k : A -> M B) :
  NodeClient.sends_nothing m -> (forall a, NodeClient.sends_at_most_once (k a)) ->
  NodeClient.sends_at_most_once (bind m k).
Proof.
  intros Hm Hk w. unfold bind. specialize (Hm w).
  destruct (m w) as [[a|e] w1]; simpl in *; [|by left].
  rewrite <- Hm. apply Hk.
Qed.
Lemma amo_before {A B} (m : M A) (k : A -> M B) :
  NodeClient.sends_at_most_once m -> (forall a, NodeClient.sends_nothing (k a)) ->
  NodeClient.sends_at_most_once (bind m k).
Proof.
  intros Hm Hk w. unfold bind. specialize (Hm w).
  destruct (m w) as [[a|e] w1]; simpl in *; [|done]. by rewrite (Hk a w1).
Qed.
Lemma amo_try {A} (m : M A) (h : jserr -> M A) :
  NodeClient.sends_at_most_once m -> (forall e, NodeClient.sends_nothing (h e)) ->
  NodeClient.sends_at_most_once (try_catch m h).
Proof.
  intros Hm Hh w. unfold try_catch. specialize (Hm w).
  destruct (m w) as [[a|e] w1]; simpl in *; [done|]. by rewrite (Hh e w1).
Qed.
Lemma amo_route (body : M reply) (on_error : jserr -> reply) :
  NodeClient.sends_at_most_once body ->
  NodeClient.sends_at_most_once (route body on_error).
Proof.
  intros Hb w. unfold route. specialize (Hb w). by destruct (body w) as [[r|e] w1].
Qed.
Lemma amo_pure {A} (a : A) : NodeClient.sends_at_most_once (fun w => (a, w)).
Proof. intros w. by left. Qed.

(** The steps of a handler up to and after its one call. *)
Ltac amo :=
  repeat first
    [ apply amo_axios | apply amo_pure | apply amo_route
    | apply amo_of_sn; solve [sn]
    | apply amo_before; [|intros ?; solve [sn]]
    | apply amo_after; [solve [sn]|intros ?]
    | apply amo_try; [|intros ?; solve [sn]]
    | match goal with
      | |- NodeClient.sends_at_most_once (if ?b then _ else _) => destruct b
      | |- NodeClient.sends_at_most_once (match ?x with _ => _ end) => destruct x
      end ].

Lemma reinstall_sends_at_most_once accept user id :
  NodeClient.sends_at_most_once (Reinstall.reinstall accept user id).
Proof.
  unfold Reinstall.reinstall, Reinstall.prepareRequestData,
    Reinstall.updateDatabaseWithNewInstance, Deploy.find_image.
  amo.
Qed.

Lemma change_image_sends_at_most_once user id image quser :
  NodeClient.sends_at_most_once (Startup.change_image user id image quser).
Proof.
  unfold Startup.change_image, Startup.prepareRequestData,
    Startup.updateDatabaseWithNewInstance, Startup.updateInstanceInUserAndGlobalArrays,
    Startup.init_suspended, Deploy.find_image.
  amo.
Qed.

Lemma api_delete_sends_at_most_once id :
  NodeClient.sends_at_most_once (Api.delete_instance id).
Proof. unfold Api.delete_instance, Api.deleteInstance. amo. Qed.

Lemma admin_delete_sends_at_most_once id :
  NodeClient.sends_at_most_once (AdminInstances.delete_instance id).
Proof. unfold AdminInstances.delete_instance, AdminInstances.deleteInstance. amo. Qed.

(** C6, amended.  The node call of the edit handler (status policy "below
    500"): when the first attempt times out or is answered with a status of
    500 and above, the request is sent exactly once more and the call
    settles as the second attempt does, response or error, unchanged; a
    first answer below 500, the 4xx included, is a response, handed back
    without a retry.  The reinstall handler, the image change and the two
    delete handlers do not retry: each sends at most one request in a run,
    whatever the node answers. *)
Theorem edit_call_retries_once (rq : request) (w : world) :
  validate rq = Below500 ->
  let first := daemon w (length (sent w)) rq in
  let second := daemon w (S (length (sent w))) rq in
  (NodeClient.retried first = true ->
   sent (Edit.send_with_retry rq w).2 = sent w ++ [rq; rq] /\
   (Edit.send_with_retry rq w).1 = settle rq second) /\
  (forall st d, first = Reply st d -> st < 500 ->
   sent (Edit.send_with_retry rq w).2 = sent w ++ [rq] /\
   (Edit.send_with_retry rq w).1 = Ok {| r_status := st; r_data := d |}) /\
  (forall accept user id,
     NodeClient.sends_at_most_once (Reinstall.reinstall accept user id)) /\
  (forall user id image quser,
     NodeClient.sends_at_most_once (Startup.change_image user id image quser)) /\
  (forall id, NodeClient.sends_at_most_once (Api.delete_instance id)) /\
  (forall id, NodeClient.sends_at_most_once (AdminInstances.delete_instance id)).
Proof.
  intros Hv first second. rewrite send_with_retry_run by done. fold first second.
  split; [|split; [|split; [|split; [|split]]]].
  - intros ->. simpl. by rewrite <- app_assoc.
  - intros st d Hf Hst. rewrite Hf. simpl.
    assert ((500 <=? st) = false) as -> by lia. simpl.
    rewrite Hv. simpl. by assert ((st <? 500) = true) as -> by lia.
  - apply reinstall_sends_at_most_once.
  - apply change_image_sends_at_most_once.
  - apply api_delete_sends_at_most_once.
  - apply admin_delete_sends_at_most_once.
Qed.

(** ** C4: the edit handler and the suspended flag *)

(** C4, amended.  The edit handler does not read the suspended flag: for an
    administrator, a request that passes the checks, an instance with a
    usable node whose daemon answers below 500 with a new container id, and
    well-formed lists, the request is sent to the node, the answer is 200,
    the record moves from the old key to the key of the new container id,
    and its [suspended] field is the one it had -- nothing is asked of that
    field. *)
Theorem edit_ignores_suspension
    (user : jsval) (id : string) (b : Edit.body) (w : world) (inst : jsval)
    (st : Z) (d : jsval) (lu lg : list jsval) :
  Edit.is_admin user = true ->
  Edit.rejected user id b = None ->
  db w !! instance_key id = Some inst ->
  truthy inst = true ->
  Edit.bad_node inst = false ->
  daemon w (length (sent w))
    (Edit.prepareEditRequestData inst (Edit.Image b) (Edit.num (Edit.Memory b))
       (Edit.num (Edit.Cpu b))) = Reply st d ->
  st < 500 ->
  truthy (getf d "newContainerId") = true ->
  instance_key (to_str (getf d "newContainerId")) ≠ instance_key id ->
  list_at w (owner_key inst) = JArr lu -> no_hole lu ->
  list_at w "instances" = JArr lg -> no_hole lg ->
  exists body record,
    (Edit.edit user id b w).1 = Json 200 body /\
    sent (Edit.edit user id b w).2 =
      sent w ++ [Edit.prepareEditRequestData inst (Edit.Image b)
                   (Edit.num (Edit.Memory b)) (Edit.num (Edit.Cpu b))] /\
    db (Edit.edit user id b w).2 !! instance_key id = None /\
    db (Edit.edit user id b w).2 !! instance_key (to_str (getf d "newContainerId"))
      = Some record /\
    getf record "suspended" = getf inst "suspended" /\
    getf record "ContainerId" = getf d "newContainerId".
Proof.
  intros Ha Hr Hdb Ht Hn Hd Hst Hnew Hkey Hlu Hhu Hlg Hhg.
  rewrite (edit_run _ _ _ _ _ Ha Hr Hdb Ht Hn).
  set (rq := Edit.prepareEditRequestData _ _ _ _) in *.
  rewrite send_with_retry_run by done. rewrite Hd. simpl.
  assert ((500 <=? st) = false) as -> by lia.
  assert ((st <? 500) = true) as -> by lia. simpl.
  assert (truthy d = true) as -> by (by destruct d).
  rewrite Hnew. simpl.
  set (record := Edit.updated_record inst (Edit.Image b) (Edit.num (Edit.Memory b))
                   (Edit.num (Edit.Cpu b)) (getf d "newContainerId")
                   (JStr (clock w (ticks w)))).
  assert (Hown : owner_key record = owner_key inst).
  { unfold owner_key, record. rewrite getf_updated_record_ne; [done|not_in|done]. }
  rewrite (update_db_run _ _ _ _ _ _ _ record) by done.
  rewrite Hown. change (rec_at (sending rq w)) with (rec_at w).
  destruct (merged_list_total _ id record lu Hlu Hhu) as [ru ->].
  destruct (merged_list_total _ id record lg Hlg Hhg) as [rg ->].
  cbn [fst snd]. eexists _, record. split; [done|]. split; [done|].
  change (db (with_db ?f ?w0)) with (f (db w0)). cbv beta.
  change (db (now (sending rq w)).2) with (db w).
  unfold instance_key in *. rewrite !edit_batch_instance_key.
  rewrite lookup_delete_eq, lookup_delete_ne by done. rewrite lookup_insert_eq.
  repeat split.
  - unfold record. rewrite getf_updated_record_ne; [done|not_in|done].
  - unfold record, Edit.updated_record. simpl.
    rewrite lookup_insert_ne by done. by rewrite lookup_insert_eq.
Qed.

Lemma update_db_inv id inst I M C ncid w upd w' :
  Edit.updateInstanceInDatabase id inst I M C ncid w = (Ok upd, w') ->
  upd = Edit.updated_record inst I M C ncid (JStr (clock w (ticks w))) /\
  exists ru rg,
    Edit.merged_list (rec_at w (owner_key upd)) id upd = Ok ru /\
    Edit.merged_list (rec_at w "instances") id upd = Ok rg /\
    db w' = foldl (fun m o => Db.apply o m) (db w) (edit_batch id upd ncid ru rg) /\
    sent w' = sent w.
Proof.
  rewrite (update_db_run _ _ _ _ _ _ _ _ eq_refl).
  destruct (Edit.merged_list (rec_at w (owner_key _)) _ _) as [ru|] eqn:Hu; [|done].
  destruct (Edit.merged_list (rec_at w "instances") _ _) as [rg|] eqn:Hg; [|done].
  intros [= <- <-]. split; [done|]. by exists ru, rg.
Qed.



(** ** C3 and C5: how the two synchronisers find the entry *)

Lemma entries_of_lookup w k l : db w !! k = Some (JArr l) -> entries w k = l.
Proof. intros H. unfold entries, list_at, rec_at. by rewrite H. Qed.

Lemma entries_of_list_at w k l : list_at w k = JArr l -> entries w k = l.
Proof. intros H. unfold entries. by rewrite H. Qed.

(** C3, amended.  [updateInstanceInUserAndGlobalArrays] (env-variable and
    image change) finds entries by Id: in the owner's list and in the global
    list it drops every entry whose Id is the record's and appends the
    record.  The synchroniser of the edit handler finds the entry by
    ContainerId: it merges the record into the first entry whose ContainerId
    is the id of the request, and finds none when no entry has it. *)
Theorem synchronisers_locate
    (record : jsval) (w w' : world) (stored : jsval) (id : string)
    (r : option (list jsval)) :
  Startup.updateInstanceInUserAndGlobalArrays record w = (Ok tt, w') ->
  Edit.merged_list stored id record = Ok r ->
  (entries w' (owner_key record) =
     without "Id" (getf record "Id") (entries w (owner_key record)) ++ [record] /\
   entries w' "instances" =
     without "Id" (getf record "Id") (entries w "instances") ++ [record]) /\
  (exists l, or_else stored (JArr []) = JArr l /\
     match r with
     | Some l' =>
         exists i e, l !! i = Some e /\ first_at "ContainerId" (JStr id) l i /\
                     l' = <[i := spread2 e record]> l
     | None => Forall (fun e => strict_eq (getf e "ContainerId") (JStr id) = false) l
     end).
Proof.
  intros Hup Hm. split; [|by apply merged_list_inv].
  apply update_arrays_inv in Hup as (lu & lg & Hlu & Hlg & _ & _ & ->).
  rewrite (entries_of_list_at _ _ _ Hlu), (entries_of_list_at _ _ _ Hlg).
  split; apply entries_of_lookup; simpl.
  - rewrite lookup_insert_ne by (apply not_eq_sym, list_key_not_global).
    by rewrite lookup_insert_eq.
  - by rewrite lookup_insert_eq.
Qed.

(** C5, amended.  [updateInstanceInUserAndGlobalArrays] always appends: after
    it the record is in the owner's list and in the global list, whether or
    not an entry with its Id was there.  [updateInstanceInDatabase] of the
    edit handler does not append: a list with no entry whose ContainerId is
    the id of the request is left as it was. *)
Theorem synchronisers_when_absent
    (record : jsval) (w w' : world) (id : string)
    (inst I M C ncid upd : jsval) (v v' : world) :
  Startup.updateInstanceInUserAndGlobalArrays record w = (Ok tt, w') ->
  Edit.updateInstanceInDatabase id inst I M C ncid v = (Ok upd, v') ->
  (record ∈ entries w' (owner_key record) /\ record ∈ entries w' "instances") /\
  (forall k, k = owner_key upd \/ k = "instances" ->
     Forall (fun e => strict_eq (getf e "ContainerId") (JStr id) = false) (entries v k) ->
     db v' !! k = db v !! k).
Proof.
  intros Hup Hdb. split.
  - apply update_arrays_inv in Hup as (lu & lg & _ & _ & _ & _ & ->).
    split; [rewrite (entries_of_lookup _ _ (without "Id" (getf record "Id") lu ++ [record]))
           |rewrite (entries_of_lookup _ _ (without "Id" (getf record "Id") lg ++ [record]))].
    1,3: apply elem_of_app; right; by apply list_elem_of_singleton.
    + simpl. rewrite lookup_insert_ne by (apply not_eq_sym, list_key_not_global).
      by rewrite lookup_insert_eq.
    + simpl. by rewrite lookup_insert_eq.
  - apply update_db_inv in Hdb as (_ & ru & rg & Hu & Hg & -> & _).
    apply merged_list_inv in Hu as (lu & Hlu & Hru).
    apply merged_list_inv in Hg as (lg & Hlg & Hrg).
    intros k [->| ->] Hall.
    + rewrite edit_batch_owner_key. destruct ru as [l'|]; [|done].
      destruct Hru as (i & e & He & [[e1 [He1 Hx]] _] & _).
      rewrite (entries_of_list_at _ _ _ Hlu) in Hall.
      eapply Forall_lookup_1 in Hall; [|done]. simpl in Hall. congruence.
    + rewrite edit_batch_global. destruct rg as [l'|]; [|done].
      destruct Hrg as (i & e & He & [[e1 [He1 Hx]] _] & _).
      rewrite (entries_of_list_at _ _ _ Hlg) in Hall.
      eapply Forall_lookup_1 in Hall; [|done]. simpl in Hall. congruence.
Qed.

(** ** C1: what a successful mutation leaves in the three places *)




(** ** Rename *)



(** Only a record, an object with an Id, passes the authorisation test. *)
Lemma authorized_is_record userId inst w w1 :
  AuthHelper.isUserAuthorizedForContainer userId (getf inst "Id") w = (Ok true, w1) ->
  exists o, inst = JObj o.
Proof.
  unfold AuthHelper.isUserAuthorizedForContainer.
  destruct inst; simpl; rewrite ?orb_true_r; try done. eauto.
Qed.





(** The owner renames [i1]: the record and both lists carry the trimmed
    name. *)
Lemma rename_by_owner :
  let out := run (RenameOp Example.owner "i1" (JStr " web ")) Example.healthy in
  let renamed := setf Example.inst1 "Name" (JStr "web") in
  succeeded (RenameOp Example.owner "i1" (JStr " web ")) out.1 /\
  rec_at out.2 "i1_instance" = renamed /\
  entries out.2 "u1_instances" = [renamed] /\
  entries out.2 "instances" = [renamed].
Proof. repeat split; vm_compute; reflexivity. Qed.

(** The owner asks for the same on the GET route: the handler throws, with
    the store as it was. *)
Lemma rename_get_by_owner :
  Startup.rename Example.owner "i1" "web" Example.healthy =
    (Unhandled (ReferenceError "isInstanceSuspended is not defined"),
     Example.healthy).
Proof. vm_compute. reflexivity. Qed.

(** An administrator renames it: the handler looks into the list of the
    signed-in user, so the owner's list keeps the old entry. *)
Lemma rename_by_admin :
  let out := run (RenameOp Example.admin "i1" (JStr " web ")) Example.healthy in
  let renamed := setf Example.inst1 "Name" (JStr "web") in
  succeeded (RenameOp Example.admin "i1" (JStr " web ")) out.1 /\
  rec_at out.2 "i1_instance" = renamed /\
  entries out.2 "u1_instances" = [Example.inst1] /\
  entries out.2 "instances" = [renamed].
Proof. repeat split; vm_compute; reflexivity. Qed.

(** ** C2: deleting an instance when the node call fails *)

(** The API route: a DELETE that axios rejects ends the handler; the store
    is as it was. *)
Lemma api_delete_stops_on_failed_call id w inst rq e :
  truthy id = true ->
  db w !! (to_str id +:+ "_instance") = Some inst -> truthy inst = true ->
  Api.delete_request inst = Ok rq ->
  settle rq (daemon w (length (sent w)) rq) = Throw e ->
  Api.delete_instance id w =
    (Api.errorResponse 500 "Failed to delete instance", sending rq w).
Proof.
  intros Hid Hdb Ht Hrq Hs. unfold Api.delete_instance. rewrite Hid. simpl.
  unfold route, bind at 1, Db.get. rewrite Hdb. simpl. rewrite Ht. simpl.
  unfold bind at 1, Api.deleteInstance, try_catch, bind at 1, lift. rewrite Hrq.
  unfold bind at 1, axios. by rewrite Hs.
Qed.

Lemma validateInstance_truthy inst :
  AdminInstances.validateInstance inst = Ok tt -> truthy inst = true.
Proof.
  unfold AdminInstances.validateInstance. by destruct (truthy inst).
Qed.

Lemma admin_delete_run id w inst lu lg :
  id ≠ "" ->
  db w !! instance_key id = Some inst ->
  AdminInstances.validateInstance inst = Ok tt ->
  list_at w (owner_key inst) = JArr lu -> no_hole lu ->
  list_at w "instances" = JArr lg -> no_hole lg ->
  AdminInstances.delete_instance id w =
    (Flash true "Instance deleted successfully" "/admin/instances",
     with_db
       (fun m =>
          base.delete (to_str (getf inst "Id") +:+ "_workflow")
            (base.delete (to_str (getf inst "Id") +:+ "_instance")
               (<["instances" := JArr (without "Id" (getf inst "Id") lg)]>
                  (<[owner_key inst := JArr (without "Id" (getf inst "Id") lu)]> m))))
       (sending (AdminInstances.delete_request inst) w)).
Proof.
  intros Hid Hdb Hv Hlu Hhu Hlg Hhg.
  unfold AdminInstances.delete_instance.
  destruct (String.eqb_spec id ""); [done|].
  unfold route, bind at 1, Db.get. fold (instance_key id). rewrite Hdb. simpl.
  rewrite (validateInstance_truthy _ Hv). simpl.
  unfold bind at 1, AdminInstances.deleteInstance, bind at 1, lift. rewrite Hv.
  unfold bind at 1, try_catch, bind at 1, axios, ret.
  set (w1 := sending (AdminInstances.delete_request inst) w).
  assert (Hw1 : forall k, list_at w1 k = list_at w k) by done.
  destruct (settle _ _) as [a|e]; cbn [fst snd].
  all: unfold bind, Db.get, Db.set, Db.delete, lift, logAudit, ret; cbn [fst snd].
  all: fold (owner_key inst); name_lists; rewrite !Hw1, Hlu; simpl.
  all: rewrite (filter_ok _ _ _ Hhu); simpl.
  all: change (or_else (default JUndef (db w !! "instances")) (JArr []))
         with (list_at w "instances"); rewrite Hlg; simpl.
  all: by rewrite (filter_ok _ _ _ Hhg).
Qed.

(** The admin route: the records go whatever the daemon answers. *)
Lemma admin_delete_is_best_effort id w inst lu lg :
  id ≠ "" ->
  db w !! instance_key id = Some inst ->
  AdminInstances.validateInstance inst = Ok tt ->
  list_at w (owner_key inst) = JArr lu -> no_hole lu ->
  list_at w "instances" = JArr lg -> no_hole lg ->
  (AdminInstances.delete_instance id w).1 =
    Flash true "Instance deleted successfully" "/admin/instances" /\
  db (AdminInstances.delete_instance id w).2
    !! instance_key (to_str (getf inst "Id")) = None /\
  entries (AdminInstances.delete_instance id w).2 (owner_key inst) =
    without "Id" (getf inst "Id") lu /\
  entries (AdminInstances.delete_instance id w).2 "instances" =
    without "Id" (getf inst "Id") lg.
Proof.
  intros Hid Hdb Hv Hlu Hhu Hlg Hhg.
  rewrite (admin_delete_run _ _ _ _ _ Hid Hdb Hv Hlu Hhu Hlg Hhg). cbn [fst snd].
  change (db (with_db ?f ?w0)) with (f (db w0)). cbv beta.
  unfold instance_key. repeat split.
  - rewrite lookup_delete_ne by (apply not_eq_sym, instance_key_not_workflow).
    by rewrite lookup_delete_eq.
  - apply entries_of_lookup.
    change (db (with_db ?f ?w0)) with (f (db w0)). cbv beta.
    rewrite lookup_delete_ne by apply workflow_key_not_list.
    rewrite lookup_delete_ne by apply instance_key_not_list.
    rewrite lookup_insert_ne by (apply not_eq_sym, list_key_not_global).
    by rewrite lookup_insert_eq.
  - apply entries_of_lookup.
    change (db (with_db ?f ?w0)) with (f (db w0)). cbv beta.
    rewrite lookup_delete_ne by apply workflow_key_not_global.
    rewrite lookup_delete_ne by apply instance_key_not_global.
    by rewrite lookup_insert_eq.
Qed.

(** ** C8: unsuspending twice *)

Lemma admin_unsuspend_run id w inst lg lg' :
  id ≠ "" ->
  db w !! instance_key id = Some inst -> truthy inst = true ->
  list_at w "instances" = JArr lg ->
  Arr.map (AdminInstances.mark_unsuspended inst) lg = Ok lg' ->
  AdminInstances.unsuspend id w =
    (Flash true "Instance unsuspended successfully" "/admin/instances",
     with_db (fun m => <["instances" := JArr lg']>
                (<[instance_key id := AdminInstances.cleared inst]> m)) w).
Proof.
  intros Hid Hdb Ht Hlg Hm. unfold AdminInstances.unsuspend.
  destruct (String.eqb_spec id ""); [done|].
  unfold route, bind, Db.get, Db.set, lift, logAudit, ret. fold (instance_key id).
  rewrite Hdb. simpl. rewrite Ht. simpl. name_lists. rewrite Hlg. simpl.
  by rewrite Hm.
Qed.

Lemma cleared_is_obj v : exists o, AdminInstances.cleared v = JObj o.
Proof.
  unfold AdminInstances.cleared.
  destruct (truthy (default JUndef _)); eauto.
Qed.

Lemma mark_unsuspended_total inst l :
  no_hole l -> exists l', Arr.map (AdminInstances.mark_unsuspended inst) l = Ok l' /\ no_hole l'.
Proof.
  induction 1 as [|a l Ha _ (l' & IH & Hl')]; simpl;
    [exists []; split; [done|constructor]|].
  unfold AdminInstances.mark_unsuspended at 1, prop. rewrite Ha. simpl. rewrite IH. simpl.
  eexists. split; [done|]. constructor; [|done].
  destruct (strict_eq _ _); [|done].
  by destruct (cleared_is_obj a) as [o ->].
Qed.

Lemma map_no_hole inst l l' :
  Forall2 (fun a b => AdminInstances.mark_unsuspended inst a = Ok b) l l' -> no_hole l'.
Proof.
  induction 1 as [|a b l l' Hab _ IH]; constructor; [|done].
  unfold AdminInstances.mark_unsuspended, prop in Hab.
  destruct (nullish a) eqn:Ha; simpl in Hab; [done|].
  destruct (strict_eq _ _); injection Hab as <-; [|done].
  by destruct (cleared_is_obj a) as [o ->].
Qed.

(** The admin route is idempotent: once a call went through, the next one
    goes through as well, and the flag is off after each. *)
Lemma admin_unsuspend_twice id w msg url w1 :
  AdminInstances.unsuspend id w = (Flash true msg url, w1) ->
  getf (rec_at w1 (instance_key id)) "suspended" = JBool false /\
  exists w2,
    AdminInstances.unsuspend id w1 =
      (Flash true "Instance unsuspended successfully" "/admin/instances", w2) /\
    getf (rec_at w2 (instance_key id)) "suspended" = JBool false.
Proof.
  intros H. pose proof (admin_unsuspend_sync _ _ _ _ _ H) as (Hflag & _ & _).
  split; [done|].
  assert (Hid : id ≠ "").
  { intros ->. unfold AdminInstances.unsuspend in H. simpl in H. done. }
  apply admin_unsuspend_inv in H as (inst & lg & lg' & Hdb & Ht & Hlg & Hm & ->).
  apply map_no_hole in Hm.
  destruct (mark_unsuspended_total (AdminInstances.cleared inst) lg' Hm) as (lg2 & Hm2 & _).
  eexists. split.
  - eapply admin_unsuspend_run; [done| | | |exact Hm2].
    + simpl. rewrite lookup_insert_ne by (apply not_eq_sym, instance_key_not_global).
      by rewrite lookup_insert_eq.
    + by destruct (cleared_is_obj inst) as [o ->].
    + unfold list_at, rec_at. simpl. by rewrite lookup_insert_eq.
  - unfold rec_at. simpl.
    rewrite lookup_insert_ne by (apply not_eq_sym, instance_key_not_global).
    rewrite lookup_insert_eq. apply getf_cleared_suspended.
Qed.

(** The API route writes the flag before it reads [req.user] for the audit
    entry: the flag is off after the call whatever the answer is. *)
Lemma api_unsuspend_writes_flag user id w o :
  truthy id = true ->
  db w !! instance_key (to_str id) = Some (JObj o) ->
  (exists l, list_at w "instances" = JArr l /\ no_hole l) ->
  getf (rec_at (Api.unsuspend user id w).2 (instance_key (to_str id))) "suspended"
    = JBool false.
Proof.
  intros Hid Hdb (l & Hl & Hh). unfold Api.unsuspend. rewrite Hid. simpl.
  unfold route, bind at 1, Db.get. fold (instance_key (to_str id)). rewrite Hdb. simpl.
  unfold bind at 1.
  destruct (Api.set_flag id (JObj o) false "unsuspendedAt" w) as [[[]|e] w1] eqn:Hs.
  - eapply set_flag_sync in Hs as (H1 & _ & _); [|done|done|exact Hdb].
    specialize (H1 I).
    unfold bind, lift, logAudit, ret.
    destruct (prop user "userId"); [destruct (prop user "username")|]; exact H1.
  - exfalso. revert Hs.
    unfold Api.set_flag, bind, now, Db.get, Db.set, lift, ret. simpl.
    rewrite lookup_insert_ne by apply instance_key_not_global.
    change (or_else (default JUndef (db w !! "instances")) (JArr []))
      with (list_at w "instances"). rewrite Hl. simpl.
    destruct (findIndex_total "ContainerId" (default JUndef (o !! "ContainerId")) l Hh)
      as [r Hr].
    assert (Hc : default JUndef
                   (<["unsuspendedAt" := JStr (clock w (ticks w))]>
                      (<["suspended" := JBool false]> o) !! "ContainerId")
                 = default JUndef (o !! "ContainerId")).
    { by rewrite !lookup_insert_ne. }
    rewrite Hc, Hr. simpl. destruct r as [i|]; simpl; [|done].
    by destruct (truthy (default JUndef (l !! i))).
Qed.

(** ** The claims at the example installation *)

(** C2, at the failing input.  DELETE /api/instance/delete for instance [i1]
    while the node daemon answers 500, or cannot be reached: the route
    answers 500 and the store is untouched -- the record is still under its
    key, in the owner's list and in the global list. *)
Theorem api_delete_keeps_records_when_node_fails :
  (Api.delete_instance (JStr "i1") Example.with_failing_node).1 =
    Api.errorResponse 500 "Failed to delete instance" /\
  db (Api.delete_instance (JStr "i1") Example.with_failing_node).2 =
    Example.store Example.inst1 /\
  (Api.delete_instance (JStr "i1") Example.with_unreachable_node).1 =
    Api.errorResponse 500 "Failed to delete instance" /\
  db (Api.delete_instance (JStr "i1") Example.with_unreachable_node).2 =
    Example.store Example.inst1 /\
  rec_at Example.with_failing_node "i1_instance" = Example.inst1 /\
  entries Example.with_failing_node "u1_instances" = [Example.inst1] /\
  entries Example.with_failing_node "instances" = [Example.inst1].
Proof. repeat split; vm_compute; reflexivity. Qed.

(** C8, at the failing input.  POST /api/instances/unsuspend for instance
    [i1], twice, by a caller known by its API key only ([req.user] is
    undefined): after each call the flag is off, and each call answers 500. *)
Theorem api_unsuspend_twice_without_session :
  (Api.unsuspend JUndef (JStr "i1") Example.with_suspended_instance).1 =
    Api.errorResponse 500 "Failed to unsuspend instance" /\
  getf (rec_at (Api.unsuspend JUndef (JStr "i1") Example.with_suspended_instance).2
          "i1_instance") "suspended" = JBool false /\
  (Api.unsuspend JUndef (JStr "i1")
     (Api.unsuspend JUndef (JStr "i1") Example.with_suspended_instance).2).1 =
    Api.errorResponse 500 "Failed to unsuspend instance" /\
  getf (rec_at (Api.unsuspend JUndef (JStr "i1")
                  (Api.unsuspend JUndef (JStr "i1")
                     Example.with_suspended_instance).2).2
          "i1_instance") "suspended" = JBool false.
Proof. repeat split; vm_compute; reflexivity. Qed.



(** C3, counterexample.  The synchroniser of the edit handler, asked for id
    [i1]: in a list that holds the entry of [i1] as deploy left it (Id [i1],
    ContainerId [c1]) it finds none, where the specification's rule finds
    position 0; with a second entry whose ContainerId reads [i1] it replaces
    that one, of another Id. *)
Lemma edit_sync_locates_by_container_id :
  spec_locate Example.moved1 [Example.inst1] = Some 0%nat /\
  Edit.merged_list (JArr [Example.inst1]) "i1" Example.moved1 = Ok None /\
  spec_locate Example.moved1 [Example.inst1; Example.inst2] = Some 0%nat /\
  Edit.merged_list (JArr [Example.inst1; Example.inst2]) "i1" Example.moved1 =
    Ok (Some [Example.inst1; spread2 Example.inst2 Example.moved1]).
Proof. repeat split; vm_compute; reflexivity. Qed.

(** C3, witness. *)
Lemma synchronisers_locate_witness :
  Startup.updateInstanceInUserAndGlobalArrays Example.moved1 Example.healthy =
    (Ok tt, (Startup.updateInstanceInUserAndGlobalArrays Example.moved1
               Example.healthy).2) /\
  Edit.merged_list (JArr [Example.inst3; Example.inst2]) "i1" Example.moved1 =
    Ok (Some [Example.inst3; spread2 Example.inst2 Example.moved1]) /\
  (entries (Startup.updateInstanceInUserAndGlobalArrays Example.moved1
              Example.healthy).2 (owner_key Example.moved1) =
     without "Id" (getf Example.moved1 "Id")
       (entries Example.healthy (owner_key Example.moved1)) ++ [Example.moved1] /\
   entries (Startup.updateInstanceInUserAndGlobalArrays Example.moved1
              Example.healthy).2 "instances" =
     without "Id" (getf Example.moved1 "Id") (entries Example.healthy "instances")
       ++ [Example.moved1]) /\
  (exists l, or_else (JArr [Example.inst3; Example.inst2]) (JArr []) = JArr l /\
     exists i e, l !! i = Some e /\ first_at "ContainerId" (JStr "i1") l i /\
       [Example.inst3; spread2 Example.inst2 Example.moved1]
       = <[i := spread2 e Example.moved1]> l).
Proof.
  assert (H1 : Startup.updateInstanceInUserAndGlobalArrays Example.moved1 Example.healthy =
    (Ok tt, (Startup.updateInstanceInUserAndGlobalArrays Example.moved1
               Example.healthy).2)) by (vm_compute; reflexivity).
  assert (H2 : Edit.merged_list (JArr [Example.inst3; Example.inst2]) "i1" Example.moved1 =
    Ok (Some [Example.inst3; spread2 Example.inst2 Example.moved1]))
    by (vm_compute; reflexivity).
  split; [exact H1|]. split; [exact H2|].
  exact (synchronisers_locate Example.moved1 Example.healthy _
           (JArr [Example.inst3; Example.inst2]) "i1" _ H1 H2).
Defined.

(** C5, counterexample.  The edit of [i1] goes through; the moved record is
    under [c2_instance], and neither list holds it: both are as they were.
    The specification's rule would have appended it. *)
Lemma edit_skips_list_without_match :
  succeeded (EditOp Example.admin "i1" Example.more_memory)
    (Edit.edit Example.admin "i1" Example.more_memory Example.healthy).1 /\
  getf (rec_at (Edit.edit Example.admin "i1" Example.more_memory Example.healthy).2
          "c2_instance") "Id" = JStr "i1" /\
  entries (Edit.edit Example.admin "i1" Example.more_memory Example.healthy).2
    "instances" = [Example.inst1] /\
  entries (Edit.edit Example.admin "i1" Example.more_memory Example.healthy).2
    "u1_instances" = [Example.inst1] /\
  (rec_at (Edit.edit Example.admin "i1" Example.more_memory Example.healthy).2
     "c2_instance" ∉ [Example.inst1]) /\
  spec_sync Example.moved1 [Example.inst3] = [Example.inst3; Example.moved1] /\
  Edit.merged_list (JArr [Example.inst3]) "i1" Example.moved1 = Ok None.
Proof.
  repeat split; try (vm_compute; reflexivity).
  intros H. apply list_elem_of_singleton in H.
  apply (f_equal (fun v => getf v "ContainerId")) in H. vm_compute in H. discriminate.
Qed.

(** C5, witness. *)
Lemma synchronisers_when_absent_witness :
  Startup.updateInstanceInUserAndGlobalArrays Example.inst3 Example.healthy =
    (Ok tt, (Startup.updateInstanceInUserAndGlobalArrays Example.inst3
               Example.healthy).2) /\
  Edit.updateInstanceInDatabase "i1" Example.inst1 JUndef (JNum 2048) JUndef
    (JStr "c2") Example.healthy =
    (Ok (Edit.updated_record Example.inst1 JUndef (JNum 2048) JUndef (JStr "c2")
           (JStr "2024-01-01T00:00:00.000Z")),
     (Edit.updateInstanceInDatabase "i1" Example.inst1 JUndef (JNum 2048) JUndef
        (JStr "c2") Example.healthy).2) /\
  (Example.inst3 ∈ entries (Startup.updateInstanceInUserAndGlobalArrays Example.inst3
                             Example.healthy).2 (owner_key Example.inst3) /\
   Example.inst3 ∈ entries (Startup.updateInstanceInUserAndGlobalArrays Example.inst3
                             Example.healthy).2 "instances") /\
  db (Edit.updateInstanceInDatabase "i1" Example.inst1 JUndef (JNum 2048) JUndef
        (JStr "c2") Example.healthy).2 !! "instances"
  = db Example.healthy !! "instances".
Proof.
  assert (H1 : Startup.updateInstanceInUserAndGlobalArrays Example.inst3 Example.healthy =
    (Ok tt, (Startup.updateInstanceInUserAndGlobalArrays Example.inst3
               Example.healthy).2)) by (vm_compute; reflexivity).
  assert (H2 : Edit.updateInstanceInDatabase "i1" Example.inst1 JUndef (JNum 2048) JUndef
    (JStr "c2") Example.healthy =
    (Ok (Edit.updated_record Example.inst1 JUndef (JNum 2048) JUndef (JStr "c2")
           (JStr "2024-01-01T00:00:00.000Z")),
     (Edit.updateInstanceInDatabase "i1" Example.inst1 JUndef (JNum 2048) JUndef
        (JStr "c2") Example.healthy).2)) by (vm_compute; reflexivity).
  split; [exact H1|]. split; [exact H2|].
  destruct (synchronisers_when_absent Example.inst3 Example.healthy _ "i1"
              Example.inst1 JUndef (JNum 2048) JUndef (JStr "c2") _ Example.healthy _
              H1 H2) as [HA HB].
  split; [exact HA|].
  apply HB; [by right|].
  replace (entries Example.healthy "instances") with [Example.inst1]
    by (vm_compute; reflexivity).
  constructor; [vm_compute; reflexivity | constructor].
Defined.

(** C4, counterexample.  The instance [i1] is suspended; the edit request
    is answered 200, one request went to the node, and the record moved to
    [c2_instance] with the new memory. *)
Lemma edit_of_suspended_instance_goes_through :
  getf (rec_at Example.with_suspended_instance "i1_instance") "suspended" = JBool true /\
  succeeded (EditOp Example.admin "i1" Example.more_memory)
    (Edit.edit Example.admin "i1" Example.more_memory
       Example.with_suspended_instance).1 /\
  sent (Edit.edit Example.admin "i1" Example.more_memory
          Example.with_suspended_instance).2 =
    [Edit.prepareEditRequestData Example.suspended1 JUndef (JNum 2048) JUndef] /\
  db (Edit.edit Example.admin "i1" Example.more_memory
        Example.with_suspended_instance).2 !! "i1_instance" = None /\
  getf (rec_at (Edit.edit Example.admin "i1" Example.more_memory
                  Example.with_suspended_instance).2 "c2_instance") "Memory"
    = JNum 2048.
Proof. repeat split; vm_compute; reflexivity. Qed.

(** C4, witness: the edit of the suspended instance [i1]. *)
Lemma edit_ignores_suspension_witness :
  getf Example.suspended1 "suspended" = JBool true /\
  exists body record,
    (Edit.edit Example.admin "i1" Example.more_memory
       Example.with_suspended_instance).1 = Json 200 body /\
    sent (Edit.edit Example.admin "i1" Example.more_memory
            Example.with_suspended_instance).2 =
      sent Example.with_suspended_instance ++
      [Edit.prepareEditRequestData Example.suspended1
         (Edit.Image Example.more_memory)
         (Edit.num (Edit.Memory Example.more_memory))
         (Edit.num (Edit.Cpu Example.more_memory))] /\
    db (Edit.edit Example.admin "i1" Example.more_memory
          Example.with_suspended_instance).2 !! instance_key "i1" = None /\
    db (Edit.edit Example.admin "i1" Example.more_memory
          Example.with_suspended_instance).2
      !! instance_key (to_str (getf (obj [("newContainerId", JStr "c2");
                                          ("containerId", JStr "c2")])
                                 "newContainerId")) = Some record /\
    getf record "suspended" = getf Example.suspended1 "suspended" /\
    getf record "ContainerId" =
      getf (obj [("newContainerId", JStr "c2"); ("containerId", JStr "c2")])
        "newContainerId".
Proof.
  split; [vm_compute; reflexivity|].
  apply (edit_ignores_suspension Example.admin "i1" Example.more_memory
           Example.with_suspended_instance Example.suspended1 200
           (obj [("newContainerId", JStr "c2"); ("containerId", JStr "c2")])
           [Example.suspended1] [Example.suspended1]).
  all: try (vm_compute; reflexivity).
  - vm_compute. discriminate.
  - repeat constructor.
  - repeat constructor.
Defined.

(** C6, counterexample.  The node call of the reinstall handler, answered
    500, is sent once and not again; the node call of the edit handler,
    answered 404, settles with a response, not with an error. *)
Lemma node_calls_do_not_retry_as_specified :
  (exists rq,
     sent (Reinstall.reinstall None Example.owner "i1" Example.with_failing_node).2 = [rq] /\
     NodeClient.failure (daemon Example.with_failing_node 0 rq) = true /\
     ~ NodeClient.retries_once_then_surfaces axios rq Example.with_failing_node) /\
  NodeClient.client_error (daemon Example.with_refusing_node 0 Example.edit_request) = true /\
  (Edit.send_with_retry Example.edit_request Example.with_refusing_node).1 =
    Ok {| r_status := 404; r_data := obj [("message", JStr "no such container")] |} /\
  ~ NodeClient.retries_once_then_surfaces Edit.send_with_retry Example.edit_request
      Example.with_refusing_node.
Proof.
  split; [|split; [|split]].
  - eexists. split; [vm_compute; reflexivity|]. split; [vm_compute; reflexivity|].
    intros [H _]. specialize (H ltac:(vm_compute; reflexivity)) as [H _].
    vm_compute in H. discriminate.
  - vm_compute; reflexivity.
  - vm_compute; reflexivity.
  - intros [_ H]. specialize (H ltac:(vm_compute; reflexivity)) as [_ H].
    vm_compute in H. discriminate.
Qed.

(** C6, witness: the edit request against a daemon that answers 500. *)
Lemma edit_call_retries_once_witness :
  validate Example.edit_request = Below500 /\
  NodeClient.retried (daemon Example.with_failing_node 0 Example.edit_request) = true /\
  sent (Edit.send_with_retry Example.edit_request Example.with_failing_node).2 =
    [Example.edit_request; Example.edit_request] /\
  (Edit.send_with_retry Example.edit_request Example.with_failing_node).1 =
    Throw (rejection (Reply 500 JNull)).
Proof.
  split; [reflexivity|]. split; [vm_compute; reflexivity|].
  destruct (edit_call_retries_once Example.edit_request Example.with_failing_node
              eq_refl) as [H _].
  destruct (H ltac:(vm_compute; reflexivity)) as [H1 H2]. split; [exact H1|].
  rewrite H2. vm_compute. reflexivity.
Defined.



(** C9, counterexample.  [adm] is an administrator; for a container id that
    is undefined or empty the answer is [false], and the view of the blank
    record under [adm_instance], which has no Id, is refused with 403. *)
Lemma admin_rejected_without_container_id :
  Example.admin ∈ [Example.owner; Example.admin] /\
  db Example.with_blank_record !! "users" = Some (JArr [Example.owner; Example.admin]) /\
  truthy (getf Example.admin "admin") = true /\
  AuthHelper.isUserAuthorizedForContainer (JStr "adm") JUndef Example.with_blank_record
    = (Ok false, Example.with_blank_record) /\
  AuthHelper.isUserAuthorizedForContainer (JStr "adm") (JStr "") Example.with_blank_record
    = (Ok false, Example.with_blank_record) /\
  getf (rec_at Example.with_blank_record "adm_instance") "Id" = JUndef /\
  (InstanceView.view Example.admin "adm" Example.with_blank_record).1 = Render 403 "error".
Proof.
  split; [apply list_elem_of_further, list_elem_of_here|].
  repeat split; vm_compute; reflexivity.
Qed.

(** C9, witness. *)
Lemma admin_is_authorized_witness :
  truthy (JStr "adm") = true /\ truthy (JStr "no-such-instance") = true /\
  db Example.healthy !! "users" = Some (JArr ([Example.owner] ++ Example.admin :: [])) /\
  AuthHelper.isUserAuthorizedForContainer (JStr "adm") (JStr "no-such-instance")
    Example.healthy = (Ok true, Example.healthy).
Proof.
  split; [reflexivity|]. split; [reflexivity|]. split; [vm_compute; reflexivity|].
  apply (admin_is_authorized Example.healthy (JStr "adm") (JStr "no-such-instance")
           Example.admin [Example.owner] []).
  - reflexivity.
  - reflexivity.
  - vm_compute; reflexivity.
  - repeat constructor.
  - vm_compute; reflexivity.
  - vm_compute; reflexivity.
Defined.

(** C10, witness: the owner views [i1]. *)
Lemma view_normalizes_record_witness :
  truthy Example.owner = true /\
  InstanceView.validateInstanceId "i1" = true /\
  db Example.healthy !! ("i1" +:+ "_instance") = Some (JObj Example.fields1) /\
  (AuthHelper.isUserAuthorizedForContainer (getf Example.owner "userId")
     (getf (JObj Example.fields1) "Id") Example.healthy).1 = Ok true /\
  exists o' : gmap string jsval,
    db (InstanceView.view Example.owner "i1" Example.healthy).2 !! ("i1" +:+ "_instance")
      = Some (JObj o') /\
    o' !! "suspended" = Some (JBool false) /\
    o' !! "State" = Some (JStr "UNKNOWN").
Proof.
  assert (H1 : truthy Example.owner = true) by reflexivity.
  assert (H2 : InstanceView.validateInstanceId "i1" = true) by reflexivity.
  assert (H3 : db Example.healthy !! ("i1" +:+ "_instance") = Some (JObj Example.fields1))
    by (vm_compute; reflexivity).
  assert (H4 : (AuthHelper.isUserAuthorizedForContainer (getf Example.owner "userId")
     (getf (JObj Example.fields1) "Id") Example.healthy).1 = Ok true)
    by (vm_compute; reflexivity).
  split; [exact H1|]. split; [exact H2|]. split; [exact H3|]. split; [exact H4|].
  destruct (view_normalizes_record Example.healthy Example.owner "i1" Example.fields1
              H1 H2 H3 H4) as (o' & Hdb & _ & _ & Hs & _ & Hst & _ & _).
  exists o'. split; [exact Hdb|]. split.
  - apply Hs. intros b. vm_compute. discriminate.
  - apply Hst. vm_compute. reflexivity.
Defined.

(** * Further properties of the handlers *)

(** ** utils/authHelper *)

Lemma find_inv f x l u :
  Arr.find (Arr.field_is f x) l = Ok u -> truthy u = true ->
  u ∈ l /\ strict_eq (getf u f) x = true.
Proof.
  induction l as [|e l IH]; simpl; [by intros [= <-]|].
  unfold Arr.field_is at 1, prop. destruct (nullish e); simpl; [done|].
  destruct (strict_eq (getf e f) x) eqn:He.
  - intros [= <-] _. split; [apply list_elem_of_here|done].
  - intros H Ht. destruct (IH H Ht). split; [by apply list_elem_of_further|done].
Qed.

(** X1.  [isUserAuthorizedForContainer] fails closed: whatever the store
    holds it neither throws nor writes, and it answers [true] only for a
    user id and a container id that are both truthy, and only when the
    users list holds a record with that user id. *)
Theorem authorization_fails_closed (userId containerId : jsval) (w : world) :
  exists b : bool,
    AuthHelper.isUserAuthorizedForContainer userId containerId w = (Ok b, w) /\
    (b = true ->
     truthy userId = true /\ truthy containerId = true /\
     exists l u, db w !! "users" = Some (JArr l) /\ u ∈ l /\
                 strict_eq (getf u "userId") userId = true).
Proof.
  destruct (auth_total userId containerId w) as [b Hb]. exists b.
  split; [done|]. intros ->. revert Hb.
  unfold AuthHelper.isUserAuthorizedForContainer.
  destruct (truthy userId), (truthy containerId); simpl; try done.
  unfold try_catch, bind, Db.get, lift, ret. simpl.
  destruct (db w !! "users") as [[| | | | |l|]|] eqn:Hus; simpl; try done.
  destruct (Arr.find _ l) as [u|] eqn:Hf; simpl; [|done].
  destruct (truthy u) eqn:Hu; simpl; [|done].
  intros _. destruct (find_inv _ _ _ _ Hf Hu). repeat split; eauto.
Qed.

Lemma some_no_hole f x l :
  no_hole l ->
  Arr.some (Arr.field_is f x) l = Ok (existsb (fun e => strict_eq (getf e f) x) l).
Proof.
  induction 1 as [|e l Hn _ IH]; simpl; [done|].
  unfold Arr.field_is at 1, prop. rewrite Hn. simpl.
  destruct (strict_eq (getf e f) x); [done|exact IH].
Qed.

(** X2.  A user who is not an administrator is authorised by the lists
    alone: when [accessTo] is an array (or absent) and the user's own
    instance list is an array of records, the answer is [true] exactly when
    the container id is in [accessTo] or is the Id of an entry of the own
    list. *)
Theorem regular_user_is_authorized_by_lists
    (w : world) (userId containerId u : jsval) (pre post acc mine : list jsval) :
  truthy userId = true ->
  truthy containerId = true ->
  db w !! "users" = Some (JArr (pre ++ u :: post)) ->
  Forall (fun e => nullish e = false /\ strict_eq (getf e "userId") userId = false) pre ->
  strict_eq (getf u "userId") userId = true ->
  truthy (getf u "admin") = false ->
  or_else (getf u "accessTo") (JArr []) = JArr acc ->
  db w !! (to_str userId +:+ "_instances") = Some (JArr mine) ->
  no_hole mine ->
  AuthHelper.isUserAuthorizedForContainer userId containerId w =
    (Ok (existsb (strict_eq containerId) acc
         || existsb (fun e => strict_eq (getf e "Id") containerId) mine), w).
Proof.
  intros Hu Hc Hdb Hpre Hm Hadm Hacc Hmine Hh.
  pose proof (strict_eq_truthy_not_nullish _ _ _ Hu Hm) as Hn.
  unfold AuthHelper.isUserAuthorizedForContainer.
  rewrite Hu, Hc. simpl.
  unfold try_catch, bind, Db.get, lift, ret. simpl. rewrite Hdb, Hmine. simpl.
  rewrite (find_first_match _ _ _ _ _ Hpre Hn Hm).
  assert (truthy u = true) as ->
    by (destruct u; try done; simpl in Hm; by destruct userId).
  simpl. rewrite Hadm, Hacc. simpl.
  by rewrite (some_no_hole _ _ _ Hh).
Qed.

(** X3.  The own list is read without a default: a user who is not an
    administrator and has no instance list under [<userId>_instances] is
    refused, whatever [accessTo] holds. *)
Theorem user_without_a_list_is_refused
    (w : world) (userId containerId u : jsval) (pre post : list jsval) :
  truthy userId = true ->
  truthy containerId = true ->
  db w !! "users" = Some (JArr (pre ++ u :: post)) ->
  Forall (fun e => nullish e = false /\ strict_eq (getf e "userId") userId = false) pre ->
  strict_eq (getf u "userId") userId = true ->
  truthy (getf u "admin") = false ->
  db w !! (to_str userId +:+ "_instances") = None ->
  AuthHelper.isUserAuthorizedForContainer userId containerId w = (Ok false, w).
Proof.
  intros Hu Hc Hdb Hpre Hm Hadm Hmine.
  pose proof (strict_eq_truthy_not_nullish _ _ _ Hu Hm) as Hn.
  unfold AuthHelper.isUserAuthorizedForContainer.
  rewrite Hu, Hc. simpl.
  unfold try_catch, bind, Db.get, lift, ret. simpl. rewrite Hdb, Hmine. simpl.
  rewrite (find_first_match _ _ _ _ _ Hpre Hn Hm).
  assert (truthy u = true) as ->
    by (destruct u; try done; simpl in Hm; by destruct userId).
  simpl. rewrite Hadm.
  by destruct (AuthHelper.includes _ _).
Qed.

(** X4.  [isInstanceSuspended] never throws and sends nothing.  It answers
    [true] exactly when the id is truthy and the record under
    [<id>_instance] has [suspended === true]; it writes no other key; and
    for a truthy id it leaves under the key a record with the flag set:
    a fresh one when nothing was stored, the stored object with
    [suspended: false] added when the flag was missing. *)
Theorem isInstanceSuspended_spec (instanceId : jsval) (w : world) :
  let key := to_str instanceId +:+ "_instance" in
  let out := AuthHelper.isInstanceSuspended instanceId w in
  out.1 = Ok (truthy instanceId
              && strict_eq (getf (rec_at w key) "suspended") (JBool true)) /\
  sent out.2 = sent w /\
  (forall k, k ≠ key -> db out.2 !! k = db w !! k) /\
  (truthy instanceId = false -> out.2 = w) /\
  (truthy instanceId = true ->
   (truthy (rec_at w key) = false ->
    exists t1 t2, rec_at out.2 key =
      obj [("suspended", JBool false); ("createdAt", t1); ("lastUpdated", t2)]) /\
   (is_obj (rec_at w key) ->
    getf (rec_at out.2 key) "suspended" =
      (if strict_eq (getf (rec_at w key) "suspended") JUndef then JBool false
       else getf (rec_at w key) "suspended") /\
    forall f, f ≠ "suspended" -> f ≠ "lastUpdated" ->
              getf (rec_at out.2 key) f = getf (rec_at w key) f)).
Proof.
  intros key out. subst out. unfold AuthHelper.isInstanceSuspended.
  destruct (truthy instanceId) eqn:Hid; simpl; [|by repeat split].
  unfold try_catch, bind, Db.get, Db.set, now, ret. simpl. fold key.
  unfold rec_at.
  destruct (db w !! key) as [r|] eqn:Hr; simpl;
    [destruct (truthy r) eqn:Ht; simpl;
     [destruct (String.eqb (typeof (getf r "suspended")) "undefined") eqn:Hty; simpl|]|].
  all: split; [|split; [|split; [|split; [done|intros _; split]]]].
  all: rewrite ?lookup_insert_eq, ?Hr; simpl; try done.
  all: try (intros k Hk; by rewrite lookup_insert_ne).
  all: try (by destruct r).
  all: try (by intros _; eauto).
  - assert (Hs : getf r "suspended" = JUndef) by (by destruct (getf r "suspended")).
    rewrite Hs. destruct r; try done. simpl.
    rewrite lookup_insert_ne by done. by rewrite lookup_insert_eq.
  - intros Ho.
    assert (Hs : getf r "suspended" = JUndef) by (by destruct (getf r "suspended")).
    rewrite Hs. simpl. split.
    + rewrite getf_setf_ne by done. by apply getf_setf_eq.
    + intros f Hf1 Hf2. by rewrite !getf_setf_ne.
  - intros Ho. split; [|done]. by destruct (getf r "suspended").
Qed.

(** X2, witness: the helper, with an empty list of their own, reaches [i1]
    through [accessTo]. *)
Lemma regular_user_is_authorized_by_lists_witness :
  db Sample.shared_with_list !! "users" =
    Some (JArr ([Example.owner; Example.admin] ++ Sample.helper :: [])) /\
  AuthHelper.isUserAuthorizedForContainer (JStr "u2") (JStr "i1")
    Sample.shared_with_list = (Ok true, Sample.shared_with_list).
Proof.
  split; [vm_compute; reflexivity|].
  apply (regular_user_is_authorized_by_lists Sample.shared_with_list
           (JStr "u2") (JStr "i1") Sample.helper [Example.owner; Example.admin] []
           [JStr "i1"] []).
  - reflexivity.
  - reflexivity.
  - vm_compute; reflexivity.
  - repeat constructor.
  - vm_compute; reflexivity.
  - vm_compute; reflexivity.
  - vm_compute; reflexivity.
  - vm_compute; reflexivity.
  - constructor.
Defined.

(** X3, witness: the same helper without a list is refused [i1], which
    [accessTo] names. *)
Lemma user_without_a_list_is_refused_witness :
  getf Sample.helper "accessTo" = JArr [JStr "i1"] /\
  db Sample.shared !! "u2_instances" = None /\
  AuthHelper.isUserAuthorizedForContainer (JStr "u2") (JStr "i1") Sample.shared
    = (Ok false, Sample.shared).
Proof.
  split; [vm_compute; reflexivity|]. split; [vm_compute; reflexivity|].
  apply (user_without_a_list_is_refused Sample.shared (JStr "u2") (JStr "i1")
           Sample.helper [Example.owner; Example.admin] []).
  - reflexivity.
  - reflexivity.
  - vm_compute; reflexivity.
  - repeat constructor.
  - vm_compute; reflexivity.
  - vm_compute; reflexivity.
  - vm_compute; reflexivity.
Defined.

(** ** Port mappings of the redeploy and reinstall requests *)

Lemma add_port_dom maps p :
  dom maps.1 = dom maps.2 ->
  dom (Deploy.add_port maps p).1 = dom (Deploy.add_port maps p).2.
Proof.
  intros H. unfold Deploy.add_port.
  destruct (negb _ && negb _); [|done]. simpl. by rewrite !dom_insert_L, H.
Qed.

Lemma add_port_bound (P : string -> jsval -> Prop) maps p :
  (forall c h, c ≠ "" -> h ≠ "" ->
     Str.split ":" p !! 0%nat = Some c -> Str.split ":" p !! 1%nat = Some h ->
     P (c +:+ "/tcp") (JArr [obj [("HostPort", JStr h)]])) ->
  map_Forall P maps.2 -> map_Forall P (Deploy.add_port maps p).2.
Proof.
  intros Hp H. unfold Deploy.add_port.
  destruct (Str.split ":" p !! 0%nat) as [c|] eqn:Hc; simpl; [|done].
  destruct (Str.split ":" p !! 1%nat) as [h|] eqn:Hh; simpl;
    [|by rewrite ?andb_false_r].
  destruct (String.eqb_spec c ""); simpl; [done|].
  destruct (String.eqb_spec h ""); simpl; [done|].
  apply map_Forall_insert_2; [|done]. by apply Hp.
Qed.

Lemma port_maps_spec mappings :
  dom (Deploy.port_maps mappings).1 = dom (Deploy.port_maps mappings).2 /\
  map_Forall
    (fun k v => exists p c h,
       p ∈ mappings /\ c ≠ "" /\ h ≠ "" /\
       Str.split ":" p !! 0%nat = Some c /\ Str.split ":" p !! 1%nat = Some h /\
       k = c +:+ "/tcp" /\ v = JArr [obj [("HostPort", JStr h)]])
    (Deploy.port_maps mappings).2.
Proof.
  unfold Deploy.port_maps.
  assert (G : forall maps done_,
             dom maps.1 = dom maps.2 ->
             map_Forall
               (fun k v => exists p c h,
                  p ∈ done_ ++ mappings /\ c ≠ "" /\ h ≠ "" /\
                  Str.split ":" p !! 0%nat = Some c /\
                  Str.split ":" p !! 1%nat = Some h /\
                  k = c +:+ "/tcp" /\ v = JArr [obj [("HostPort", JStr h)]])
               maps.2 ->
             dom (foldl Deploy.add_port maps mappings).1 =
               dom (foldl Deploy.add_port maps mappings).2 /\
             map_Forall
               (fun k v => exists p c h,
                  p ∈ done_ ++ mappings /\ c ≠ "" /\ h ≠ "" /\
                  Str.split ":" p !! 0%nat = Some c /\
                  Str.split ":" p !! 1%nat = Some h /\
                  k = c +:+ "/tcp" /\ v = JArr [obj [("HostPort", JStr h)]])
               (foldl Deploy.add_port maps mappings).2).
  { induction mappings as [|p l IH]; intros maps done_ Hd Hm; simpl; [done|].
    replace (done_ ++ p :: l) with ((done_ ++ [p]) ++ l) in *
      by (by rewrite <- app_assoc).
    apply IH; [by apply add_port_dom|].
    apply add_port_bound; [|done].
    intros c h Hc Hh H0 H1. exists p, c, h. repeat split; try done.
    apply elem_of_app. left. apply elem_of_app. right. apply list_elem_of_here. }
  apply (G (∅, ∅) []); [done|]. apply map_Forall_empty.
Qed.

(** X5.  The redeploy request of the image change binds every port it
    exposes: [ExposedPorts] and [PortBindings] have the same keys, and every
    binding is one host port under a key [<containerPort>/tcp], taken from a
    mapping [containerPort:hostPort] of the instance's [Ports] text in which
    both parts are present.  Preparing the request writes nothing. *)
Theorem redeploy_request_binds_every_exposed_port
    (image memory cpu disk ports name node : jsval) (id : string)
    (containerId Env : jsval) (w w' : world) (rq : request) :
  Startup.prepareRequestData image memory cpu disk ports name node id
    containerId Env w = (Ok rq, w') ->
  w' = w /\
  exists exposed bindings : gmap string jsval,
    getf (data rq) "ExposedPorts" = JObj exposed /\
    getf (data rq) "PortBindings" = JObj bindings /\
    dom exposed = dom bindings /\
    map_Forall
      (fun k v => exists s p c h,
         ports = JStr s /\ p ∈ Str.split "," s /\ c ≠ "" /\ h ≠ "" /\
         Str.split ":" p !! 0%nat = Some c /\ Str.split ":" p !! 1%nat = Some h /\
         k = c +:+ "/tcp" /\ v = JArr [obj [("HostPort", JStr h)]])
      bindings.
Proof.
  unfold Startup.prepareRequestData, Deploy.find_image, bind, Db.get, lift, ret, throw.
  simpl. destruct (rbind (Arr.as_array _) _) as [imageData|]; simpl; [|done].
  destruct (truthy ports) eqn:Hp; simpl.
  - destruct ports as [| | | |s| |]; simpl; try done.
    intros [= <- <-]. split; [done|]. simpl.
    destruct (port_maps_spec (Str.split "," s)) as [Hd Hm].
    eexists _, _. split; [reflexivity|]. split; [reflexivity|]. split; [done|].
    eapply map_Forall_impl; [exact Hm|].
    intros k v (p & c & h & ? & ? & ? & ? & ? & ? & ?). by exists s, p, c, h.
  - intros [= <- <-]. split; [done|]. simpl.
    eexists ∅, ∅. split; [reflexivity|]. split; [reflexivity|]. split; [done|].
    apply map_Forall_empty.
Qed.

(** X5, witness: the request for an instance with two port mappings. *)
Lemma redeploy_request_binds_every_exposed_port_witness :
  exists rq,
    Startup.prepareRequestData (JStr "img") (JNum 512) (JNum 100) JUndef
      (JStr "25565:25565,8080:80") (JStr "srv") Example.node1 "i1" (JStr "c1")
      (JArr []) Example.healthy = (Ok rq, Example.healthy) /\
    exists exposed bindings : gmap string jsval,
      getf (data rq) "ExposedPorts" = JObj exposed /\
      getf (data rq) "PortBindings" = JObj bindings /\
      dom exposed = dom bindings /\
      bindings !! "8080/tcp" = Some (JArr [obj [("HostPort", JStr "80")]]).
Proof.
  eexists. split; [vm_compute; reflexivity|].
  edestruct (redeploy_request_binds_every_exposed_port (JStr "img") (JNum 512)
               (JNum 100) JUndef (JStr "25565:25565,8080:80") (JStr "srv")
               Example.node1 "i1" (JStr "c1") (JArr []) Example.healthy)
    as (_ & exposed & bindings & He & Hb & Hd & _); [vm_compute; reflexivity|].
  exists exposed, bindings. repeat split; try done.
  vm_compute in Hb. injection Hb as <-. vm_compute. reflexivity.
Defined.

(** ** The env-variable change *)

Lemma before_append v x :
  Str.includes v "=" = false -> Str.before "=" (v +:+ "=" +:+ x) = v.
Proof.
  induction v as [|c v IH]; [done|]. intros H.
  change (Str.includes (String c v) "=")
    with (Ascii.eqb "=" c && true || Str.includes v "=") in H.
  change (Str.before "=" (String c v +:+ "=" +:+ x))
    with (if Ascii.eqb c "=" then EmptyString
          else String c (Str.before "=" (v +:+ "=" +:+ x))).
  rewrite Ascii.eqb_sym in H. destruct (Ascii.eqb c "="); [done|].
  simpl in H. by rewrite IH.
Qed.

(** What the callback of [instance.Env.map] computes on an Env of strings. *)
Lemma map_env_strings v value (env : list string) :
  let new := v +:+ "=" +:+ to_str (or_else value (JStr "")) in
  Startup.map_env (JStr v) value (JStr <$> env) =
    Ok (JStr <$> List.map (fun e => if String.eqb (Str.before "=" e) v then new else e) env,
        existsb (fun e => String.eqb (Str.before "=" e) v) env).
Proof.
  intros new. induction env as [|e env IH]; [done|].
  rewrite fmap_cons. cbn [Startup.map_env]. rewrite IH.
  unfold Startup.set_variable. cbn [strict_eq].
  simpl. destruct (String.eqb (Str.before "=" e) v) eqn:Hk.
  - apply String.eqb_eq in Hk. rewrite bool_decide_eq_true_2 by done.
    by rewrite Hk.
  - apply String.eqb_neq in Hk. by rewrite bool_decide_eq_false_2.
Qed.

Lemma map_env_inv variable value l r :
  Startup.map_env variable value l = Ok r ->
  exists env : list string, l = JStr <$> env.
Proof.
  revert r. induction l as [|x l IH]; intros r; [by exists []|].
  cbn [Startup.map_env]. destruct x as [| | | |s| |]; try done.
  unfold Startup.set_variable.
  destruct (strict_eq (JStr (Str.before "=" s)) variable); cbn [rbind];
    (destruct (Startup.map_env variable value l) as [r'|]; cbn [rbind]; [|done]);
    destruct (IH r' eq_refl) as [env ->]; intros _; by exists (s :: env).
Qed.

Lemma updated_env_strings v value (env : list string) :
  let new := v +:+ "=" +:+ to_str (or_else value (JStr "")) in
  exists env' : list string,
    Startup.updated_env (JStr v) value (JArr (JStr <$> env)) = Ok (JArr (JStr <$> env')) /\
    new ∈ env' /\
    (forall e, e ∈ env -> Str.before "=" e ≠ v -> e ∈ env') /\
    (forall e, e ∈ env' -> e = new \/ (e ∈ env /\ Str.before "=" e ≠ v)) /\
    (Str.includes v "=" = false ->
     Startup.updated_env (JStr v) value (JArr (JStr <$> env')) = Ok (JArr (JStr <$> env'))).
Proof.
  intros new. unfold Startup.updated_env. simpl.
  rewrite map_env_strings. simpl. fold new.
  set (f := fun e => if String.eqb (Str.before "=" e) v then new else e).
  set (hit := fun e => String.eqb (Str.before "=" e) v).
  assert (Hin : forall e, e ∈ List.map f env ->
                  e = new /\ existsb hit env = true \/
                  (e ∈ env /\ Str.before "=" e ≠ v)).
  { intros e He. apply list_elem_of_In, in_map_iff in He as (a & <- & Ha).
    apply list_elem_of_In in Ha. unfold f.
    destruct (String.eqb_spec (Str.before "=" a) v) as [Hk|Hk].
    - left. split; [done|]. apply existsb_exists. exists a.
      split; [by apply list_elem_of_In|]. unfold hit. by apply String.eqb_eq.
    - by right. }
  assert (Hkeep : forall e, e ∈ env -> Str.before "=" e ≠ v -> e ∈ List.map f env).
  { intros e He Hk. apply list_elem_of_In, in_map_iff. exists e.
    split; [|by apply list_elem_of_In]. unfold f.
    by destruct (String.eqb_spec (Str.before "=" e) v). }
  assert (Hnew : existsb hit env = true -> new ∈ List.map f env).
  { intros H. apply existsb_exists in H as (a & Ha & Hk).
    apply list_elem_of_In, in_map_iff. exists a. split; [|done].
    unfold f. unfold hit in Hk. by rewrite Hk. }
  assert (Hkey : Str.includes v "=" = false -> f new = new).
  { intros Hv. unfold f, new. by rewrite before_append, String.eqb_refl. }
  assert (Hff : Str.includes v "=" = false -> forall l, List.map f (List.map f l) = List.map f l).
  { intros Hv l. rewrite List.map_map. apply List.map_ext. intros a.
    destruct (String.eqb (Str.before "=" a) v) eqn:Hk.
    - assert (f a = new) as -> by (unfold f; by rewrite Hk). by apply Hkey.
    - assert (f a = a) as Ha by (unfold f; by rewrite Hk). by rewrite !Ha. }
  assert (Hhit : Str.includes v "=" = false -> hit new = true).
  { intros Hv. unfold hit, new. by rewrite before_append, String.eqb_refl. }
  assert (Hmiss : existsb hit env = false -> List.map f env = env).
  { intros H. rewrite <- (List.map_id env) at 2. apply List.map_ext_in.
    intros a Ha. unfold f.
    destruct (String.eqb_spec (Str.before "=" a) v) as [Hk|Hk]; [|done].
    assert (existsb hit env = true); [|congruence].
    apply existsb_exists. exists a. split; [done|]. unfold hit. by apply String.eqb_eq. }
  destruct (existsb hit env) eqn:Hex.
  - exists (List.map f env). split; [done|]. split; [by apply Hnew|].
    split; [done|]. split.
    + intros e He. destruct (Hin e He) as [[-> _]|H]; [by left|by right].
    + intros Hv. rewrite map_env_strings. simpl. fold new. fold f. fold hit.
      rewrite (Hff Hv).
      assert (existsb hit (List.map f env) = true) as ->; [|done].
      apply existsb_exists. exists new. split; [|by apply Hhit].
      apply list_elem_of_In. by apply Hnew.
  - exists (List.map f env ++ [new]).
    split; [by rewrite fmap_app|].
    split; [apply elem_of_app; right; apply list_elem_of_here|].
    split; [intros e He Hk; apply elem_of_app; left; by apply Hkeep|].
    split.
    + intros e He. apply elem_of_app in He as [He|He].
      * destruct (Hin e He) as [[-> _]|H]; [by left|by right].
      * apply list_elem_of_singleton in He. by left.
    + intros Hv. rewrite map_env_strings. simpl. fold new. fold f. fold hit.
      rewrite List.map_app, (Hff Hv). simpl. rewrite (Hkey Hv).
      rewrite existsb_app. simpl. rewrite (Hhit Hv), orb_true_r. done.
Qed.

Lemma init_suspended_obj key (o : gmap string jsval) w :
  exists o' w1,
    Startup.init_suspended key (JObj o) w = (Ok (JObj o'), w1) /\
    getf (JObj o') "suspended" ≠ JUndef /\
    (forall f, f ≠ "suspended" -> o' !! f = o !! f) /\
    (getf (JObj o) "suspended" ≠ JUndef -> o' = o /\ w1 = w) /\
    sent w1 = sent w /\
    (forall k, k ≠ key -> db w1 !! k = db w !! k) /\
    (forall v, with_db (insert key v) w1 = with_db (insert key v) w).
Proof.
  unfold Startup.init_suspended. simpl.
  destruct (o !! "suspended") as [s|] eqn:Hs; simpl.
  - destruct (String.eqb (typeof s) "undefined") eqn:Hty.
    + assert (s = JUndef) as -> by (by destruct s).
      eexists _, _. split; [reflexivity|]. simpl. rewrite lookup_insert_eq. simpl.
      repeat split; try done.
      * intros f Hf. by rewrite lookup_insert_ne.
      * intros k Hk. by rewrite lookup_insert_ne.
      * intros v. unfold with_db. simpl. by rewrite insert_insert_eq.
    + eexists _, _. split; [reflexivity|]. simpl. rewrite Hs. simpl.
      repeat split; try done. intros ->. done.
  - eexists _, _. split; [reflexivity|]. simpl. rewrite lookup_insert_eq. simpl.
    repeat split; try done.
    + intros f Hf. by rewrite lookup_insert_ne.
    + intros k Hk. by rewrite lookup_insert_ne.
    + intros v. unfold with_db. simpl. by rewrite insert_insert_eq.
Qed.

(** The env-variable change past its checks. *)
Lemma change_variable_run user id variable value w o o' w1 env0 lu lg :
  truthy user = true -> id ≠ "" -> truthy variable = true ->
  db w !! instance_key id = Some (JObj o) ->
  AuthHelper.isUserAuthorizedForContainer (getf user "userId") (getf (JObj o) "Id") w
    = (Ok true, w) ->
  Startup.init_suspended (instance_key id) (JObj o) w = (Ok (JObj o'), w1) ->
  (forall v, with_db (insert (instance_key id) v) w1 = with_db (insert (instance_key id) v) w) ->
  strict_eq (getf (JObj o') "suspended") (JBool true) = false ->
  Startup.updated_env variable value (getf (JObj o') "Env") = Ok env0 ->
  let record := JObj (<["Env" := env0]> o') in
  list_at w (owner_key record) = JArr lu -> list_at w "instances" = JArr lg ->
  no_hole lu -> no_hole lg ->
  Startup.change_variable user id variable value w =
    (Json 200 (obj [("success", JBool true)]),
     with_db
       (fun m => <["instances" := JArr (without "Id" (getf record "Id") lg ++ [record])]>
                 (<[owner_key record :=
                      JArr (without "Id" (getf record "Id") lu ++ [record])]>
                    (<[instance_key id := record]> m))) w).
Proof.
  intros Hu Hid Hv Hdb Hauth Hinit Hw1 Hs Henv record Hlu Hlg Hhu Hhg.
  unfold Startup.change_variable. rewrite Hu, Hv. simpl.
  destruct (String.eqb_spec id ""); [done|]. simpl.
  unfold route, bind at 1, Db.get. fold (instance_key id). rewrite Hdb.
  change (default JUndef (Some (JObj o))) with (JObj o).
  cbn [truthy negb]. unfold bind at 1. rewrite Hauth.
  cbn [negb]. unfold bind at 1. rewrite Hinit. rewrite Hs.
  unfold bind at 1, lift, prop. cbn [nullish]. cbn [rbind]. rewrite Henv.
  unfold bind at 1, Db.set. unfold spread_set. cbn [own_props]. fold record.
  rewrite Hw1.
  unfold bind at 1.
  rewrite (update_arrays_ok record _ lu lg); try done.
  - rewrite <- Hlu. unfold list_at, rec_at, owner_key.
    change (db (with_db ?f ?w0)) with (f (db w0)).
    by rewrite lookup_insert_ne by (apply instance_key_not_list).
  - rewrite <- Hlg. unfold list_at, rec_at.
    change (db (with_db ?f ?w0)) with (f (db w0)).
    by rewrite lookup_insert_ne by (apply instance_key_not_global).
Qed.

Lemma change_variable_success user id variable value w body w' :
  Startup.change_variable user id variable value w = (Json 200 body, w') ->
  truthy user = true /\ id ≠ "" /\ truthy variable = true /\
  exists o o' w1 env0 lu lg,
    db w !! instance_key id = Some (JObj o) /\
    AuthHelper.isUserAuthorizedForContainer (getf user "userId") (getf (JObj o) "Id") w
      = (Ok true, w) /\
    Startup.init_suspended (instance_key id) (JObj o) w = (Ok (JObj o'), w1) /\
    strict_eq (getf (JObj o') "suspended") (JBool true) = false /\
    Startup.updated_env variable value (getf (JObj o') "Env") = Ok env0 /\
    list_at w (owner_key (JObj (<["Env" := env0]> o'))) = JArr lu /\
    list_at w "instances" = JArr lg /\ no_hole lu /\ no_hole lg.
Proof.
  unfold Startup.change_variable.
  destruct (truthy user) eqn:Hu; simpl; [|done].
  destruct (String.eqb_spec id ""); simpl; [done|].
  destruct (truthy variable) eqn:Hv; simpl; [|done].
  unfold route, bind at 1, Db.get. fold (instance_key id).
  destruct (db w !! instance_key id) as [inst|] eqn:Hdb; simpl; [|done].
  destruct (truthy inst) eqn:Ht; simpl; [|done].
  unfold bind at 1.
  destruct (auth_total (getf user "userId") (getf inst "Id") w) as [b Hb].
  rewrite Hb. destruct b; simpl; [|done].
  destruct (authorized_is_record _ _ _ _ Hb) as [o ->].
  destruct (init_suspended_obj (instance_key id) o w)
    as (o' & w1 & Hinit & _ & _ & _ & _ & Hk & Hw1).
  unfold bind at 1. rewrite Hinit.
  destruct (strict_eq (getf (JObj o') "suspended") (JBool true)) eqn:Hs; [done|].
  unfold bind at 1, lift, prop. cbn [nullish rbind].
  destruct (Startup.updated_env variable value (getf (JObj o') "Env")) as [env0|] eqn:He;
    [|done].
  unfold bind at 1, Db.set, spread_set. cbn [own_props]. rewrite Hw1.
  unfold bind at 1.
  destruct (Startup.updateInstanceInUserAndGlobalArrays _ _) as [[[]|] w3] eqn:Hup; [|done].
  intros _. apply update_arrays_inv in Hup as (lu & lg & Hlu & Hlg & Hhu & Hhg & _).
  repeat split; try done.
  exists o, o', w1, env0, lu, lg. repeat split; try done.
  - rewrite <- Hlu. unfold list_at, rec_at, owner_key.
    change (db (with_db ?f ?w0)) with (f (db w0)).
    by rewrite lookup_insert_ne by (apply instance_key_not_list).
  - rewrite <- Hlg. unfold list_at, rec_at.
    change (db (with_db ?f ?w0)) with (f (db w0)).
    by rewrite lookup_insert_ne by (apply instance_key_not_global).
Qed.

Lemma users_key_not_instance (a : string) : "users" ≠ a +:+ "_instance".
Proof.
  intros H. apply (f_equal Str.last) in H.
  rewrite last_append in H by done. discriminate.
Qed.

Lemma users_key_not_list (b : string) : "users" ≠ b +:+ "_instances".
Proof.
  intros H. apply (f_equal String.length) in H.
  rewrite length_append in H. simpl in H. lia.
Qed.

Lemma no_hole_without f x l : no_hole l -> no_hole (without f x l).
Proof.
  unfold no_hole, without. rewrite !Forall_forall. intros H e He.
  apply list_elem_of_In, filter_In in He as [He _]. apply H. by apply list_elem_of_In.
Qed.

Lemma without_again f x l record :
  strict_eq (getf record f) x = true ->
  without f x (without f x l ++ [record]) = without f x l.
Proof.
  intros Hx. unfold without. rewrite List.filter_app. simpl. rewrite Hx. simpl.
  rewrite app_nil_r. induction l as [|a l IH]; simpl; [done|].
  destruct (negb (strict_eq (getf a f) x)) eqn:Ha; simpl; [|done].
  by rewrite Ha, IH.
Qed.

Lemma strict_eq_refl_of x c : strict_eq x c = true -> strict_eq c c = true.
Proof.
  destruct x, c; simpl; try done; intros H; apply bool_decide_eq_true in H;
    by apply bool_decide_eq_true.
Qed.

(** An authorisation survives the rewriting of the user's own list by the
    synchroniser, which keeps a record with the Id asked for. *)
Lemma auth_after_update userId c w w1 l record :
  AuthHelper.isUserAuthorizedForContainer userId c w = (Ok true, w) ->
  db w1 !! "users" = db w !! "users" ->
  db w1 !! (to_str userId +:+ "_instances") = db w !! (to_str userId +:+ "_instances") \/
  (list_at w (to_str userId +:+ "_instances") = JArr l /\ no_hole l /\
   db w1 !! (to_str userId +:+ "_instances") = Some (JArr (without "Id" c l ++ [record])) /\
   getf record "Id" = c /\ nullish record = false) ->
  AuthHelper.isUserAuthorizedForContainer userId c w1 = (Ok true, w1).
Proof.
  unfold AuthHelper.isUserAuthorizedForContainer.
  destruct (negb (truthy userId) || negb (truthy c)); [done|].
  unfold try_catch, bind, Db.get, lift, ret. simpl.
  intros H Hus Hl. rewrite Hus.
  destruct (rbind (Arr.as_array _) _) as [u|]; simpl in *; [|done].
  destruct (truthy u); simpl in *; [|done].
  destruct (truthy (getf u "admin")); simpl in *; [done|].
  destruct (AuthHelper.includes _ c) as [b1|]; simpl in *; [|done].
  destruct Hl as [->|(Hl & Hh & -> & Hid & Hn)].
  { destruct (rbind (Arr.as_array _) _) as [b2|]; simpl in *; [|done].
    by injection H as ->. }
  unfold list_at, rec_at in Hl.
  destruct (db w !! (to_str userId +:+ "_instances")) as [[| | | | |l0|]|];
    simpl in *; try done.
  injection Hl as ->.
  rewrite (some_no_hole _ _ _ Hh) in H. simpl in H.
  rewrite some_no_hole.
  2:{ apply Forall_app. split; [by apply no_hole_without|]. by repeat constructor. }
  simpl. f_equal. f_equal. injection H as H.
  rewrite existsb_app. simpl. rewrite Hid, orb_false_r.
  destruct b1; [done|]. simpl in *.
  apply existsb_exists in H as (e & _ & He).
  rewrite (strict_eq_refl_of _ _ He). by rewrite orb_true_r.
Qed.

Lemma updated_env_inv variable value env r :
  Startup.updated_env variable value env = Ok r ->
  exists strings : list string, env = JArr (JStr <$> strings).
Proof.
  unfold Startup.updated_env. destruct env as [| | | | |l|]; simpl; try done.
  destruct (Startup.map_env variable value l) as [r'|] eqn:Hm; simpl; [|done].
  destruct (map_env_inv _ _ _ _ Hm) as [strings ->]. eauto.
Qed.

(** X6.  A successful env-variable change sets the variable and nothing
    else: the stored [Env] holds the entry [variable=value] (an empty value
    when none was given), keeps every entry of another variable, holds no
    entry besides these, and the other fields of the record, [suspended]
    apart, are as they were. *)
Theorem variable_change_sets_the_variable
    (user : jsval) (id v : string) (value : jsval) (w w' : world) (body : jsval) :
  Startup.change_variable user id (JStr v) value w = (Json 200 body, w') ->
  let new := v +:+ "=" +:+ to_str (or_else value (JStr "")) in
  exists env env' : list string,
    getf (rec_at w (instance_key id)) "Env" = JArr (JStr <$> env) /\
    getf (rec_at w' (instance_key id)) "Env" = JArr (JStr <$> env') /\
    new ∈ env' /\
    (forall e, e ∈ env -> Str.before "=" e ≠ v -> e ∈ env') /\
    (forall e, e ∈ env' -> e = new \/ (e ∈ env /\ Str.before "=" e ≠ v)) /\
    (forall f, f ≠ "Env" -> f ≠ "suspended" ->
       getf (rec_at w' (instance_key id)) f = getf (rec_at w (instance_key id)) f).
Proof.
  intros H new.
  pose proof (change_variable_success _ _ _ _ _ _ _ H)
    as (Hu & Hid & Hv & o & o' & w1 & env0 & lu & lg & Hdb & Hauth & Hinit & Hs & He
        & Hlu & Hlg & Hhu & Hhg).
  destruct (init_suspended_obj (instance_key id) o w)
    as (o2 & w2 & Hinit' & _ & Hsame & _ & _ & _ & Hw1).
  rewrite Hinit in Hinit'. injection Hinit' as <- <-.
  rewrite (change_variable_run _ _ _ _ _ _ _ _ _ _ _ Hu Hid Hv Hdb Hauth Hinit Hw1 Hs He
             Hlu Hlg Hhu Hhg) in H.
  injection H as _ <-.
  destruct (updated_env_inv _ _ _ _ He) as [env Henv].
  destruct (updated_env_strings v value env) as (env' & Hrun & H1 & H2 & H3 & _).
  rewrite Henv, Hrun in He. injection He as <-.
  exists env, env'.
  set (record := JObj (<["Env" := JArr (JStr <$> env')]> o')) in *.
  assert (Hrec : forall m : gmap string jsval,
            (<["instances" := JArr (without "Id" (getf record "Id") lg ++ [record])]>
               (<[owner_key record :=
                    JArr (without "Id" (getf record "Id") lu ++ [record])]>
                  (<[instance_key id := record]> m))) !! instance_key id = Some record).
  { intros m.
    rewrite lookup_insert_ne by (apply not_eq_sym, instance_key_not_global).
    unfold owner_key.
    rewrite lookup_insert_ne by (apply not_eq_sym, instance_key_not_list).
    by rewrite lookup_insert_eq. }
  unfold rec_at. change (db (with_db ?f ?w0)) with (f (db w0)). cbv beta.
  rewrite Hrec, Hdb. unfold record.
  simpl in Henv. simpl. rewrite <- Hsame by done.
  split; [exact Henv|]. rewrite lookup_insert_eq. split; [done|].
  repeat split; try done.
  intros f Hf1 Hf2. rewrite lookup_insert_ne by done. by rewrite Hsame.
Qed.

(** X7.  The env-variable change is idempotent: once a change of a variable
    whose name holds no [=] went through for an instance whose Id is a
    string, the same request goes through again and leaves the world as the
    first one left it. *)
Theorem variable_change_is_idempotent
    (user : jsval) (id v : string) (value : jsval) (w w1 : world) (body : jsval)
    (i : string) :
  Startup.change_variable user id (JStr v) value w = (Json 200 body, w1) ->
  Str.includes v "=" = false ->
  getf (rec_at w (instance_key id)) "Id" = JStr i ->
  Startup.change_variable user id (JStr v) value w1 = (Json 200 body, w1).
Proof.
  intros H Hv Hi.
  pose proof (change_variable_success _ _ _ _ _ _ _ H)
    as (Hu & Hid & Hvar & o & o' & w2 & env0 & lu & lg & Hdb & Hauth & Hinit & Hs & He
        & Hlu & Hlg & Hhu & Hhg).
  destruct (init_suspended_obj (instance_key id) o w)
    as (o2 & w3 & Hinit' & Hdef & Hsame & _ & _ & _ & Hw1).
  rewrite Hinit in Hinit'. injection Hinit' as <- <-.
  rewrite (change_variable_run _ _ _ _ _ _ _ _ _ _ _ Hu Hid Hvar Hdb Hauth Hinit Hw1 Hs He
             Hlu Hlg Hhu Hhg) in H.
  injection H as <- <-.
  destruct (updated_env_inv _ _ _ _ He) as [env Henv].
  destruct (updated_env_strings v value env) as (env' & Hrun & _ & _ & _ & Hidem).
  rewrite Henv, Hrun in He. injection He as <-.
  set (record := JObj (<["Env" := JArr (JStr <$> env')]> o')) in *.
  assert (Hrid : getf record "Id" = JStr i).
  { unfold rec_at in Hi. rewrite Hdb in Hi. simpl in *.
    rewrite lookup_insert_ne by done. by rewrite Hsame. }
  set (w1 := with_db _ w).
  assert (Hk : db w1 !! instance_key id = Some record).
  { unfold w1. change (db (with_db ?f ?w0)) with (f (db w0)). cbv beta.
    rewrite lookup_insert_ne by (apply not_eq_sym, instance_key_not_global).
    unfold owner_key.
    rewrite lookup_insert_ne by (apply not_eq_sym, instance_key_not_list).
    by rewrite lookup_insert_eq. }
  assert (Ho : db w1 !! owner_key record =
               Some (JArr (without "Id" (getf record "Id") lu ++ [record]))).
  { unfold w1. change (db (with_db ?f ?w0)) with (f (db w0)). cbv beta.
    unfold owner_key.
    rewrite lookup_insert_ne by (apply not_eq_sym, list_key_not_global).
    by rewrite lookup_insert_eq. }
  assert (Hg : db w1 !! "instances" =
               Some (JArr (without "Id" (getf record "Id") lg ++ [record]))).
  { unfold w1. change (db (with_db ?f ?w0)) with (f (db w0)). cbv beta.
    by rewrite lookup_insert_eq. }
  assert (Hother : forall k, k ≠ instance_key id -> k ≠ owner_key record ->
                     k ≠ "instances" -> db w1 !! k = db w !! k).
  { intros k H1 H2 H3. unfold w1. change (db (with_db ?f ?w0)) with (f (db w0)).
    cbv beta. by rewrite !lookup_insert_ne. }
  assert (Hinit1 : Startup.init_suspended (instance_key id) record w1 = (Ok record, w1)).
  { unfold Startup.init_suspended, record. simpl. rewrite lookup_insert_ne by done.
    simpl in Hdef. destruct (o' !! "suspended") as [[]|]; simpl in *; done. }
  assert (Hrr : JObj (<["Env" := JArr (JStr <$> env')]> (<["Env" := JArr (JStr <$> env')]> o'))
                = record).
  { unfold record. by rewrite insert_insert_eq. }
  rewrite (change_variable_run user id (JStr v) value w1
             (<["Env" := JArr (JStr <$> env')]> o') (<["Env" := JArr (JStr <$> env')]> o') w1
             (JArr (JStr <$> env'))
             (without "Id" (getf record "Id") lu ++ [record])
             (without "Id" (getf record "Id") lg ++ [record])); try done.
  - f_equal. rewrite Hrr, Hrid in *.
    rewrite !without_again by (by rewrite Hrid; apply bool_decide_eq_true).
    destruct w; unfold w1, with_db in *; simpl in *. f_equal.
    rewrite (insert_id _ (instance_key id)) by done.
    rewrite (insert_id _ (owner_key record)) by done.
    by rewrite (insert_id _ "instances").
  - assert (Hc : getf record "Id" = getf (JObj o) "Id").
    { unfold record. simpl. rewrite lookup_insert_ne by done. by rewrite Hsame. }
    change (getf (JObj (<["Env" := JArr (JStr <$> env')]> o')) "Id")
      with (getf record "Id").
    rewrite Hc.
    apply (auth_after_update (getf user "userId") (getf (JObj o) "Id") w w1 lu record
             Hauth).
    + apply Hother; [apply users_key_not_instance|apply users_key_not_list|done].
    + destruct (decide (to_str (getf user "userId") +:+ "_instances" = owner_key record))
        as [E|E].
      * right. rewrite E. split; [done|]. split; [done|].
        split; [by rewrite Ho, Hc|]. done.
      * left. apply Hother; [|done|apply list_key_not_global].
        apply not_eq_sym, instance_key_not_list.
  - simpl. rewrite lookup_insert_ne by done. exact Hs.
  - simpl. rewrite lookup_insert_eq. simpl. by apply Hidem.
  - rewrite Hrr. unfold list_at, rec_at. by rewrite Ho.
  - unfold list_at, rec_at. by rewrite Hg.
  - apply Forall_app. split; [by apply no_hole_without|]. by repeat constructor.
  - apply Forall_app. split; [by apply no_hole_without|]. by repeat constructor.
Qed.

(** X8.  A variable change that is refused leaves no trace: unless the
    answer is the 200 of a change that went through or the 500 of one that
    broke off, the world is as it was -- nothing written, nothing sent. *)
Theorem refused_variable_change_leaves_no_trace
    (user : jsval) (id : string) (variable value : jsval) (w : world) :
  (forall body, (Startup.change_variable user id variable value w).1 ≠ Json 200 body) ->
  (forall body, (Startup.change_variable user id variable value w).1 ≠ Json 500 body) ->
  (Startup.change_variable user id variable value w).2 = w.
Proof.
  destruct (Startup.change_variable user id variable value w) as [r w'] eqn:H.
  simpl. intros H200 H500. revert H. unfold Startup.change_variable.
  destruct (truthy user); simpl; [|by intros [= _ <-]].
  destruct (String.eqb id "" || negb (truthy variable)); simpl; [by intros [= _ <-]|].
  unfold route, bind at 1, Db.get. fold (instance_key id).
  destruct (db w !! instance_key id) as [inst|] eqn:Hdb; simpl; [|by intros [= _ <-]].
  destruct (truthy inst) eqn:Ht; simpl; [|by intros [= _ <-]].
  unfold bind at 1.
  destruct (auth_total (getf user "userId") (getf inst "Id") w) as [b Hb].
  rewrite Hb. destruct b; simpl; [|by intros [= _ <-]].
  destruct (authorized_is_record _ _ _ _ Hb) as [o ->].
  destruct (init_suspended_obj (instance_key id) o w)
    as (o' & w1 & Hinit & _ & _ & Hdef & _ & _ & _).
  unfold bind at 1. rewrite Hinit.
  destruct (strict_eq (getf (JObj o') "suspended") (JBool true)) eqn:Hs.
  - intros [= _ <-].
    assert (getf (JObj o) "suspended" ≠ JUndef) as Hd.
    { intros Hu. revert Hinit Hs. unfold Startup.init_suspended. rewrite Hu. simpl.
      intros [= <- _]. simpl. by rewrite lookup_insert_eq. }
    by destruct (Hdef Hd) as [_ ->].
  - unfold bind at 1, lift.
    destruct (rbind (prop (JObj o') "Env") _) as [env|e]; cbn [fst snd];
      [|intros [= <- _]; exfalso; by eapply H500].
    unfold bind at 1, Db.set. unfold bind at 1.
    destruct (Startup.updateInstanceInUserAndGlobalArrays _ _) as [[[]|e] w3];
      [|intros [= <- _]; exfalso; by eapply H500].
    unfold bind, logAudit, ret. intros [= <- _]. exfalso. by eapply H200.
Qed.


(** X6, witness: the owner sets [A] to [2] on [i1], whose Env was [A=1]. *)
Lemma variable_change_sets_the_variable_witness :
  exists env env' : list string,
    getf (rec_at Example.healthy (instance_key "i1")) "Env" = JArr (JStr <$> env) /\
    getf (rec_at (Startup.change_variable Example.owner "i1" (JStr "A") (JStr "2")
                    Example.healthy).2 (instance_key "i1")) "Env"
      = JArr (JStr <$> env') /\
    "A=2" ∈ env' /\
    (forall e, e ∈ env -> Str.before "=" e ≠ "A" -> e ∈ env') /\
    (forall e, e ∈ env' -> e = "A=2" \/ (e ∈ env /\ Str.before "=" e ≠ "A")) /\
    (forall f, f ≠ "Env" -> f ≠ "suspended" ->
       getf (rec_at (Startup.change_variable Example.owner "i1" (JStr "A") (JStr "2")
                       Example.healthy).2 (instance_key "i1")) f
       = getf (rec_at Example.healthy (instance_key "i1")) f).
Proof.
  apply (variable_change_sets_the_variable Example.owner "i1" "A" (JStr "2")
           Example.healthy _ (obj [("success", JBool true)])).
  vm_compute. reflexivity.
Defined.

(** X7, witness: the same change, made twice. *)
Lemma variable_change_is_idempotent_witness :
  let once := Startup.change_variable Example.owner "i1" (JStr "A") (JStr "2")
                Example.healthy in
  Startup.change_variable Example.owner "i1" (JStr "A") (JStr "2") once.2
    = (Json 200 (obj [("success", JBool true)]), once.2).
Proof.
  apply (variable_change_is_idempotent Example.owner "i1" "A" (JStr "2")
           Example.healthy _ (obj [("success", JBool true)]) "i1").
  - vm_compute. reflexivity.
  - reflexivity.
  - vm_compute. reflexivity.
Defined.

(** X8, witness: a change asked for the suspended instance. *)
Lemma refused_variable_change_leaves_no_trace_witness :
  (Startup.change_variable Example.owner "i1" (JStr "A") (JStr "2")
     Example.with_suspended_instance).1
    = Json 403 (obj [("error", JStr "Instance is suspended")]) /\
  (Startup.change_variable Example.owner "i1" (JStr "A") (JStr "2")
     Example.with_suspended_instance).2 = Example.with_suspended_instance.
Proof.
  split; [vm_compute; reflexivity|].
  apply (refused_variable_change_leaves_no_trace Example.owner "i1" (JStr "A")
           (JStr "2") Example.with_suspended_instance).
  - intros body. vm_compute. discriminate.
  - intros body. vm_compute. discriminate.
Defined.

(** ** The edit handler *)

Lemma send_with_retry_effect rq w :
  validate rq = Below500 ->
  db (Edit.send_with_retry rq w).2 = db w /\
  (sent (Edit.send_with_retry rq w).2 = sent w ++ [rq] \/
   sent (Edit.send_with_retry rq w).2 = sent w ++ [rq; rq]).
Proof.
  intros Hv. rewrite send_with_retry_run by done.
  destruct (NodeClient.retried _); simpl; split; try done.
  - right. by rewrite <- app_assoc.
  - by left.
Qed.

Lemma update_db_effect id inst I M C ncid w :
  sent (Edit.updateInstanceInDatabase id inst I M C ncid w).2 = sent w /\
  match (Edit.updateInstanceInDatabase id inst I M C ncid w).1 with
  | Ok _ => True
  | Throw _ => db (Edit.updateInstanceInDatabase id inst I M C ncid w).2 = db w
  end.
Proof.
  rewrite (update_db_run id inst I M C ncid w _ eq_refl).
  destruct (Edit.merged_list _ id _) as [ru|]; [|done].
  destruct (Edit.merged_list _ id _) as [rg|]; done.
Qed.

(** X9.  The edit handler is all or nothing on the store, and it sends the
    node at most two requests: either the answer is a 200, or the store is
    exactly as it was. *)
Theorem edit_is_all_or_nothing (user : jsval) (id : string) (b : Edit.body) (w : world) :
  ((exists body, (Edit.edit user id b w).1 = Json 200 body) \/
   db (Edit.edit user id b w).2 = db w) /\
  (length (sent (Edit.edit user id b w).2) <= length (sent w) + 2)%nat.
Proof.
  destruct (Edit.is_admin user) eqn:Ha.
  2:{ unfold Edit.edit. rewrite Ha. simpl. split; [by right|lia]. }
  destruct (Edit.rejected user id b) as [answer|] eqn:Hr.
  { unfold Edit.edit. rewrite Ha, Hr. simpl. split; [by right|lia]. }
  destruct (db w !! instance_key id) as [inst|] eqn:Hdb.
  2:{ unfold Edit.edit. rewrite Ha, Hr. simpl. unfold route, bind, Db.get.
      fold (instance_key id). rewrite Hdb. simpl. split; [by right|lia]. }
  destruct (truthy inst) eqn:Ht.
  2:{ unfold Edit.edit. rewrite Ha, Hr. simpl. unfold route, bind, Db.get.
      fold (instance_key id). rewrite Hdb. simpl. rewrite Ht. simpl.
      split; [by right|lia]. }
  destruct (Edit.bad_node inst) eqn:Hn.
  { unfold Edit.edit. rewrite Ha, Hr. simpl. unfold route, bind, Db.get.
    fold (instance_key id). rewrite Hdb. simpl. rewrite Ht, Hn. simpl.
    split; [by right|lia]. }
  rewrite (edit_run _ _ _ _ _ Ha Hr Hdb Ht Hn).
  set (rq := Edit.prepareEditRequestData _ _ _ _).
  destruct (send_with_retry_effect rq w eq_refl) as [Hd Hs].
  assert (Hlen : (length (sent (Edit.send_with_retry rq w).2) <= length (sent w) + 2)%nat).
  { destruct Hs as [-> | ->]; rewrite length_app; simpl; lia. }
  destruct (Edit.send_with_retry rq w) as [[resp|e] w1]; simpl in *.
  2:{ split; [by right|done]. }
  destruct (negb (truthy (r_data resp)) || _); simpl.
  { split; [by right|done]. }
  destruct (update_db_effect id inst (Edit.Image b) (Edit.num (Edit.Memory b))
              (Edit.num (Edit.Cpu b)) (getf (r_data resp) "newContainerId") w1)
    as [Hs2 Hd2].
  destruct (Edit.updateInstanceInDatabase _ _ _ _ _ _ w1) as [[upd|e] w2]; simpl in *.
  - split; [left; eauto|]. by rewrite Hs2.
  - split; [right; congruence|]. by rewrite Hs2.
Qed.

(** ** Reinstall *)

Lemma find_image_reads image w : (Deploy.find_image image w).2 = w.
Proof.
  unfold Deploy.find_image, bind, Db.get, lift. by simpl.
Qed.

Lemma reinstall_prepare_reads image memory cpu disk ports name node id cid Env w :
  (Reinstall.prepareRequestData image memory cpu disk ports name node id cid Env w).2 = w /\
  forall rq,
    (Reinstall.prepareRequestData image memory cpu disk ports name node id cid Env w).1
      = Ok rq ->
    validate rq = Only2xx /\ method rq = "post" /\
    url rq = node_url node +:+ "/instances/reinstall/" +:+ to_str cid.
Proof.
  unfold Reinstall.prepareRequestData, try_catch, Reinstall.request_data, bind.
  pose proof (find_image_reads image w) as H.
  destruct (Deploy.find_image image w) as [[imageData|e] w1]; simpl in *; subst; [|done].
  destruct (negb (truthy imageData)); [done|].
  destruct (negb _ || negb _ || negb _); [done|].
  simpl. split; [done|]. by intros rq [= <-].
Qed.

Lemma settle_ok rq a resp :
  settle rq a = Ok resp ->
  a = Reply (r_status resp) (r_data resp) /\
  validateStatus (validate rq) (r_status resp) = true.
Proof.
  destruct a as [c m|st d]; simpl; [done|].
  destruct (validateStatus _ st) eqn:Hv; [|done]. by intros [= <-].
Qed.

Lemma reinstall_update_effect rd userId node image memory cpu disk ports primary name
    id Env w :
  let out := Reinstall.updateDatabaseWithNewInstance rd userId node image memory cpu
               disk ports primary name id Env w in
  sent out.2 = sent w /\
  (out.1 = Ok tt ->
   exists imageData t,
     db out.2 !! instance_key id =
       Some (Reinstall.instance_data rd userId node image memory cpu disk ports
               primary name id Env imageData t)).
Proof.
  unfold Reinstall.updateDatabaseWithNewInstance, try_catch, Deploy.find_image.
  unfold bind, lift, Db.get, Db.set, now, logAudit, ret, throw. simpl.
  destruct (rbind (Arr.as_array _) _) as [imageData|]; simpl; [|done].
  destruct (prop rd "containerId") as [cid|]; simpl; [|done].
  destruct (rbind (Arr.as_array _) _) as [lu|]; simpl; [|done].
  destruct (rbind (Arr.as_array _) _) as [lg|]; simpl; [|done].
  split; [done|]. intros _. eexists _, _. fold (instance_key id).
  by rewrite lookup_insert_eq.
Qed.

(** X10.  The reinstall handler writes the store only after the node
    agreed: when the store has changed, exactly one request was sent, and
    the daemon answered it with a 2xx status and a body that names the new
    container. *)
Theorem reinstall_writes_only_after_the_node_agreed
    (accept : option string) (user : jsval) (id : string) (w : world) :
  db (Reinstall.reinstall accept user id w).2 ≠ db w ->
  exists rq st body,
    sent (Reinstall.reinstall accept user id w).2 = sent w ++ [rq] /\
    daemon w (length (sent w)) rq = Reply st body /\
    200 <= st < 300 /\
    truthy (getf body "containerId") = true.
Proof.
  destruct (Reinstall.reinstall accept user id w) as [r w'] eqn:H. simpl.
  intros Hne. revert H. unfold Reinstall.reinstall.
  destruct (truthy user); simpl; [|intros [= _ <-]; done].
  destruct (String.eqb id ""); simpl; [intros [= _ <-]; done|].
  unfold route, bind at 1, Db.get.
  destruct (db w !! (id +:+ "_instance")) as [inst|] eqn:Hdb; simpl;
    [|intros [= _ <-]; done].
  destruct (truthy inst); simpl; [|intros [= _ <-]; done].
  unfold bind at 1.
  destruct (auth_total (getf user "userId") (getf inst "Id") w) as [b Hb].
  rewrite Hb. destruct b; simpl; [|intros [= _ <-]; done].
  destruct (strict_eq (getf inst "suspended") (JBool true)); simpl;
    [intros [= _ <-]; done|].
  destruct (Reinstall.missingFields inst); simpl; [|intros [= _ <-]; done].
  unfold bind at 1.
  match goal with
  | |- context [Reinstall.prepareRequestData ?a ?b ?c ?d ?e ?f ?g ?h ?i ?j w] =>
      pose proof (reinstall_prepare_reads a b c d e f g h i j w) as [Hp Hq];
      destruct (Reinstall.prepareRequestData a b c d e f g h i j w) as [[rq|e0] w1]
  end; simpl in Hp; subst w1; [|intros [= _ <-]; done].
  destruct (Hq rq eq_refl) as (Hpol & _ & _). clear Hq.
  unfold bind at 1, axios.
  destruct (settle rq (daemon w (length (sent w)) rq)) as [resp|e0] eqn:Hs;
    [|intros [= _ <-]; done].
  apply settle_ok in Hs as [Ha Hv].
  destruct (truthy (opt_prop (r_data resp) "containerId")) eqn:Hc; simpl;
    [|unfold throw; intros [= _ <-]; done].
  unfold bind at 1.
  match goal with
  | |- context [Reinstall.updateDatabaseWithNewInstance ?a ?b ?c ?d ?e ?f ?g ?h ?i ?j ?k ?l ?w0] =>
      destruct (reinstall_update_effect a b c d e f g h i j k l w0) as [Hsent _];
      destruct (Reinstall.updateDatabaseWithNewInstance a b c d e f g h i j k l w0)
        as [[[]|e0] w2]
  end; simpl in Hsent.
  - unfold bind, logAudit, ret. intros [= _ <-].
    exists rq, (r_status resp), (r_data resp). rewrite Hsent. split; [done|].
    split; [done|]. split; [rewrite Hpol in Hv; simpl in Hv; lia|].
    unfold opt_prop in Hc. by destruct (nullish (r_data resp)).
  - intros [= _ <-].
    exists rq, (r_status resp), (r_data resp). rewrite Hsent. split; [done|].
    split; [done|]. split; [rewrite Hpol in Hv; simpl in Hv; lia|].
    unfold opt_prop in Hc. by destruct (nullish (r_data resp)).
Qed.

Lemma no_missing_fields inst f :
  Reinstall.missingFields inst = [] -> f ∈ Reinstall.requiredFields ->
  truthy (getf inst f) = true.
Proof.
  unfold Reinstall.missingFields. intros H Hf.
  destruct (truthy (getf inst f)) eqn:Ht; [done|].
  assert (f ∈ List.filter (fun field => negb (truthy (getf inst field)))
                Reinstall.requiredFields) as Hin.
  { apply list_elem_of_In, filter_In. split; [by apply list_elem_of_In|]. by rewrite Ht. }
  rewrite H in Hin. by apply elem_of_nil in Hin.
Qed.

Lemma field_or_truthy inst f d :
  truthy (getf inst f) = true -> Reinstall.field_or inst f d = getf inst f.
Proof. unfold Reinstall.field_or. by destruct (getf inst f). Qed.

(** X11.  The record a reinstall leaves under [<id>_instance]: the container
    id is the one the node returned; the Id and the volume id are the id of
    the request, whatever Id the old record had; name, node, owner, image
    and primary port are those of the old record; the status is "running";
    and the record has no [suspended] field any more. *)
Theorem reinstall_record
    (accept : option string) (user : jsval) (id url : string) (w w' : world) :
  Reinstall.reinstall accept user id w = (Redirect 201 url, w') ->
  exists rq st body,
    sent w' = sent w ++ [rq] /\
    daemon w (length (sent w)) rq = Reply st body /\
    getf (rec_at w' (instance_key id)) "ContainerId" = getf body "containerId" /\
    getf (rec_at w' (instance_key id)) "Id" = JStr id /\
    getf (rec_at w' (instance_key id)) "VolumeId" = JStr id /\
    (forall f, f ∈ ["Name"; "Node"; "User"; "Image"; "Primary"] ->
       getf (rec_at w' (instance_key id)) f = getf (rec_at w (instance_key id)) f) /\
    getf (rec_at w' (instance_key id)) "status" = JStr "running" /\
    getf (rec_at w' (instance_key id)) "suspended" = JUndef.
Proof.
  unfold Reinstall.reinstall.
  destruct (truthy user); simpl; [|done].
  destruct (String.eqb id ""); simpl; [done|].
  unfold route, bind at 1, Db.get. fold (instance_key id).
  destruct (db w !! instance_key id) as [inst|] eqn:Hdb; simpl; [|done].
  destruct (truthy inst); simpl; [|done].
  unfold bind at 1.
  destruct (auth_total (getf user "userId") (getf inst "Id") w) as [b Hb].
  rewrite Hb. destruct b; simpl; [|done].
  destruct (strict_eq (getf inst "suspended") (JBool true)); simpl; [done|].
  assert (Herr : forall e (w0 : world),
            (Reinstall.handleReinstallError accept e, w0) = (Redirect 201 url, w') -> False).
  { intros e w0. unfold Reinstall.handleReinstallError.
    destruct e as [c m [[st d]|]|m|m|m]; simpl;
      (destruct accept as [a|]; [destruct (Str.includes a "application/json")|]);
      intros H; by inversion H. }
  destruct (Reinstall.missingFields inst) eqn:Hmiss; simpl; [|done].
  assert (Hreq : forall f, f ∈ Reinstall.requiredFields -> truthy (getf inst f) = true)
    by (intros f; by apply no_missing_fields).
  rewrite !field_or_truthy by (apply Hreq; unfold Reinstall.requiredFields; set_solver).
  unfold bind at 1.
  match goal with
  | |- context [Reinstall.prepareRequestData ?a ?b ?c ?d ?e ?f ?g ?h ?i ?j w] =>
      pose proof (reinstall_prepare_reads a b c d e f g h i j w) as [Hp _];
      destruct (Reinstall.prepareRequestData a b c d e f g h i j w) as [[rq|e0] w1]
  end; simpl in Hp; subst w1; [|by intros H; destruct (Herr _ _ H)].
  unfold bind at 1, axios.
  destruct (settle rq (daemon w (length (sent w)) rq)) as [resp|e0] eqn:Hs;
    [|by intros H; destruct (Herr _ _ H)].
  apply settle_ok in Hs as [Ha _].
  destruct (truthy (opt_prop (r_data resp) "containerId")) eqn:Hc; simpl;
    [|unfold throw; by intros H; destruct (Herr _ _ H)].
  unfold bind at 1.
  match goal with
  | |- context [Reinstall.updateDatabaseWithNewInstance ?a ?b ?c ?d ?e ?f ?g ?h ?i ?j ?k ?l ?w0] =>
      destruct (reinstall_update_effect a b c d e f g h i j k l w0) as [Hsent Hrec];
      destruct (Reinstall.updateDatabaseWithNewInstance a b c d e f g h i j k l w0)
        as [[[]|e0] w2]
  end; simpl in Hsent, Hrec; [|by intros H; destruct (Herr _ _ H)].
  unfold bind, logAudit, ret. intros [= _ <-].
  destruct (Hrec eq_refl) as (imageData & t & Hk).
  exists rq, (r_status resp), (r_data resp).
  split; [done|]. split; [done|].
  unfold rec_at. rewrite Hk, Hdb. cbn [default].
  repeat split; try reflexivity.
  intros f Hf. repeat (apply elem_of_cons in Hf as [->|Hf]; [reflexivity|]).
  by apply elem_of_nil in Hf.
Qed.

(** ** The image change *)

Lemma list_ascii_app (a b : string) :
  String.list_ascii_of_string (a +:+ b) =
    String.list_ascii_of_string a ++ String.list_ascii_of_string b.
Proof. induction a as [|c a IH]; [done|]. simpl. by rewrite <- IH. Qed.

Lemma node_key_not_instance (a b : string) : a +:+ "_node" ≠ b +:+ "_instance".
Proof.
  intros E. apply (f_equal (fun s => List.rev (String.list_ascii_of_string s))) in E.
  rewrite !list_ascii_app, !List.rev_app_distr in E. simpl in E. discriminate E.
Qed.

Lemma update_arrays_sent record w r w' :
  Startup.updateInstanceInUserAndGlobalArrays record w = (r, w') -> sent w' = sent w.
Proof.
  unfold Startup.updateInstanceInUserAndGlobalArrays, bind, lift, Db.get, Db.set.
  cbn [fst snd].
  match goal with |- context [rbind ?a ?k] => destruct (rbind a k) end;
    [|by intros [= <- <-]].
  cbn [with_db db sent].
  match goal with |- context [rbind ?a ?k] => destruct (rbind a k) end;
    by intros [= <- <-].
Qed.

Lemma startup_update_effect rd userId node image memory cpu disk ports primary name id
    currentimage imagedata Env w r w' :
  Startup.updateDatabaseWithNewInstance rd userId node image memory cpu
    disk ports primary name id currentimage imagedata Env w = (r, w') ->
  sent w' = sent w /\
  (r = Ok tt ->
   let new := rec_at w' (instance_key id) in
   getf new "User" = userId /\ getf new "ContainerId" = getf rd "containerId" /\
   getf new "Id" = JStr id /\ getf new "currentimage" = currentimage /\
   getf new "Image" = image /\ getf new "suspended" = JBool false /\
   getf new "Name" = name /\ getf new "Ports" = ports /\
   getf new "Primary" = primary /\ getf new "imageData" = imagedata /\
   getf new "Node" = node).
Proof.
  unfold Startup.updateDatabaseWithNewInstance, bind at 1.
  pose proof (find_image_reads image w) as Hro.
  destruct (Deploy.find_image image w) as [[imageData|e] w1]; simpl in Hro; subst w1;
    [|by intros [= <- <-]].
  unfold bind at 1, lift.
  destruct (prop rd "containerId") as [cid|] eqn:Hc; [|by intros [= <- <-]].
  unfold prop in Hc. destruct (nullish rd); [done|]. injection Hc as <-.
  match goal with
  | |- context [Startup.updateInstanceInUserAndGlobalArrays ?r] =>
      assert (Hf : getf r "User" = userId /\ getf r "ContainerId" = getf rd "containerId" /\
                   getf r "Id" = JStr id /\ getf r "currentimage" = currentimage /\
                   getf r "Image" = image /\ getf r "suspended" = JBool false /\
                   getf r "Name" = name /\ getf r "Ports" = ports /\
                   getf r "Primary" = primary /\ getf r "imageData" = imagedata /\
                   getf r "Node" = node) by (repeat split; reflexivity);
      revert Hf; generalize r; intros record Hf
  end.
  unfold bind.
  destruct (Startup.updateInstanceInUserAndGlobalArrays record w) as [[[]|e] w1] eqn:Hup.
  - apply update_arrays_sent in Hup. unfold Db.set. intros [= <- <-].
    split; [done|]. intros _. unfold rec_at. cbn [db with_db].
    fold (instance_key id). rewrite lookup_insert_eq. exact Hf.
  - apply update_arrays_sent in Hup. intros [= <- <-]. split; [done|]. done.
Qed.

Lemma startup_prepare_reads image memory cpu disk ports name node id cid Env w :
  (Startup.prepareRequestData image memory cpu disk ports name node id cid Env w).2 = w /\
  forall rq,
    (Startup.prepareRequestData image memory cpu disk ports name node id cid Env w).1
      = Ok rq -> validate rq = Only2xx.
Proof.
  unfold Startup.prepareRequestData, Deploy.find_image, bind, Db.get, lift, ret, throw.
  simpl. destruct (rbind (Arr.as_array _) _) as [imageData|]; simpl; [|done].
  destruct (truthy ports); simpl; [destruct ports; simpl; try done|];
    (split; [done|]; by intros rq [= <-]).
Qed.

Lemma init_suspended_effect key inst w :
  exists inst' w1,
    Startup.init_suspended key inst w = (Ok inst', w1) /\ sent w1 = sent w /\
    (forall f, f ≠ "suspended" -> getf inst' f = getf inst f) /\
    forall v, with_db (insert key v) w1 = with_db (insert key v) w.
Proof.
  unfold Startup.init_suspended.
  destruct (String.eqb _ _); eexists _, _; (split; [reflexivity|]); simpl.
  - split; [done|]. split; [intros f Hf; by rewrite getf_setf_ne|].
    intros v. unfold with_db. simpl. by rewrite insert_insert_eq.
  - done.
Qed.

(** X12.  The record an image change leaves under [<id>_instance]: its owner
    is the [user] parameter of the query, its container id the one the node
    returned on the redeploy request, its Id the id of the request,
    whatever Id the old record had, its [currentimage] the image asked for
    and its [Image] the one of the old record's [imageData]; name, ports,
    primary port and [imageData] are those of the old record; the node is
    the one stored under the node's id; [suspended] is [false]. *)
Theorem image_change_record
    (user : jsval) (id : string) (image quser : jsval) (url : string) (w w' : world) :
  Startup.change_image user id image quser w = (Redirect 201 url, w') ->
  exists rq st body,
    sent w' = sent w ++ [rq] /\
    daemon w (length (sent w)) rq = Reply st body /\ 200 <= st < 300 /\
    getf (rec_at w' (instance_key id)) "User" = quser /\
    getf (rec_at w' (instance_key id)) "ContainerId" = getf body "containerId" /\
    getf (rec_at w' (instance_key id)) "Id" = JStr id /\
    getf (rec_at w' (instance_key id)) "currentimage" = image /\
    getf (rec_at w' (instance_key id)) "Image" =
      getf (getf (rec_at w (instance_key id)) "imageData") "Image" /\
    getf (rec_at w' (instance_key id)) "suspended" = JBool false /\
    getf (rec_at w' (instance_key id)) "Node" =
      rec_at w (to_str (getf (getf (rec_at w (instance_key id)) "Node") "id") +:+ "_node") /\
    (forall f, f ∈ ["Name"; "Ports"; "Primary"; "imageData"] ->
       getf (rec_at w' (instance_key id)) f = getf (rec_at w (instance_key id)) f).
Proof.
  unfold Startup.change_image.
  destruct (truthy user); simpl; [|done].
  destruct (String.eqb id ""); simpl; [done|].
  unfold route, bind at 1, Db.get. fold (instance_key id).
  destruct (db w !! instance_key id) as [inst|] eqn:Hdb; simpl; [|done].
  destruct (truthy inst); simpl; [|done].
  unfold bind at 1.
  destruct (auth_total (getf user "userId") (getf inst "Id") w) as [b Hb].
  rewrite Hb. destruct b; simpl; [|done].
  destruct (init_suspended_effect (instance_key id) inst w)
    as (inst' & w1 & Hinit & Hs1 & Hsame & Hw1).
  unfold bind at 1. rewrite Hinit.
  destruct (strict_eq (getf inst' "suspended") (JBool true)); simpl; [done|].
  unfold bind at 1, lift.
  destruct (prop (getf inst' "Node") "id") as [nodeId|] eqn:Hnode; simpl; [|done].
  destruct (negb (truthy image) || negb (truthy quser) || negb (truthy nodeId));
    simpl; [done|].
  unfold bind at 1, Db.get.
  destruct (truthy (default JUndef (db w1 !! (to_str nodeId +:+ "_node")))); simpl; [|done].
  unfold bind at 1.
  match goal with
  | |- context [Startup.prepareRequestData ?a ?b ?c ?d ?e ?f ?g ?h ?i ?j w1] =>
      pose proof (startup_prepare_reads a b c d e f g h i j w1) as [Hp Hq];
      destruct (Startup.prepareRequestData a b c d e f g h i j w1) as [[rq|e0] w2]
  end; simpl in Hp; subst w2; [|done].
  specialize (Hq rq eq_refl).
  unfold bind at 1, axios.
  destruct (settle rq (daemon w1 (length (sent w1)) rq)) as [resp|e0] eqn:Hs; [|done].
  apply settle_ok in Hs as [Ha Hv]. rewrite Hq in Hv. simpl in Hv.
  unfold bind at 1, lift.
  destruct (prop (getf inst' "imageData") "Image") as [oldImage|] eqn:Hold; simpl; [|done].
  unfold bind at 1.
  match goal with
  | |- context [Startup.updateDatabaseWithNewInstance ?a ?b ?c ?d ?e ?f ?g ?h ?i ?j ?k ?l ?m ?n ?w0] =>
      destruct (Startup.updateDatabaseWithNewInstance a b c d e f g h i j k l m n w0)
        as [[[]|e0] w3] eqn:Hu
  end; [|done].
  apply startup_update_effect in Hu as [Hsent Hrec]. cbn [sent sending] in Hsent.
  unfold bind, logAudit, ret. intros [= _ <-].
  destruct (Hrec eq_refl) as (H1 & H2 & H3 & H4 & H5 & H6 & H7 & H8 & H9 & H10 & H11).
  assert (Hd1 : daemon w1 = daemon w /\ forall k, k ≠ instance_key id -> db w1 !! k = db w !! k).
  { revert Hinit. unfold Startup.init_suspended.
    destruct (String.eqb _ _); intros [= _ <-]; simpl; [|done].
    split; [done|]. intros k Hk. by rewrite lookup_insert_ne. }
  destruct Hd1 as [Hdm Hdk].
  exists rq, (r_status resp), (r_data resp).
  rewrite Hsent, Hs1. split; [done|].
  split; [by rewrite <- Hdm, <- Hs1|]. split; [lia|].
  assert (Hrw : rec_at w (instance_key id) = inst) by (unfold rec_at; by rewrite Hdb).
  rewrite Hrw, H1, H2, H3, H4, H5, H6, H11.
  repeat split; try done.
  - unfold prop in Hold. destruct (nullish _); [done|]. injection Hold as <-.
    by rewrite Hsame.
  - unfold prop in Hnode. destruct (nullish _); [done|]. injection Hnode as <-.
    rewrite Hsame by done. unfold rec_at. rewrite Hdk; [done|].
    apply node_key_not_instance.
  - intros f Hf.
    repeat (apply elem_of_cons in Hf as [->|Hf];
            [rewrite ?H7, ?H8, ?H9, ?H10; by rewrite Hsame|]).
    by apply elem_of_nil in Hf.
Qed.

(** X10, witness: the owner reinstalls [i1]; the store changes. *)
Lemma reinstall_writes_only_after_the_node_agreed_witness :
  exists rq st body,
    sent (Reinstall.reinstall None Example.owner "i1" Example.healthy).2
      = sent Example.healthy ++ [rq] /\
    daemon Example.healthy (length (sent Example.healthy)) rq = Reply st body /\
    200 <= st < 300 /\
    truthy (getf body "containerId") = true.
Proof.
  apply (reinstall_writes_only_after_the_node_agreed None Example.owner "i1"
           Example.healthy).
  intros E. apply (f_equal (fun m => getf (default JUndef (m !! "i1_instance")) "ContainerId")) in E.
  vm_compute in E. discriminate.
Defined.

(** X11, witness: the record of [i1] after the reinstall. *)
Lemma reinstall_record_witness :
  exists rq st body,
    sent (Reinstall.reinstall None Example.owner "i1" Example.healthy).2
      = sent Example.healthy ++ [rq] /\
    daemon Example.healthy (length (sent Example.healthy)) rq = Reply st body /\
    getf (rec_at (Reinstall.reinstall None Example.owner "i1" Example.healthy).2
            (instance_key "i1")) "ContainerId" = getf body "containerId" /\
    getf (rec_at (Reinstall.reinstall None Example.owner "i1" Example.healthy).2
            (instance_key "i1")) "ContainerId" = JStr "c2".
Proof.
  destruct (reinstall_record None Example.owner "i1" "../../instance/i1" Example.healthy
              (Reinstall.reinstall None Example.owner "i1" Example.healthy).2)
    as (rq & st & body & H1 & H2 & H3 & _); [vm_compute; reflexivity|].
  exists rq, st, body. split; [exact H1|]. split; [exact H2|]. split; [exact H3|].
  vm_compute. reflexivity.
Defined.

(** X12, witness: the owner changes the image of [i1]. *)
Lemma image_change_record_witness :
  (Startup.change_image Example.owner "i1" (JStr "img2") (JStr "u1") Sample.with_node).1
    = Redirect 201 "/instance/i1/startup" /\
  getf (rec_at (Startup.change_image Example.owner "i1" (JStr "img2") (JStr "u1")
                  Sample.with_node).2 (instance_key "i1")) "User" = JStr "u1" /\
  getf (rec_at (Startup.change_image Example.owner "i1" (JStr "img2") (JStr "u1")
                  Sample.with_node).2 (instance_key "i1")) "currentimage" = JStr "img2".
Proof.
  split; [vm_compute; reflexivity|].
  destruct (image_change_record Example.owner "i1" (JStr "img2") (JStr "u1")
              "/instance/i1/startup" Sample.with_node
              (Startup.change_image Example.owner "i1" (JStr "img2") (JStr "u1")
                 Sample.with_node).2)
    as (rq & st & body & _ & _ & _ & H1 & _ & _ & H2 & _); [vm_compute; reflexivity|].
  by split.
Defined.

(** ** The admin routes *)

(** X13.  The admin delete is best effort towards the node: for a record
    that passes [validateInstance], whatever the daemon answers to the one
    DELETE request -- an error status, or nothing at all -- the route
    answers with the success flash, the record and the workflow stored
    under the record's Id are gone, the entries with that Id are gone from
    the owner's list and from the global list, and no other key is
    touched. *)
Theorem admin_delete_cleans_up
    (id : string) (w : world) (inst : jsval) (lu lg : list jsval) :
  id ≠ "" ->
  db w !! instance_key id = Some inst ->
  AdminInstances.validateInstance inst = Ok tt ->
  list_at w (owner_key inst) = JArr lu -> no_hole lu ->
  list_at w "instances" = JArr lg -> no_hole lg ->
  (AdminInstances.delete_instance id w).1 =
    Flash true "Instance deleted successfully" "/admin/instances" /\
  sent (AdminInstances.delete_instance id w).2 =
    sent w ++ [AdminInstances.delete_request inst] /\
  db (AdminInstances.delete_instance id w).2
    !! instance_key (to_str (getf inst "Id")) = None /\
  db (AdminInstances.delete_instance id w).2
    !! (to_str (getf inst "Id") +:+ "_workflow") = None /\
  entries (AdminInstances.delete_instance id w).2 (owner_key inst) =
    without "Id" (getf inst "Id") lu /\
  entries (AdminInstances.delete_instance id w).2 "instances" =
    without "Id" (getf inst "Id") lg /\
  forall k,
    k ∉ [instance_key (to_str (getf inst "Id")); to_str (getf inst "Id") +:+ "_workflow";
         owner_key inst; "instances"] ->
    db (AdminInstances.delete_instance id w).2 !! k = db w !! k.
Proof.
  intros Hid Hdb Hv Hlu Hhu Hlg Hhg.
  rewrite (admin_delete_run _ _ _ _ _ Hid Hdb Hv Hlu Hhu Hlg Hhg). cbn [fst snd].
  change (db (with_db ?f ?w0)) with (f (db w0)). cbv beta.
  unfold instance_key. split; [done|]. split; [done|].
  split.
  { rewrite lookup_delete_ne by (apply not_eq_sym, instance_key_not_workflow).
    by rewrite lookup_delete_eq. }
  split; [by rewrite lookup_delete_eq|].
  split.
  { apply entries_of_lookup.
    change (db (with_db ?f ?w0)) with (f (db w0)). cbv beta.
    rewrite lookup_delete_ne by apply workflow_key_not_list.
    rewrite lookup_delete_ne by apply instance_key_not_list.
    rewrite lookup_insert_ne by (apply not_eq_sym, list_key_not_global).
    by rewrite lookup_insert_eq. }
  split.
  { apply entries_of_lookup.
    change (db (with_db ?f ?w0)) with (f (db w0)). cbv beta.
    rewrite lookup_delete_ne by apply workflow_key_not_global.
    rewrite lookup_delete_ne by apply instance_key_not_global.
    by rewrite lookup_insert_eq. }
  intros k Hk. rewrite !not_elem_of_cons in Hk. destruct Hk as (H1 & H2 & H3 & H4 & _).
  rewrite lookup_delete_ne by done. rewrite lookup_delete_ne by done.
  rewrite lookup_insert_ne by done. by rewrite lookup_insert_ne.
Qed.

(** X14.  A record that [validateInstance] refuses -- one without a Node,
    say -- cannot be deleted on the admin route: the route answers with the
    failure flash, sends nothing and writes nothing. *)
Theorem admin_delete_of_invalid_record
    (id : string) (w : world) (inst : jsval) (e : jserr) :
  id ≠ "" ->
  db w !! instance_key id = Some inst ->
  truthy inst = true ->
  AdminInstances.validateInstance inst = Throw e ->
  AdminInstances.delete_instance id w =
    (Flash false "Failed to delete instance" "/admin/instances", w).
Proof.
  intros Hid Hdb Ht Hv. unfold AdminInstances.delete_instance.
  destruct (String.eqb_spec id ""); [done|].
  unfold route, bind at 1, Db.get. fold (instance_key id). rewrite Hdb. simpl.
  rewrite Ht. simpl.
  unfold bind at 1, AdminInstances.deleteInstance, bind at 1, lift. by rewrite Hv.
Qed.

Lemma cleared_spread_set v :
  AdminInstances.cleared (spread_set v "suspended" (JBool true)) = AdminInstances.cleared v.
Proof.
  unfold AdminInstances.cleared, spread_set. cbn [own_props].
  by rewrite insert_insert_eq.
Qed.

Lemma cleared_fixed (m : gmap string jsval) :
  m !! "suspended" = Some (JBool false) ->
  truthy (default JUndef (m !! "suspended-flagg")) = false ->
  AdminInstances.cleared (JObj m) = JObj m.
Proof.
  intros Hs Hf. unfold AdminInstances.cleared. cbn [own_props].
  rewrite (insert_id m) by done. by rewrite Hf.
Qed.

Lemma cleared_cleared v :
  AdminInstances.cleared (AdminInstances.cleared v) = AdminInstances.cleared v.
Proof.
  unfold AdminInstances.cleared at 2 3.
  destruct (truthy _) eqn:Hf; apply cleared_fixed.
  - rewrite lookup_delete_ne by done. by rewrite lookup_insert_eq.
  - by rewrite lookup_delete_eq.
  - by rewrite lookup_insert_eq.
  - done.
Qed.

Lemma getf_id_cleared v : getf (AdminInstances.cleared v) "Id" = getf v "Id".
Proof. by apply getf_cleared_ne. Qed.

Lemma getf_id_suspended v :
  getf (spread_set v "suspended" (JBool true)) "Id" = getf v "Id".
Proof. by apply getf_spread_set_ne. Qed.

Lemma mark_unsuspended_again inst inst' l l' :
  getf inst' "Id" = getf inst "Id" ->
  Forall2 (fun a b => AdminInstances.mark_unsuspended inst a = Ok b) l l' ->
  Arr.map (AdminInstances.mark_unsuspended inst') l' = Ok l'.
Proof.
  intros Hi. induction 1 as [|a b l l' Hab _ IH]; simpl; [done|].
  rewrite IH. unfold AdminInstances.mark_unsuspended, prop in *.
  destruct (nullish a) eqn:Ha; simpl in Hab; [done|]. rewrite Hi.
  destruct (strict_eq (getf a "Id") (getf inst "Id")) eqn:Hai; injection Hab as <-.
  - destruct (cleared_is_obj a) as [o Ho]. rewrite Ho. cbn [nullish rbind].
    rewrite <- Ho, getf_id_cleared, Hai, cleared_cleared. done.
  - rewrite Ha. simpl. by rewrite Hai.
Qed.

Lemma mark_unsuspended_step inst a b :
  AdminInstances.mark_suspended inst a = Ok b ->
  AdminInstances.mark_unsuspended (spread_set inst "suspended" (JBool true)) b
  = AdminInstances.mark_unsuspended inst a.
Proof.
  unfold AdminInstances.mark_suspended, AdminInstances.mark_unsuspended, prop.
  destruct (nullish a) eqn:Ha; [done|]. cbn [rbind].
  destruct (strict_eq (getf a "Id") (getf inst "Id")) eqn:Hai; intros [= <-].
  - change (nullish (spread_set a "suspended" (JBool true))) with false. cbn [rbind].
    by rewrite !getf_id_suspended, Hai, cleared_spread_set.
  - rewrite Ha. cbn [rbind]. by rewrite getf_id_suspended, Hai.
Qed.

Lemma mark_unsuspended_after_suspended inst l l' :
  Forall2 (fun a b => AdminInstances.mark_suspended inst a = Ok b) l l' ->
  Arr.map (AdminInstances.mark_unsuspended (spread_set inst "suspended" (JBool true))) l'
  = Arr.map (AdminInstances.mark_unsuspended inst) l /\
  exists l2, Arr.map (AdminInstances.mark_unsuspended inst) l = Ok l2.
Proof.
  induction 1 as [|a b l l' Hab _ [IH [l2 Hl2]]]; [by eauto|].
  cbn [Arr.map]. rewrite IH, Hl2, (mark_unsuspended_step _ _ _ Hab).
  split; [done|].
  unfold AdminInstances.mark_suspended, prop in Hab.
  unfold AdminInstances.mark_unsuspended, prop.
  destruct (nullish a); [done|]. cbn [rbind]. eauto.
Qed.

(** X15.  The admin unsuspend is idempotent: once a call went through, the
    same call goes through again and leaves the world exactly as the first
    one left it. *)
Theorem admin_unsuspend_is_idempotent
    (id : string) (w w1 : world) (msg url : string) :
  AdminInstances.unsuspend id w = (Flash true msg url, w1) ->
  AdminInstances.unsuspend id w1 =
    (Flash true "Instance unsuspended successfully" "/admin/instances", w1).
Proof.
  intros H.
  assert (Hid : id ≠ "").
  { intros ->. unfold AdminInstances.unsuspend in H. simpl in H. done. }
  apply admin_unsuspend_inv in H as (inst & lg & lg' & Hdb & Ht & Hlg & Hm & ->).
  rewrite (admin_unsuspend_run id _ (AdminInstances.cleared inst) lg' lg'); try done.
  - f_equal. destruct w. unfold with_db. simpl in *. f_equal.
    rewrite cleared_cleared.
    rewrite (insert_id _ (instance_key id)).
    2:{ rewrite lookup_insert_ne by (apply not_eq_sym, instance_key_not_global).
        by rewrite lookup_insert_eq. }
    by rewrite insert_insert_eq.
  - simpl. rewrite lookup_insert_ne by (apply not_eq_sym, instance_key_not_global).
    by rewrite lookup_insert_eq.
  - by destruct (cleared_is_obj inst) as [o ->].
  - unfold list_at, rec_at. simpl. by rewrite lookup_insert_eq.
  - eapply mark_unsuspended_again; [|exact Hm]. apply getf_id_cleared.
Qed.

(** X16.  Unsuspending undoes suspending and nothing more: after a suspend
    that went through, the unsuspend goes through and leaves the very world
    that an unsuspend without the suspend before it leaves. *)
Theorem unsuspend_undoes_suspend
    (id : string) (w w1 : world) (msg url : string) :
  AdminInstances.suspend id w = (Flash true msg url, w1) ->
  AdminInstances.unsuspend id w1 =
    (Flash true "Instance unsuspended successfully" "/admin/instances",
     (AdminInstances.unsuspend id w).2) /\
  (AdminInstances.unsuspend id w).1 =
    Flash true "Instance unsuspended successfully" "/admin/instances".
Proof.
  intros H.
  assert (Hid : id ≠ "").
  { intros ->. unfold AdminInstances.suspend in H. simpl in H. done. }
  apply admin_suspend_inv in H as (inst & lg & lg' & Hdb & Ht & Hlg & Hm & ->).
  destruct (mark_unsuspended_after_suspended _ _ _ Hm) as [Heq [l2 Hl2]].
  rewrite (admin_unsuspend_run id w inst lg l2 Hid Hdb Ht Hlg Hl2). cbn [fst snd].
  split; [|done].
  rewrite (admin_unsuspend_run id _ (spread_set inst "suspended" (JBool true)) lg' l2);
    try done.
  - f_equal. destruct w. unfold with_db. simpl in *. f_equal.
    fold (spread_set inst "suspended" (JBool true)). rewrite cleared_spread_set.
    rewrite (insert_insert_ne _ (instance_key id) "instances")
      by (apply instance_key_not_global).
    by rewrite !insert_insert_eq.
  - simpl. rewrite lookup_insert_ne by (apply not_eq_sym, instance_key_not_global).
    by rewrite lookup_insert_eq.
  - unfold list_at, rec_at. simpl. by rewrite lookup_insert_eq.
  - by rewrite Heq.
Qed.

(** ** The API delete *)

(** X17.  When the node accepts the DELETE request, the API delete removes
    the instance: the record stored under the record's Id is gone, the
    entries with its ContainerId are gone from the owner's list and from the
    global list, one request was sent and no other key is touched. *)
Theorem api_delete_removes_instance
    (id : jsval) (w : world) (inst : jsval) (rq : request) (st : Z) (body : jsval)
    (lu lg : list jsval) :
  truthy id = true ->
  db w !! instance_key (to_str id) = Some inst -> truthy inst = true ->
  Api.delete_request inst = Ok rq ->
  daemon w (length (sent w)) rq = Reply st body -> 200 <= st < 300 ->
  list_at w (owner_key inst) = JArr lu -> no_hole lu ->
  list_at w "instances" = JArr lg -> no_hole lg ->
  (Api.delete_instance id w).1 =
    Json 200 (obj [("message", JStr "Instance successfully deleted")]) /\
  sent (Api.delete_instance id w).2 = sent w ++ [rq] /\
  db (Api.delete_instance id w).2 !! instance_key (to_str (getf inst "Id")) = None /\
  entries (Api.delete_instance id w).2 (owner_key inst) =
    without "ContainerId" (getf inst "ContainerId") lu /\
  entries (Api.delete_instance id w).2 "instances" =
    without "ContainerId" (getf inst "ContainerId") lg /\
  forall k,
    k ∉ [instance_key (to_str (getf inst "Id")); owner_key inst; "instances"] ->
    db (Api.delete_instance id w).2 !! k = db w !! k.
Proof.
  intros Hid Hdb Ht Hrq Ha Hst Hlu Hhu Hlg Hhg.
  assert (Hrun : Api.delete_instance id w =
    (Json 200 (obj [("message", JStr "Instance successfully deleted")]),
     with_db
       (fun m =>
          base.delete (instance_key (to_str (getf inst "Id")))
            (<["instances" := JArr (without "ContainerId" (getf inst "ContainerId") lg)]>
               (<[owner_key inst :=
                    JArr (without "ContainerId" (getf inst "ContainerId") lu)]> m)))
       (sending rq w))).
  { unfold Api.delete_instance. rewrite Hid. simpl.
    unfold route, bind at 1, Db.get. fold (instance_key (to_str id)). rewrite Hdb.
    simpl. rewrite Ht. simpl.
    unfold bind at 1, Api.deleteInstance, try_catch, bind at 1, lift. rewrite Hrq.
    assert (Hv : validate rq = Only2xx).
    { revert Hrq. unfold Api.delete_request.
      repeat (match goal with |- context [prop ?a ?b] => destruct (prop a b); simpl; [|done] end).
      by intros [= <-]. }
    unfold bind at 1, axios. rewrite Ha. simpl. rewrite Hv. simpl.
    assert ((200 <=? st) && (st <? 300) = true) as -> by lia.
    unfold bind, Db.get, Db.set, Db.delete, lift, ret. cbn [fst snd].
    fold (owner_key inst). name_lists.
    change (list_at (sending rq w) (owner_key inst)) with (list_at w (owner_key inst)).
    rewrite Hlu. simpl. rewrite (filter_ok _ _ _ Hhu). simpl.
    rewrite lookup_insert_ne by (apply list_key_not_global).
    change (or_else (default JUndef (db w !! "instances")) (JArr []))
      with (list_at w "instances"). rewrite Hlg. simpl.
    by rewrite (filter_ok _ _ _ Hhg). }
  rewrite Hrun. cbn [fst snd].
  change (db (with_db ?f ?w0)) with (f (db w0)). cbv beta.
  split; [done|]. split; [done|].
  split; [by rewrite lookup_delete_eq|].
  split.
  { apply entries_of_lookup.
    change (db (with_db ?f ?w0)) with (f (db w0)). cbv beta.
    rewrite lookup_delete_ne by apply instance_key_not_list.
    rewrite lookup_insert_ne by (apply not_eq_sym, list_key_not_global).
    by rewrite lookup_insert_eq. }
  split.
  { apply entries_of_lookup.
    change (db (with_db ?f ?w0)) with (f (db w0)). cbv beta.
    rewrite lookup_delete_ne by apply instance_key_not_global.
    by rewrite lookup_insert_eq. }
  intros k Hk. rewrite !not_elem_of_cons in Hk. destruct Hk as (H1 & H2 & H3 & _).
  rewrite lookup_delete_ne by done.
  rewrite lookup_insert_ne by done. by rewrite lookup_insert_ne.
Qed.

Lemma admin_delete_cleans_up_witness :
  (AdminInstances.delete_instance "i1" Example.with_failing_node).1 =
    Flash true "Instance deleted successfully" "/admin/instances" /\
  db (AdminInstances.delete_instance "i1" Example.with_failing_node).2
    !! "i1_instance" = None /\
  entries (AdminInstances.delete_instance "i1" Example.with_failing_node).2
    "u1_instances" = [].
Proof.
  destruct (admin_delete_cleans_up "i1" Example.with_failing_node Example.inst1
              [Example.inst1] [Example.inst1])
    as (H1 & _ & H3 & _ & H5 & _);
    first [exact (conj H1 (conj H3 H5)) | done | vm_compute; reflexivity
          | by repeat constructor].
Defined.

Lemma admin_delete_of_invalid_record_witness :
  AdminInstances.delete_instance "i1" Example.with_nodeless_instance =
    (Flash false "Failed to delete instance" "/admin/instances",
     Example.with_nodeless_instance).
Proof.
  destruct (AdminInstances.validateInstance Example.nodeless) as [[]|e] eqn:Hv;
    [by vm_compute in Hv|].
  apply (admin_delete_of_invalid_record "i1" Example.with_nodeless_instance
           Example.nodeless e); try done.
Defined.

Lemma admin_unsuspend_is_idempotent_witness :
  AdminInstances.unsuspend "i1"
      (AdminInstances.unsuspend "i1" Example.with_suspended_instance).2 =
    (Flash true "Instance unsuspended successfully" "/admin/instances",
     (AdminInstances.unsuspend "i1" Example.with_suspended_instance).2).
Proof.
  apply (admin_unsuspend_is_idempotent "i1" Example.with_suspended_instance _
           "Instance unsuspended successfully" "/admin/instances").
  vm_compute. reflexivity.
Defined.

Lemma unsuspend_undoes_suspend_witness :
  AdminInstances.unsuspend "i1" (AdminInstances.suspend "i1" Example.healthy).2 =
    (Flash true "Instance unsuspended successfully" "/admin/instances",
     (AdminInstances.unsuspend "i1" Example.healthy).2) /\
  (AdminInstances.unsuspend "i1" Example.healthy).1 =
    Flash true "Instance unsuspended successfully" "/admin/instances".
Proof.
  apply (unsuspend_undoes_suspend "i1" Example.healthy _
           "Instance suspended successfully" "/admin/instances").
  vm_compute. reflexivity.
Defined.

Lemma api_delete_removes_instance_witness :
  (Api.delete_instance (JStr "i1") Example.healthy).1 =
    Json 200 (obj [("message", JStr "Instance successfully deleted")]) /\
  db (Api.delete_instance (JStr "i1") Example.healthy).2 !! "i1_instance" = None /\
  entries (Api.delete_instance (JStr "i1") Example.healthy).2 "instances" = [].
Proof.
  destruct (Api.delete_request Example.inst1) as [rq|e] eqn:Hrq;
    [|by vm_compute in Hrq].
  destruct (api_delete_removes_instance (JStr "i1") Example.healthy Example.inst1 rq 200
              (obj [("newContainerId", JStr "c2"); ("containerId", JStr "c2")])
              [Example.inst1] [Example.inst1])
    as (H1 & _ & H3 & _ & H5 & _);
    first [exact (conj H1 (conj H3 H5)) | exact Hrq | lia | vm_compute; reflexivity
          | by repeat constructor].
Defined.

(** ** The API deploy *)

Lemma api_find_image_reads imagename : reads_only (ApiDeploy.find_image imagename).
Proof. unfold ApiDeploy.find_image. ro. Qed.

Lemma api_prepare_reads image memory cpu ports name node Id variables imagename w r w' :
  ApiDeploy.prepareRequestData image memory cpu ports name node Id variables imagename w
    = (r, w') ->
  w' = w /\ forall rq, r = Ok rq -> validate rq = Only2xx.
Proof.
  unfold ApiDeploy.prepareRequestData, bind at 1.
  pose proof (api_find_image_reads imagename w) as Hro.
  destruct (ApiDeploy.find_image imagename w) as [[imageData|e] w1]; simpl in Hro; subst w1.
  - unfold bind, lift, ret. destruct (prop node "address"); intros [= <- <-];
      (split; [done|]); intros rq [= <-]; done.
  - intros [= <- <-]. split; [done|]. intros rq [=].
Qed.

Lemma api_update_db_inv responseData userId node image memory disk cpu ports primary
    name Id imagename w w' :
  ApiDeploy.updateDatabaseWithNewInstance responseData userId node image memory disk
    cpu ports primary name Id imagename w = (Ok tt, w') ->
  exists imageData mine all,
    let record :=
      ApiDeploy.instanceData responseData userId node image memory disk cpu ports
        primary name Id imageData (JStr (clock w (ticks w)))
        (JStr (clock w (S (ticks w)))) in
    list_at w (to_str userId +:+ "_instances") = JArr mine /\
    list_at w "instances" = JArr all /\
    sent w' = sent w /\
    db w' =
      <[instance_key Id := record]>
        (<["instances" := JArr (all ++ [record])]>
           (<[to_str userId +:+ "_instances" := JArr (mine ++ [record])]> (db w))).
Proof.
  unfold ApiDeploy.updateDatabaseWithNewInstance, try_catch, bind at 1.
  pose proof (api_find_image_reads imagename w) as Hro.
  destruct (ApiDeploy.find_image imagename w) as [[imageData|e] w1]; simpl in Hro; subst w1;
    [|done].
  unfold bind, lift, now, Db.get, Db.set, ret, throw. cbn [fst snd db].
  destruct (prop node "id"); [|done].
  destruct (prop responseData "containerId"); [|done].
  cbn [db with_db sent].
  name_lists.
  change (list_at {| db := db w; sent := sent w; daemon := daemon w; clock := clock w;
                     ticks := S (S (ticks w)) |} (to_str userId +:+ "_instances"))
    with (list_at w (to_str userId +:+ "_instances")).
  destruct (list_at w (to_str userId +:+ "_instances")) as [| | | | |mine|] eqn:Hm;
    try done.
  simpl.
  rewrite lookup_insert_ne by (apply list_key_not_global).
  change (or_else (default JUndef (db w !! "instances")) (JArr []))
    with (list_at w "instances").
  destruct (list_at w "instances") as [| | | | |all|] eqn:Ha; try done.
  simpl. intros [= <-]. exists imageData, mine, all. done.
Qed.

Lemma api_update_sent responseData userId node image memory disk cpu ports primary
    name Id imagename w r w' :
  ApiDeploy.updateDatabaseWithNewInstance responseData userId node image memory disk
    cpu ports primary name Id imagename w = (r, w') ->
  sent w' = sent w.
Proof.
  unfold ApiDeploy.updateDatabaseWithNewInstance, try_catch, bind at 1.
  pose proof (api_find_image_reads imagename w) as Hro.
  destruct (ApiDeploy.find_image imagename w) as [[imageData|e] w1]; simpl in Hro; subst w1;
    [|by intros [= <- <-]].
  unfold bind, lift, now, Db.get, Db.set, ret, throw. cbn [fst snd db].
  destruct (prop node "id"); [|by intros [= <- <-]].
  destruct (prop responseData "containerId"); [|by intros [= <- <-]].
  cbn [db with_db sent].
  match goal with |- context [Arr.as_array ?v] => destruct (Arr.as_array v) end;
    [|by intros [= <- <-]].
  cbn [db with_db sent].
  match goal with |- context [Arr.as_array ?v] => destruct (Arr.as_array v) end;
    by intros [= <- <-].
Qed.

Lemma deploy_inv Id b w body w' :
  ApiDeploy.deploy Id b w = (Json 201 body, w') ->
  exists node rq data w1,
    db w !! (to_str (ApiDeploy.nodeId b) +:+ "_node") = Some node /\
    ApiDeploy.prepareRequestData (ApiDeploy.image b) (ApiDeploy.memory b)
      (ApiDeploy.cpu b) (ApiDeploy.ports b) (ApiDeploy.name b) node Id
      (ApiDeploy.variables b) (ApiDeploy.imagename b) w = (Ok rq, w) /\
    daemon w (length (sent w)) rq = Reply 201 data /\
    ApiDeploy.updateDatabaseWithNewInstance data (ApiDeploy.user b) node
      (ApiDeploy.image b) (ApiDeploy.memory b) (ApiDeploy.disk b) (ApiDeploy.cpu b)
      (ApiDeploy.ports b) (ApiDeploy.primary b) (ApiDeploy.name b) Id
      (ApiDeploy.imagename b) (sending rq w) = (Ok tt, w1) /\
    w' = w1 /\
    body = obj [("message", JStr "Deployment successful");
                ("containerId", getf data "containerId");
                ("volumeId", getf data "volumeId")].
Proof.
  unfold ApiDeploy.deploy.
  destruct (0 <? length (ApiDeploy.missingParams b))%nat; [done|].
  unfold route, bind at 1, Db.get.
  destruct (db w !! (to_str (ApiDeploy.nodeId b) +:+ "_node")) as [node|] eqn:Hn;
    simpl; [|done].
  destruct (truthy node); simpl; [|done].
  destruct (truthy (getf node "apiKey")); simpl; [|done].
  unfold bind at 1.
  match goal with
  | |- context [ApiDeploy.prepareRequestData ?a ?b ?c ?d ?e ?f ?g ?h ?i w] =>
      destruct (ApiDeploy.prepareRequestData a b c d e f g h i w) as [[rq|e0] w0] eqn:Hp
  end; [|done].
  destruct (api_prepare_reads _ _ _ _ _ _ _ _ _ _ _ _ Hp) as [-> Hv].
  specialize (Hv rq eq_refl).
  unfold bind at 1, axios, settle.
  destruct (daemon w (length (sent w)) rq) as [c m|st data] eqn:Hd; [done|].
  rewrite Hv. simpl.
  destruct ((200 <=? st) && (st <? 300)); [|done]. simpl.
  destruct (st =? 201) eqn:Hst; [|intros [= E _]; lia].
  apply Z.eqb_eq in Hst as ->.
  unfold bind at 1.
  match goal with
  | |- context [ApiDeploy.updateDatabaseWithNewInstance ?a ?b ?c ?d ?e ?f ?g ?h ?i ?j ?k ?l
                  (sending rq w)] =>
      destruct (ApiDeploy.updateDatabaseWithNewInstance a b c d e f g h i j k l
                  (sending rq w)) as [[[]|e0] w1] eqn:Hu
  end; [|done].
  unfold bind, lift, ret, prop.
  destruct (nullish data); [done|]. intros [= <- <-].
  exists node, rq, data, w1. done.
Qed.

(** X18.  A deploy that answers 201 has sent one request, to which the node
    answered 201, and has stored one and the same record in three places:
    under the new Id, at the end of the list of the user named in the
    request and at the end of the global list.  The record carries the Id,
    that user and the container id of the node's answer; no other key of
    the store is touched. *)
Theorem deploy_stores_the_record_in_three_places
    (Id : string) (b : ApiDeploy.body) (w : world) (body : jsval) (w' : world) :
  ApiDeploy.deploy Id b w = (Json 201 body, w') ->
  exists rq data record,
    sent w' = sent w ++ [rq] /\
    daemon w (length (sent w)) rq = Reply 201 data /\
    db w' !! instance_key Id = Some record /\
    getf record "Id" = JStr Id /\
    getf record "User" = ApiDeploy.user b /\
    getf record "ContainerId" = getf data "containerId" /\
    getf body "containerId" = getf data "containerId" /\
    entries w' (owner_key record) = entries w (owner_key record) ++ [record] /\
    entries w' "instances" = entries w "instances" ++ [record] /\
    forall k, k ∉ [instance_key Id; owner_key record; "instances"] ->
              db w' !! k = db w !! k.
Proof.
  intros H. apply deploy_inv in H as (node & rq & data & w1 & Hn & Hp & Hd & Hu & -> & ->).
  apply api_update_db_inv in Hu as (imageData & mine & all & Hm & Ha & Hs & Hdb).
  cbv zeta in Hdb.
  set (record := ApiDeploy.instanceData data (ApiDeploy.user b) node (ApiDeploy.image b)
                   (ApiDeploy.memory b) (ApiDeploy.disk b) (ApiDeploy.cpu b)
                   (ApiDeploy.ports b) (ApiDeploy.primary b) (ApiDeploy.name b) Id
                   imageData (JStr (clock (sending rq w) (ticks (sending rq w))))
                   (JStr (clock (sending rq w) (S (ticks (sending rq w)))))) in *.
  assert (Hu : getf record "User" = ApiDeploy.user b) by done.
  assert (Hk : owner_key record = to_str (ApiDeploy.user b) +:+ "_instances").
  { unfold owner_key. by rewrite Hu. }
  exists rq, data, record. rewrite Hk.
  split; [by rewrite Hs|]. split; [done|].
  split; [by rewrite Hdb, lookup_insert_eq|].
  split; [done|]. split; [done|]. split; [done|]. split; [done|].
  change (list_at (sending rq w) ?k) with (list_at w k) in Hm, Ha.
  split.
  { rewrite (entries_of_list_at w _ mine Hm). apply entries_of_lookup. rewrite Hdb.
    rewrite lookup_insert_ne by apply instance_key_not_list.
    rewrite lookup_insert_ne by (apply not_eq_sym, list_key_not_global).
    by rewrite lookup_insert_eq. }
  split.
  { rewrite (entries_of_list_at w _ all Ha). apply entries_of_lookup. rewrite Hdb.
    rewrite lookup_insert_ne by apply instance_key_not_global.
    by rewrite lookup_insert_eq. }
  intros k Hnk. rewrite !not_elem_of_cons in Hnk. destruct Hnk as (H1 & H2 & H3 & _).
  rewrite Hdb. rewrite !lookup_insert_ne by done. done.
Qed.

(** X19.  The store is written only after the node has answered 201 to the
    one request of the deploy: in every other run -- a parameter missing,
    no such node, a node without key, a call that failed, another status
    -- the store is left as it was. *)
Theorem deploy_writes_only_after_201 (Id : string) (b : ApiDeploy.body) (w : world) :
  (exists rq data,
     daemon w (length (sent w)) rq = Reply 201 data /\
     sent (ApiDeploy.deploy Id b w).2 = sent w ++ [rq]) \/
  db (ApiDeploy.deploy Id b w).2 = db w.
Proof.
  destruct (ApiDeploy.deploy Id b w) as [r w'] eqn:H. cbn [snd]. revert H.
  unfold ApiDeploy.deploy.
  destruct (0 <? length (ApiDeploy.missingParams b))%nat;
    [by intros [= <- <-]; right|].
  unfold route, bind at 1, Db.get.
  destruct (truthy (default JUndef (db w !! (to_str (ApiDeploy.nodeId b) +:+ "_node"))));
    simpl; [|by intros [= <- <-]; right].
  destruct (truthy (getf (default JUndef
              (db w !! (to_str (ApiDeploy.nodeId b) +:+ "_node"))) "apiKey"));
    simpl; [|by intros [= <- <-]; right].
  unfold bind at 1.
  match goal with
  | |- context [ApiDeploy.prepareRequestData ?a ?b ?c ?d ?e ?f ?g ?h ?i w] =>
      destruct (ApiDeploy.prepareRequestData a b c d e f g h i w) as [[rq|e0] w0] eqn:Hp
  end; destruct (api_prepare_reads _ _ _ _ _ _ _ _ _ _ _ _ Hp) as [-> Hv];
    [|by intros [= <- <-]; right].
  specialize (Hv rq eq_refl).
  unfold bind at 1, axios, settle.
  destruct (daemon w (length (sent w)) rq) as [c m|st data] eqn:Hd;
    [by intros [= <- <-]; right|].
  rewrite Hv. simpl.
  destruct ((200 <=? st) && (st <? 300)); [|by intros [= <- <-]; right]. simpl.
  destruct (st =? 201) eqn:Hst; [|by intros [= <- <-]; right].
  apply Z.eqb_eq in Hst as ->. intros H. left. exists rq, data. split; [done|].
  revert H. unfold bind at 1.
  match goal with
  | |- context [ApiDeploy.updateDatabaseWithNewInstance ?a ?b ?c ?d ?e ?f ?g ?h ?i ?j ?k ?l
                  (sending rq w)] =>
      pose proof (fun w1 r => api_update_sent a b c d e f g h i j k l (sending rq w) r w1)
        as Hs;
      destruct (ApiDeploy.updateDatabaseWithNewInstance a b c d e f g h i j k l
                  (sending rq w)) as [[[]|e0] w1] eqn:Hu
  end; simpl.
  - unfold bind, lift, ret. specialize (Hs w1 _ eq_refl).
    destruct (prop data "containerId"); intros [= <- <-]; exact Hs.
  - intros [= <- <-]. exact (Hs w1 _ eq_refl).
Qed.

(** X20.  A deploy the node answers with a 2xx status other than 201 --
    200, say -- is reported with that very status and an error body, and
    nothing is stored. *)
Theorem deploy_forwards_any_other_status
    (Id : string) (b : ApiDeploy.body) (w : world) (node : jsval) (rq : request)
    (st : Z) (data : jsval) :
  ApiDeploy.missingParams b = [] ->
  db w !! (to_str (ApiDeploy.nodeId b) +:+ "_node") = Some node ->
  truthy (getf node "apiKey") = true ->
  ApiDeploy.prepareRequestData (ApiDeploy.image b) (ApiDeploy.memory b)
    (ApiDeploy.cpu b) (ApiDeploy.ports b) (ApiDeploy.name b) node Id
    (ApiDeploy.variables b) (ApiDeploy.imagename b) w = (Ok rq, w) ->
  daemon w (length (sent w)) rq = Reply st data ->
  200 <= st < 300 -> st ≠ 201 ->
  ApiDeploy.deploy Id b w =
    (Json st (obj [("error", JStr "Failed to deploy container"); ("details", data)]),
     sending rq w).
Proof.
  intros Hm Hn Hk Hp Hd Hst Hne. unfold ApiDeploy.deploy. rewrite Hm. simpl.
  unfold route, bind at 1, Db.get. rewrite Hn. simpl.
  assert (truthy node = true) as -> by (by destruct node).
  rewrite Hk. simpl. unfold bind at 1. rewrite Hp.
  destruct (api_prepare_reads _ _ _ _ _ _ _ _ _ _ _ _ Hp) as [_ Hv].
  specialize (Hv rq eq_refl).
  unfold bind at 1, axios, settle. rewrite Hd, Hv. simpl.
  assert ((200 <=? st) && (st <? 300) = true) as -> by lia. simpl.
  assert ((st =? 201) = false) as -> by lia. done.
Qed.

Lemma api_add_port_dom maps x :
  dom maps.1 = dom maps.2 ->
  dom (ApiDeploy.add_port maps x).1 = dom (ApiDeploy.add_port maps x).2.
Proof.
  intros H. unfold ApiDeploy.add_port. destruct x; try done.
  destruct (String.eqb _ ""); [done|].
  destruct (Str.includes _ "/udp"); simpl; by rewrite !dom_insert_L, H.
Qed.

Lemma api_add_port_exposes maps x k :
  k ∈ dom (ApiDeploy.add_port maps x).1 <-> k ∈ dom maps.1 \/ ApiDeploy.exposes x k.
Proof.
  unfold ApiDeploy.add_port, ApiDeploy.exposes. destruct x as [| | | |s| |];
    try (split; [by left|by intros [?|(s & ? & _)]]).
  destruct (String.eqb_spec (ApiDeploy.containerPort s) "") as [E|E].
  { split; [by left|]. intros [?|(s' & [= <-] & ? & _)]; done. }
  destruct (Str.includes (ApiDeploy.containerPort s) "/udp") eqn:Hu; simpl;
    rewrite ?dom_insert_L; split.
  - intros [->%elem_of_singleton|[->%elem_of_singleton|?]%elem_of_union]%elem_of_union.
    + right. exists s. eauto.
    + right. exists s. eauto.
    + by left.
  - intros [?|(s' & [= <-] & _ & [->|[-> _]])]; set_solver.
  - intros [->%elem_of_singleton|?]%elem_of_union; [|by left].
    right. exists s. eauto.
  - intros [?|(s' & [= <-] & _ & [->|[-> ?]])]; [set_solver|set_solver|congruence].
Qed.

Lemma api_add_port_bindings maps x :
  map_Forall (fun _ v => exists h, v = ApiDeploy.binding h) maps.2 ->
  map_Forall (fun _ v => exists h, v = ApiDeploy.binding h) (ApiDeploy.add_port maps x).2.
Proof.
  intros H. unfold ApiDeploy.add_port. destruct x; try done.
  destruct (String.eqb _ ""); [done|].
  destruct (Str.includes _ "/udp"); simpl;
    repeat (apply map_Forall_insert_2; [by eexists|]); done.
Qed.

Lemma api_port_maps_spec l maps :
  dom maps.1 = dom maps.2 ->
  map_Forall (fun _ v => exists h, v = ApiDeploy.binding h) maps.2 ->
  dom (foldl ApiDeploy.add_port maps l).1 = dom (foldl ApiDeploy.add_port maps l).2 /\
  map_Forall (fun _ v => exists h, v = ApiDeploy.binding h)
    (foldl ApiDeploy.add_port maps l).2 /\
  forall k, k ∈ dom (foldl ApiDeploy.add_port maps l).1 <->
            k ∈ dom maps.1 \/ exists x, x ∈ l /\ ApiDeploy.exposes x k.
Proof.
  revert maps. induction l as [|x l IH]; intros maps Hd Hb; simpl.
  { split; [done|]. split; [done|]. intros k. split; [by left|].
    intros [?|(x & Hx & _)]; [done|]. by apply elem_of_nil in Hx. }
  destruct (IH (ApiDeploy.add_port maps x)) as (H1 & H2 & H3);
    [by apply api_add_port_dom|by apply api_add_port_bindings|].
  split; [done|]. split; [done|]. intros k. rewrite H3, api_add_port_exposes.
  split.
  - intros [[?|?]|(y & ? & ?)]; [by left| |].
    + right. exists x. split; [apply list_elem_of_here|done].
    + right. exists y. split; [by apply list_elem_of_further|done].
  - intros [?|(y & [->|?]%elem_of_cons & ?)]; [by left; left|by left; right|].
    right. by exists y.
Qed.

(** X21.  The deploy request binds every port it exposes, and exposes what
    the [ports] of the body say: [ExposedPorts] and [PortBindings] have the
    same keys; every binding is one host port; and a key is exposed exactly
    when some mapping of [ports] with a container port gives it -- as
    [<containerPort>/tcp], for every mapping, and as the container port
    itself when that contains [/udp].  Preparing the request writes
    nothing. *)
Theorem deploy_request_exposes_the_ports_of_the_body
    (image memory cpu ports name node : jsval) (Id : string)
    (variables imagename : jsval) (w w' : world) (rq : request) :
  ApiDeploy.prepareRequestData image memory cpu ports name node Id variables imagename w
    = (Ok rq, w') ->
  w' = w /\
  exists exposed bindings : gmap string jsval,
    getf (data rq) "ExposedPorts" = JObj exposed /\
    getf (data rq) "PortBindings" = JObj bindings /\
    dom exposed = dom bindings /\
    map_Forall (fun _ v => exists h, v = ApiDeploy.binding h) bindings /\
    forall k, k ∈ dom exposed <->
              truthy ports = true /\
              exists x, x ∈ ApiDeploy.portMappings ports /\ ApiDeploy.exposes x k.
Proof.
  intros H. destruct (api_prepare_reads _ _ _ _ _ _ _ _ _ _ _ _ H) as [-> _].
  split; [done|]. revert H.
  unfold ApiDeploy.prepareRequestData, bind at 1.
  destruct (ApiDeploy.find_image imagename w) as [[imageData|e] w1]; [|done].
  unfold bind, lift, ret. destruct (prop node "address"); [|done].
  intros [= <- _]. cbn [data].
  exists (ApiDeploy.port_maps ports).1, (ApiDeploy.port_maps ports).2.
  split; [done|]. split; [done|].
  unfold ApiDeploy.port_maps. destruct (truthy ports).
  - destruct (api_port_maps_spec (ApiDeploy.portMappings ports) (∅, ∅))
      as (H1 & H2 & H3); [done|apply map_Forall_empty|].
    split; [done|]. split; [done|]. intros k. rewrite H3. simpl.
    rewrite dom_empty_L, elem_of_empty. split.
    + by intros [[]|?].
    + intros [_ ?]. by right.
  - simpl. split; [done|]. split; [apply map_Forall_empty|].
    intros k. rewrite dom_empty_L, elem_of_empty. split; [done|]. by intros [? _].
Qed.

Lemma deploy_stores_the_record_in_three_places_witness :
  exists rq data record,
    sent (ApiDeploy.deploy "ab12cd34" Sample.new_server Sample.deployable).2 = [rq] /\
    Sample.creating 0%nat rq = Reply 201 data /\
    db (ApiDeploy.deploy "ab12cd34" Sample.new_server Sample.deployable).2
      !! "ab12cd34_instance" = Some record /\
    getf record "ContainerId" = JStr "c9" /\
    entries (ApiDeploy.deploy "ab12cd34" Sample.new_server Sample.deployable).2
      "instances" = [Example.inst1; record].
Proof.
  destruct (deploy_stores_the_record_in_three_places "ab12cd34" Sample.new_server
              Sample.deployable
              (obj [("message", JStr "Deployment successful");
                    ("containerId", JStr "c9"); ("volumeId", JStr "v9")])
              (ApiDeploy.deploy "ab12cd34" Sample.new_server Sample.deployable).2)
    as (rq & data & record & H1 & H2 & H3 & _ & _ & H6 & H7 & _ & H9 & _);
    [vm_compute; reflexivity|].
  exists rq, data, record. split; [exact H1|]. split; [exact H2|].
  split; [exact H3|]. split; [|exact H9].
  rewrite H6, <- H7. vm_compute. reflexivity.
Defined.

Lemma deploy_forwards_any_other_status_witness :
  (ApiDeploy.deploy "ab12cd34" Sample.new_server Sample.half_hearted).1 =
    Json 200 (obj [("error", JStr "Failed to deploy container");
                   ("details", obj [("containerId", JStr "c9")])]) /\
  db (ApiDeploy.deploy "ab12cd34" Sample.new_server Sample.half_hearted).2 =
    db Sample.half_hearted.
Proof.
  destruct (ApiDeploy.prepareRequestData (JStr "img") (JStr "1024") (JStr "100")
              (JStr "25565:25565, 19132/udp") (JStr "web") Example.node1 "ab12cd34"
              JUndef (JStr "Paper") Sample.half_hearted) as [[rq|e] w0] eqn:Hp;
    [|by vm_compute in Hp].
  assert (w0 = Sample.half_hearted) as ->
    by (by destruct (api_prepare_reads _ _ _ _ _ _ _ _ _ _ _ _ Hp)).
  rewrite (deploy_forwards_any_other_status "ab12cd34" Sample.new_server
             Sample.half_hearted Example.node1 rq 200
             (obj [("containerId", JStr "c9")])); first [done | lia].
Defined.

Lemma deploy_request_exposes_the_ports_of_the_body_witness :
  exists rq (exposed : gmap string jsval),
    ApiDeploy.prepareRequestData (JStr "img") (JStr "1024") (JStr "100")
      (JStr "25565:25565, 19132/udp") (JStr "web") Example.node1 "ab12cd34"
      JUndef (JStr "Paper") Sample.deployable = (Ok rq, Sample.deployable) /\
    getf (data rq) "ExposedPorts" = JObj exposed /\
    "25565/tcp" ∈ dom exposed /\ "19132/udp/tcp" ∈ dom exposed /\
    "19132/udp" ∈ dom exposed.
Proof.
  eexists. 
  edestruct (deploy_request_exposes_the_ports_of_the_body (JStr "img") (JStr "1024")
               (JStr "100") (JStr "25565:25565, 19132/udp") (JStr "web") Example.node1
               "ab12cd34" JUndef (JStr "Paper") Sample.deployable)
    as (_ & exposed & bindings & He & _ & _ & _ & Hk); [vm_compute; reflexivity|].
  exists exposed. split; [reflexivity|]. split; [exact He|].
  assert (Hin : forall s, JStr s ∈ ApiDeploy.portMappings (JStr "25565:25565, 19132/udp") ->
                          forall k, ApiDeploy.exposes (JStr s) k -> k ∈ dom exposed).
  { intros s Hs k Hx. apply Hk. split; [done|]. by exists (JStr s). }
  split; [|split].
  - apply (Hin "25565:25565"); [vm_compute; apply list_elem_of_here|].
    exists "25565:25565". split; [done|]. split; [by vm_compute|]. left.
    vm_compute. reflexivity.
  - apply (Hin " 19132/udp");
      [vm_compute; apply list_elem_of_further, list_elem_of_here|].
    exists " 19132/udp". split; [done|]. split; [by vm_compute|]. left.
    vm_compute. reflexivity.
  - apply (Hin " 19132/udp");
      [vm_compute; apply list_elem_of_further, list_elem_of_here|].
    exists " 19132/udp". split; [done|]. split; [by vm_compute|]. right.
    split; vm_compute; reflexivity.
Defined.

(** ** The nodes of the API *)

Lemma filter_is_not x l :
  Arr.filter (ApiNodes.is_not x) l = Ok (List.filter (fun e => negb (strict_eq e x)) l).
Proof.
  induction l as [|e l IH]; [done|]. simpl. rewrite IH. simpl.
  by destruct (strict_eq e x).
Qed.

Lemma filter_runs_on x l :
  no_hole l ->
  Arr.filter (ApiNodes.runs_on x) l =
    Ok (List.filter
          (fun e => truthy (getf e "Node") && strict_eq (getf (getf e "Node") "id") x) l).
Proof.
  induction 1 as [|e l He _ IH]; [done|]. simpl. unfold ApiNodes.runs_on at 1, prop.
  rewrite He. simpl. rewrite IH. simpl.
  by destruct (truthy (getf e "Node") && strict_eq (getf (getf e "Node") "id") x).
Qed.

Lemma filter_runs_on_inv x l l' :
  Arr.filter (ApiNodes.runs_on x) l = Ok l' ->
  l' = List.filter
         (fun e => truthy (getf e "Node") && strict_eq (getf (getf e "Node") "id") x) l.
Proof.
  revert l'. induction l as [|e l IH]; intros l'; simpl; [by intros [= <-]|].
  unfold ApiNodes.runs_on at 1, prop. destruct (nullish e); [done|]. simpl.
  destruct (Arr.filter (ApiNodes.runs_on x) l) as [r|]; [|done]. simpl.
  intros [= <-]. rewrite (IH r eq_refl).
  by destruct (truthy (getf e "Node") && strict_eq (getf (getf e "Node") "id") x).
Qed.

Lemma node_key_not_nodes (a : string) : a +:+ "_node" ≠ "nodes".
Proof.
  intros H. apply (f_equal Str.last) in H.
  rewrite last_append in H by done. by vm_compute in H.
Qed.

Lemma node_delete_inv nodeId w body w' :
  ApiNodes.delete nodeId w = (Json 200 body, w') ->
  exists li l,
    list_at w "instances" = JArr li /\
    List.filter
      (fun e => truthy (getf e "Node") &&
                strict_eq (getf (getf e "Node") "id") (JStr nodeId)) li = [] /\
    list_at w "nodes" = JArr l /\
    w' = with_db
           (fun m => base.delete (nodeId +:+ "_node")
                       (<["nodes" :=
                            JArr (List.filter
                                    (fun e => negb (strict_eq e (JStr nodeId))) l)]> m))
           w.
Proof.
  unfold ApiNodes.delete. destruct (String.eqb nodeId ""); [done|].
  unfold route, bind at 1, Db.get. cbn [fst snd]. name_lists.
  unfold bind at 1, lift.
  destruct (list_at w "instances") as [| | | | |li|] eqn:Hi; try done. simpl.
  destruct (Arr.filter (ApiNodes.runs_on (JStr nodeId)) li) as [ni|] eqn:Hf; [|done].
  apply filter_runs_on_inv in Hf. destruct ni as [|x ni]; simpl; [|done].
  unfold bind at 1, Db.get. cbn [fst snd]. name_lists.
  unfold bind at 1, lift.
  destruct (list_at w "nodes") as [| | | | |l|] eqn:Hl; try done. simpl.
  rewrite filter_is_not. unfold bind, Db.set, Db.delete, ret. simpl.
  intros [= <- <-]. exists li, l. repeat split; try done.
Qed.

(** X22.  Deleting a node through the API removes its record and every
    occurrence of its id in the list of nodes, touches no other key and
    contacts no daemon; it goes through only when no entry of the global
    instance list runs on the node, and it does not ask whether the node
    existed. *)
Theorem node_delete_removes_the_node
    (nodeId : string) (w : world) (body : jsval) (w' : world) :
  ApiNodes.delete nodeId w = (Json 200 body, w') ->
  db w' !! (nodeId +:+ "_node") = None /\
  entries w' "nodes" =
    List.filter (fun e => negb (strict_eq e (JStr nodeId))) (entries w "nodes") /\
  (JStr nodeId ∉ entries w' "nodes") /\
  (forall e, e ∈ entries w "instances" ->
             strict_eq (getf (getf e "Node") "id") (JStr nodeId) = false) /\
  sent w' = sent w /\
  forall k, k ∉ [nodeId +:+ "_node"; "nodes"] -> db w' !! k = db w !! k.
Proof.
  intros H. apply node_delete_inv in H as (li & l & Hi & Hf & Hl & ->).
  change (db (with_db ?f ?w0)) with (f (db w0)). cbv beta.
  assert (He : entries (with_db
                 (fun m => base.delete (nodeId +:+ "_node")
                    (<["nodes" := JArr (List.filter
                                          (fun e => negb (strict_eq e (JStr nodeId))) l)]> m))
                 w) "nodes"
               = List.filter (fun e => negb (strict_eq e (JStr nodeId))) l).
  { apply entries_of_lookup.
    change (db (with_db ?f ?w0)) with (f (db w0)). cbv beta.
    rewrite lookup_delete_ne by apply node_key_not_nodes.
    by rewrite lookup_insert_eq. }
  split; [by rewrite lookup_delete_eq|].
  split; [by rewrite He, (entries_of_list_at w _ l Hl)|].
  split.
  { rewrite He. intros Hx. apply list_elem_of_In, filter_In in Hx as [_ Hx].
    simpl in Hx.
    by rewrite bool_decide_eq_true_2 in Hx. }
  split.
  { intros e. rewrite (entries_of_list_at w _ li Hi). intros Hin.
    destruct (strict_eq (getf (getf e "Node") "id") (JStr nodeId)) eqn:Hs; [|done].
    assert (Hx : e ∈ @nil jsval); [|by apply elem_of_nil in Hx].
    rewrite <- Hf. apply list_elem_of_In, filter_In. split; [by apply list_elem_of_In|].
    rewrite Hs, andb_true_r. by destruct (getf e "Node"). }
  split; [done|].
  intros k Hk. rewrite !not_elem_of_cons in Hk. destruct Hk as (H1 & H2 & _).
  rewrite lookup_delete_ne by done. by rewrite lookup_insert_ne.
Qed.

(** X23.  A node on which an entry of the global instance list runs is not
    deleted: the route answers 400 and leaves the world as it was. *)
Theorem node_with_instances_is_kept
    (nodeId : string) (w : world) (l : list jsval) (e : jsval) :
  nodeId ≠ "" ->
  list_at w "instances" = JArr l -> no_hole l ->
  e ∈ l -> getf (getf e "Node") "id" = JStr nodeId ->
  ApiNodes.delete nodeId w =
    (Api.errorResponse 400 "Cannot delete node with active instances", w).
Proof.
  intros Hid Hl Hh He Hn. unfold ApiNodes.delete.
  destruct (String.eqb_spec nodeId ""); [done|].
  unfold route, bind at 1, Db.get. cbn [fst snd]. name_lists.
  unfold bind at 1, lift. rewrite Hl. simpl. rewrite (filter_runs_on _ _ Hh).
  assert (Hin : e ∈ List.filter
                  (fun e => truthy (getf e "Node") &&
                            strict_eq (getf (getf e "Node") "id") (JStr nodeId)) l).
  { apply list_elem_of_In, filter_In. split; [by apply list_elem_of_In|].
    rewrite Hn. simpl. rewrite bool_decide_eq_true_2 by done.
    destruct (getf e "Node"); try done. }
  destruct (List.filter _ l) as [|x r]; [by apply elem_of_nil in Hin|]. done.
Qed.

Lemma node_create_inv configureKey id p w body w' :
  ApiNodes.create configureKey id p w = (Json 201 body, w') ->
  exists l,
    list_at w "nodes" = JArr l /\
    sent w' = sent w /\
    db w' =
      <["nodes" := JArr (l ++ [JStr id])]>
        (<[id +:+ "_node" :=
             ApiNodes.new_node configureKey id p (JStr (clock w (ticks w)))]> (db w)) /\
    body = obj [("success", JBool true); ("nodeId", JStr id);
                ("configureKey", JStr configureKey)].
Proof.
  unfold ApiNodes.create.
  destruct (_ || _); [done|].
  unfold route, bind, now, Db.set, Db.get, lift, ret. cbn [fst snd db with_db].
  rewrite lookup_insert_ne by apply node_key_not_nodes.
  change (or_else (default JUndef (db w !! "nodes")) (JArr [])) with (list_at w "nodes").
  destruct (list_at w "nodes") as [| | | | |l|] eqn:Hl; try done. simpl.
  intros [= <- <-]. exists l. done.
Qed.

(** X24.  A node created through the API is stored under [<id>_node],
    unconfigured, without an API key and with the configure key of the
    answer, and its id is appended to the list of nodes; nothing else is
    written and no daemon is contacted. *)
Theorem node_create_registers_the_node
    (configureKey id : string) (p : ApiNodes.params) (w : world) (body : jsval)
    (w' : world) :
  ApiNodes.create configureKey id p w = (Json 201 body, w') ->
  (exists node,
     db w' !! (id +:+ "_node") = Some node /\
     getf node "id" = JStr id /\
     getf node "status" = JStr "Unconfigured" /\
     getf node "apiKey" = JNull /\
     getf node "configureKey" = getf body "configureKey" /\
     getf node "address" = ApiNodes.address p /\
     getf node "port" = ApiNodes.port p) /\
  getf body "nodeId" = JStr id /\
  entries w' "nodes" = entries w "nodes" ++ [JStr id] /\
  sent w' = sent w /\
  forall k, k ∉ [id +:+ "_node"; "nodes"] -> db w' !! k = db w !! k.
Proof.
  intros H. apply node_create_inv in H as (l & Hl & Hs & Hdb & ->).
  split.
  { eexists. split.
    - rewrite Hdb. rewrite lookup_insert_ne by (apply not_eq_sym, node_key_not_nodes).
      by rewrite lookup_insert_eq.
    - done. }
  split; [done|]. split.
  { rewrite (entries_of_list_at w _ l Hl). apply entries_of_lookup.
    by rewrite Hdb, lookup_insert_eq. }
  split; [done|].
  intros k Hk. rewrite !not_elem_of_cons in Hk. destruct Hk as (H1 & H2 & _).
  rewrite Hdb. by rewrite !lookup_insert_ne.
Qed.

Lemma filter_keeps_all (s : string) l :
  JStr s ∉ l -> List.filter (fun e => negb (strict_eq e (JStr s))) l = l.
Proof.
  intros Hx. induction l as [|e l IH]; [done|].
  apply not_elem_of_cons in Hx as [Hne Hx]. simpl.
  assert (strict_eq e (JStr s) = false) as ->.
  { destruct e; try done. simpl. apply bool_decide_eq_false_2. congruence. }
  simpl. by rewrite IH.
Qed.

(** X25.  Creating a node and deleting it again gives the store back: if
    the id was new -- no record under [<id>_node], no occurrence in the
    list of nodes -- then after a create and a delete that both went
    through, the store is the one before the create, but for the key
    [nodes], which now holds the list that was read from it. *)
Theorem node_delete_undoes_create
    (configureKey id : string) (p : ApiNodes.params) (w w1 w2 : world)
    (body body' : jsval) :
  ApiNodes.create configureKey id p w = (Json 201 body, w1) ->
  ApiNodes.delete id w1 = (Json 200 body', w2) ->
  db w !! (id +:+ "_node") = None ->
  JStr id ∉ entries w "nodes" ->
  db w2 = <["nodes" := JArr (entries w "nodes")]> (db w).
Proof.
  intros Hc Hd Hfresh Hnew.
  apply node_create_inv in Hc as (l & Hl & Hs & Hdb & ->).
  apply node_delete_inv in Hd as (li & l1 & _ & _ & Hl1 & ->).
  rewrite (entries_of_list_at w _ l Hl) in *.
  assert (l1 = l ++ [JStr id]) as ->.
  { unfold list_at, rec_at in Hl1. rewrite Hdb, lookup_insert_eq in Hl1.
    simpl in Hl1. by injection Hl1. }
  change (db (with_db ?f ?w0)) with (f (db w0)). cbv beta. rewrite Hdb.
  rewrite List.filter_app. simpl. rewrite bool_decide_eq_true_2 by done. simpl.
  rewrite app_nil_r, filter_keeps_all by done.
  rewrite insert_insert_eq.
  rewrite delete_insert_ne by apply node_key_not_nodes.
  rewrite delete_insert_eq. by rewrite delete_id.
Qed.

Lemma node_details_reads id : reads_only (ApiNodes.node_details id).
Proof. unfold ApiNodes.node_details. ro. Qed.

Lemma mapM_reads {A B} (f : A -> M B) l :
  (forall x, reads_only (f x)) -> reads_only (ApiNodes.mapM f l).
Proof. intros Hf. induction l; simpl; ro; done. Qed.

Lemma node_details_inv id w d w' :
  ApiNodes.node_details id w = (Ok d, w') ->
  exists node,
    db w !! (to_str id +:+ "_node") = Some node /\ nullish node = false /\
    getf d "id" = getf node "id" /\ getf d "name" = getf node "name" /\
    getf d "address" = getf node "address" /\ getf d "port" = getf node "port" /\
    getf d "status" = getf node "status" /\
    getf d "apiKey" = JUndef /\ getf d "configureKey" = JUndef.
Proof.
  unfold ApiNodes.node_details, bind, Db.get, lift, prop. cbn [fst snd].
  destruct (db w !! (to_str id +:+ "_node")) as [node|]; simpl; [|done].
  destruct (nullish node) eqn:Hn; simpl; [done|].
  intros [= <- <-]. by exists node.
Qed.

Lemma mapM_details_inv l w ds w' :
  ApiNodes.mapM ApiNodes.node_details l w = (Ok ds, w') ->
  Forall2
    (fun id d => exists node,
       db w !! (to_str id +:+ "_node") = Some node /\ nullish node = false /\
       getf d "id" = getf node "id" /\ getf d "name" = getf node "name" /\
       getf d "address" = getf node "address" /\ getf d "port" = getf node "port" /\
       getf d "status" = getf node "status" /\
       getf d "apiKey" = JUndef /\ getf d "configureKey" = JUndef)
    l ds.
Proof.
  revert ds w'. induction l as [|id l IH]; intros ds w'; simpl.
  { intros [= <- <-]. constructor. }
  unfold bind at 1.
  pose proof (node_details_reads id w) as Hro.
  destruct (ApiNodes.node_details id w) as [[d|e] w1] eqn:Hd; simpl in Hro; subst w1;
    [|done].
  unfold bind at 1.
  pose proof (mapM_reads ApiNodes.node_details l node_details_reads w) as Hro.
  destruct (ApiNodes.mapM ApiNodes.node_details l w) as [[r|e] w1] eqn:Hm;
    simpl in Hro; subst w1; [|done].
  unfold ret. intros [= <- <-].
  constructor; [exact (node_details_inv _ _ _ _ Hd)|exact (IH r w eq_refl)].
Qed.

(** X26.  The listing of the nodes has one entry for each id of the list of
    nodes, in order, with the public fields of the record stored for that
    id; no entry carries the API key or the configure key of its node, and
    the listing writes nothing. *)
Theorem node_listing_hides_the_keys (w : world) (body : jsval) (w' : world) :
  ApiNodes.nodes w = (Json 200 body, w') ->
  w' = w /\
  exists ds,
    body = JArr ds /\
    Forall2
      (fun id d => exists node,
         db w !! (to_str id +:+ "_node") = Some node /\ nullish node = false /\
         getf d "id" = getf node "id" /\ getf d "name" = getf node "name" /\
         getf d "address" = getf node "address" /\ getf d "port" = getf node "port" /\
         getf d "status" = getf node "status" /\
         getf d "apiKey" = JUndef /\ getf d "configureKey" = JUndef)
      (entries w "nodes") ds.
Proof.
  unfold ApiNodes.nodes, route, bind at 1, Db.get. cbn [fst snd]. name_lists.
  unfold bind at 1, lift.
  destruct (list_at w "nodes") as [| | | | |l|] eqn:Hl; try done. simpl.
  unfold bind at 1.
  pose proof (mapM_reads ApiNodes.node_details l node_details_reads w) as Hro.
  destruct (ApiNodes.mapM ApiNodes.node_details l w) as [[ds|e] w1] eqn:Hm;
    simpl in Hro; subst w1; [|done].
  unfold ret. intros [= <- <-]. split; [done|]. exists ds. split; [done|].
  rewrite (entries_of_list_at w _ l Hl). exact (mapM_details_inv _ _ _ _ Hm).
Qed.

Lemma mapM_details_dangling l w id :
  id ∈ l -> db w !! (to_str id +:+ "_node") = None ->
  exists e, ApiNodes.mapM ApiNodes.node_details l w = (Throw e, w).
Proof.
  intros Hin Hnone. induction l as [|x l IH]; [by apply elem_of_nil in Hin|].
  simpl. unfold bind at 1.
  pose proof (node_details_reads x w) as Hro.
  destruct (ApiNodes.node_details x w) as [[d|e] w1] eqn:Hd; simpl in Hro; subst w1;
    [|by eexists].
  apply elem_of_cons in Hin as [->|Hin].
  { apply node_details_inv in Hd as (node & Hn & _). congruence. }
  destruct (IH Hin) as [e He]. unfold bind at 1. rewrite He. by eexists.
Qed.

(** X27.  One id in the list of nodes for which no record is stored makes
    the whole listing fail: the route answers 500, whatever the other nodes
    are. *)
Theorem node_listing_fails_on_a_dangling_id (w : world) (l : list jsval) (id : jsval) :
  list_at w "nodes" = JArr l -> id ∈ l ->
  db w !! (to_str id +:+ "_node") = None ->
  ApiNodes.nodes w = (Api.errorResponse 500 "Failed to retrieve nodes", w).
Proof.
  intros Hl Hin Hnone.
  unfold ApiNodes.nodes, route, bind at 1, Db.get. cbn [fst snd]. name_lists.
  unfold bind at 1, lift. rewrite Hl. simpl. unfold bind at 1.
  destruct (mapM_details_dangling l w id Hin Hnone) as [e ->]. done.
Qed.

Lemma node_delete_removes_the_node_witness :
  (ApiNodes.delete "n9" Sample.deployable).1 =
    Json 200 (obj [("success", JBool true);
                   ("message", JStr "Node successfully deleted")]) /\
  db (ApiNodes.delete "n9" Sample.deployable).2 !! "n9_node" = None /\
  entries (ApiNodes.delete "n9" Sample.deployable).2 "nodes" = [JStr "n1"].
Proof.
  destruct (node_delete_removes_the_node "n9" Sample.deployable
              (obj [("success", JBool true);
                    ("message", JStr "Node successfully deleted")])
              (ApiNodes.delete "n9" Sample.deployable).2)
    as (H1 & H2 & _); [vm_compute; reflexivity|].
  split; [vm_compute; reflexivity|]. split; [exact H1|].
  rewrite H2. vm_compute. reflexivity.
Defined.

Lemma node_with_instances_is_kept_witness :
  ApiNodes.delete "n1" Sample.deployable =
    (Api.errorResponse 400 "Cannot delete node with active instances",
     Sample.deployable).
Proof.
  apply (node_with_instances_is_kept "n1" Sample.deployable [Example.inst1]
           Example.inst1).
  - done.
  - vm_compute. reflexivity.
  - by repeat constructor.
  - apply list_elem_of_here.
  - vm_compute. reflexivity.
Defined.

Lemma node_create_registers_the_node_witness :
  exists node,
    db (ApiNodes.create "key-1" "n2" Sample.rack Sample.deployable).2 !! "n2_node"
      = Some node /\
    getf node "status" = JStr "Unconfigured" /\
    getf node "configureKey" = JStr "key-1" /\
    entries (ApiNodes.create "key-1" "n2" Sample.rack Sample.deployable).2 "nodes"
      = [JStr "n1"; JStr "n2"].
Proof.
  destruct (node_create_registers_the_node "key-1" "n2" Sample.rack Sample.deployable
              (obj [("success", JBool true); ("nodeId", JStr "n2");
                    ("configureKey", JStr "key-1")])
              (ApiNodes.create "key-1" "n2" Sample.rack Sample.deployable).2)
    as ((node & H1 & _ & H3 & _ & H5 & _) & _ & H7 & _); [vm_compute; reflexivity|].
  exists node. split; [exact H1|]. split; [exact H3|]. split; [exact H5|].
  rewrite H7. vm_compute. reflexivity.
Defined.

Lemma node_delete_undoes_create_witness :
  db (ApiNodes.delete "n2"
        (ApiNodes.create "key-1" "n2" Sample.rack Sample.deployable).2).2 =
    <["nodes" := JArr [JStr "n1"] ]> (db Sample.deployable).
Proof.
  rewrite (node_delete_undoes_create "key-1" "n2" Sample.rack Sample.deployable
             (ApiNodes.create "key-1" "n2" Sample.rack Sample.deployable).2
             (ApiNodes.delete "n2"
                (ApiNodes.create "key-1" "n2" Sample.rack Sample.deployable).2).2
             (obj [("success", JBool true); ("nodeId", JStr "n2");
                   ("configureKey", JStr "key-1")])
             (obj [("success", JBool true);
                   ("message", JStr "Node successfully deleted")])).
  - vm_compute. reflexivity.
  - vm_compute. reflexivity.
  - vm_compute. reflexivity.
  - vm_compute. reflexivity.
  - vm_compute. intros H. apply list_elem_of_singleton in H. discriminate H.
Defined.

Lemma node_listing_hides_the_keys_witness :
  exists d,
    (ApiNodes.nodes Sample.deployable).1 = Json 200 (JArr [d]) /\
    getf d "address" = JStr "10.0.0.1" /\ getf d "apiKey" = JUndef.
Proof.
  destruct (node_listing_hides_the_keys Sample.deployable
              (JArr [obj [("id", JStr "n1"); ("name", JUndef); ("status", JUndef);
                          ("tags", JUndef); ("address", JStr "10.0.0.1");
                          ("port", JNum 3002); ("versionFamily", JUndef);
                          ("versionRelease", JUndef)]])
              Sample.deployable) as (_ & ds & Hb & HF); [vm_compute; reflexivity|].
  injection Hb as <-.
  apply Forall2_cons_inv_r in HF
    as (id & l & (node & Hn & _ & _ & _ & Ha & _ & _ & Hk & _) & _ & _).
  eexists. split; [vm_compute; reflexivity|]. split; [|exact Hk].
  vm_compute. reflexivity.
Defined.

Lemma node_listing_fails_on_a_dangling_id_witness :
  ApiNodes.nodes Sample.dangling =
    (Api.errorResponse 500 "Failed to retrieve nodes", Sample.dangling).
Proof.
  apply (node_listing_fails_on_a_dangling_id Sample.dangling
           [JStr "n1"; JStr "gone"] (JStr "gone")).
  - vm_compute. reflexivity.
  - apply list_elem_of_further, list_elem_of_here.
  - vm_compute. reflexivity.
Defined.

(** ** Users as the API shows them *)

Lemma strict_eq_eq a b : strict_eq a b = true -> a = b.
Proof.
  destruct a, b; simpl; try done; intros H; apply bool_decide_eq_true_1 in H;
    by subst.
Qed.

Lemma rest_without_inv f v e :
  ApiUsers.rest_without f v = Ok e ->
  nullish v = false /\ getf e f = JUndef /\
  forall g, g ≠ f -> is_obj v -> getf e g = getf v g.
Proof.
  unfold ApiUsers.rest_without. destruct (nullish v) eqn:Hn; [done|].
  intros [= <-]. split; [done|]. simpl. split; [by rewrite lookup_delete_eq|].
  intros g Hg Ho. rewrite lookup_delete_ne by done. by destruct v.
Qed.

(** X28.  The listing of the users never shows a password: whatever the
    store holds, the route writes nothing and either fails with 500 or
    answers with one entry for each stored user, in order, that has no
    [password] field and agrees with the stored user on every other
    field. *)
Theorem user_listing_never_shows_a_password (w : world) :
  exists r,
    ApiUsers.users w = (r, w) /\
    (r = Api.errorResponse 500 "Failed to retrieve users" \/
     exists l,
       r = Json 200 (JArr l) /\
       Forall2
         (fun u e =>
            getf e "password" = JUndef /\
            forall g, g ≠ "password" -> is_obj u -> getf e g = getf u g)
         (entries w "users") l).
Proof.
  unfold ApiUsers.users, route, bind at 1, Db.get. cbn [fst snd]. name_lists.
  unfold bind, lift, ret.
  destruct (list_at w "users") as [| | | | |us|] eqn:Hl; simpl;
    try (eexists; split; [reflexivity|by left]).
  destruct (Arr.map (ApiUsers.rest_without "password") us) as [l|e] eqn:Hm; simpl;
    [|eexists; split; [reflexivity|by left]].
  eexists. split; [reflexivity|]. right. exists l. split; [done|].
  rewrite (entries_of_list_at w _ us Hl). apply map_inv in Hm.
  eapply Forall2_impl; [exact Hm|]. intros u e0 He. simpl in He.
  by apply rest_without_inv in He as (_ & ? & ?).
Qed.

(** X29.  A user found through [/api/getUser] is a stored user whose email,
    or username, is the value asked for; the answer carries every field of
    that user but the password, and the route writes nothing. *)
Theorem getUser_answers_with_a_stored_user
    (type value : jsval) (w : world) (body : jsval) (w' : world) :
  ApiUsers.getUser type value w = (Json 200 body, w') ->
  w' = w /\
  getf body "password" = JUndef /\
  exists u f,
    u ∈ entries w "users" /\
    ((type = JStr "email" /\ f = "email") \/
     (type = JStr "username" /\ f = "username")) /\
    getf u f = value /\
    forall g, g ≠ "password" -> getf body g = getf u g.
Proof.
  unfold ApiUsers.getUser, route.
  destruct (truthy type) eqn:Ht; simpl; [|done].
  destruct (truthy value) eqn:Hv; simpl; [|done].
  unfold bind at 1, Db.get. cbn [fst snd]. name_lists.
  assert (G : forall f,
    (let* user := lift (let? l := Arr.as_array (list_at w "users") in
                        Arr.find (Arr.field_is f value) l) in
     if negb (truthy user) then ret (Api.errorResponse 404 "User not found")
     else let* userData := lift (ApiUsers.rest_without "password" user) in
          ret (Json 200 userData)) w = (Ok (Json 200 body), w') ->
    w' = w /\ getf body "password" = JUndef /\
    exists u, u ∈ entries w "users" /\ getf u f = value /\
              forall g, g ≠ "password" -> getf body g = getf u g).
  { intros f. unfold bind, lift, ret.
    destruct (list_at w "users") as [| | | | |us|] eqn:Hl; simpl; try done.
    destruct (Arr.find (Arr.field_is f value) us) as [u|] eqn:Hf; simpl; [|done].
    destruct (truthy u) eqn:Hu; simpl; [|done].
    destruct (ApiUsers.rest_without "password" u) as [e|] eqn:Hr; simpl; [|done].
    intros [= <- <-]. split; [done|].
    apply rest_without_inv in Hr as (_ & Hp & Hg). split; [done|].
    apply find_inv in Hf as [Hin Heq]; [|done]. apply strict_eq_eq in Heq.
    exists u. rewrite (entries_of_list_at w _ us Hl). split; [done|]. split; [done|].
    intros g Hne. apply Hg; [done|]. destruct u; try done.
    all: simpl in Heq; subst value; done. }
  destruct (strict_eq type (JStr "email")) eqn:He.
  { apply strict_eq_eq in He as ->.
    match goal with
    | |- context [match ?m w with _ => _ end] => destruct (m w) as [[r|e] w1] eqn:E
    end; [|done].
    intros [= -> ->]. apply G in E as (? & ? & u & ? & ? & ?).
    split; [done|]. split; [done|]. exists u, "email". eauto 10. }
  destruct (strict_eq type (JStr "username")) eqn:Hu.
  { apply strict_eq_eq in Hu as ->.
    match goal with
    | |- context [match ?m w with _ => _ end] => destruct (m w) as [[r|e] w1] eqn:E
    end; [|done].
    intros [= -> ->]. apply G in E as (? & ? & u & ? & ? & ?).
    split; [done|]. split; [done|]. exists u, "username". eauto 10. }
  done.
Qed.

Lemma getUser_answers_with_a_stored_user_witness :
  exists body,
    ApiUsers.getUser (JStr "email") (JStr "alice@example.org") Sample.registry =
      (Json 200 body, Sample.registry) /\
    getf body "password" = JUndef /\ getf body "username" = JStr "alice".
Proof.
  eexists. split; [vm_compute; reflexivity|].
  edestruct (getUser_answers_with_a_stored_user (JStr "email")
               (JStr "alice@example.org") Sample.registry)
    as (_ & Hp & _); [vm_compute; reflexivity|].
  split; [exact Hp|]. vm_compute. reflexivity.
Defined.

(** ** The state of an installing instance *)

Lemma checkState_spec id w r w' :
  InstanceState.checkState id w = (r, w') ->
  (exists inst data st rq1 rq2,
     db w !! instance_key id = Some inst /\
     sent w' = sent w ++ [rq1; rq2] /\
     daemon w (length (sent w)) rq1 = Reply st data /\
     r = Ok (getf data "state") /\
     db w' = <[instance_key id := setf inst "State" (getf data "state")]> (db w)) \/
  ((exists e, r = Throw e) /\ db w' = db w).
Proof.
  unfold InstanceState.checkState.
  destruct (InstanceView.validateInstanceId id); simpl;
    [|intros [= <- <-]; right; eauto].
  unfold try_catch, bind at 1, Db.get. cbn [fst snd]. fold (instance_key id).
  destruct (db w !! instance_key id) as [inst|] eqn:Hdb; simpl;
    [|intros [= <- <-]; right; eauto].
  destruct (truthy inst); simpl; [|intros [= <- <-]; right; eauto].
  destruct (negb _ || _ || _ || _); [intros [= <- <-]; right; eauto|].
  unfold bind at 1, axios at 1.
  match goal with |- context [settle ?q ?a] => set (rq1 := q) end.
  destruct (daemon w (length (sent w)) rq1) as [c m|st data] eqn:Hd; simpl;
    [intros [= <- <-]; right; eauto|].
  destruct ((200 <=? st) && (st <? 300)); simpl; [|intros [= <- <-]; right; eauto].
  destruct (negb (truthy data) || negb (truthy (getf data "state"))); simpl;
    [intros [= <- <-]; right; eauto|].
  unfold bind at 1, axios.
  match goal with |- context [settle ?q ?a] => set (rq2 := q) end.
  destruct (settle rq2 _) as [resp|e]; simpl; [|intros [= <- <-]; right; eauto].
  unfold bind, Db.set, ret. simpl. intros [= <- <-]. left.
  exists inst, data, st, rq1, rq2. simpl. rewrite <- app_assoc. done.
Qed.

Lemma installing_spec user id w :
  (exists inst data st rq1 rq2,
     db w !! instance_key id = Some inst /\
     getf inst "State" = JStr "INSTALLING" /\
     sent (InstanceState.installing user id w).2 = sent w ++ [rq1; rq2] /\
     daemon w (length (sent w)) rq1 = Reply st data /\
     (InstanceState.installing user id w).1 = Render 200 "instance/installing" /\
     db (InstanceState.installing user id w).2 =
       <[instance_key id := setf inst "State" (getf data "state")]> (db w)) \/
  ((InstanceState.installing user id w).1 ≠ Render 200 "instance/installing" /\
   db (InstanceState.installing user id w).2 = db w).
Proof.
  destruct (InstanceState.installing user id w) as [r w'] eqn:H.
  cbn [fst snd]. revert H. unfold InstanceState.installing, route.
  destruct (InstanceView.validateInstanceId id); simpl;
    [|intros [= <- <-]; right; done].
  unfold bind at 1, Db.get. cbn [fst snd].
  destruct (truthy (default JUndef (db w !! (id +:+ "_instance")))); simpl;
    [|intros [= <- <-]; right; done].
  unfold bind at 1, lift. destruct (prop user "userId") as [userId|]; simpl;
    [|intros [= <- <-]; right; done].
  unfold bind at 1.
  match goal with
  | |- context [AuthHelper.isUserAuthorizedForContainer ?a ?b w] =>
      destruct (auth_total a b w) as [ok ->]
  end.
  destruct ok; simpl; [|intros [= <- <-]; right; done].
  destruct (strict_eq _ (JStr "INSTALLING")) eqn:Hs; simpl;
    [|intros [= <- <-]; right; done].
  apply strict_eq_eq in Hs.
  unfold bind at 1.
  destruct (InstanceState.checkState id w) as [rs w1] eqn:Hc.
  apply checkState_spec in Hc
    as [(inst & data & st & rq1 & rq2 & H1 & H2 & H3 & -> & H5)|[[e ->] Hdb]].
  - unfold ret. intros [= <- <-]. left. exists inst, data, st, rq1, rq2.
    fold (instance_key id) in Hs. rewrite H1 in Hs. done.
  - intros [= <- <-]. right. done.
Qed.

(** X30.  The two routes of an installing instance write the state the node
    reported into the record, and nowhere else.  When the status route
    answers 200 it has sent two requests, the state of the answer is the
    one the node gave to the first, and the store differs from the one
    before in the record under [<id>_instance] alone, whose [State] is now
    that state -- the entries of the owner's list and of the global list
    keep the state they had; in every other run the store is left as it
    was.  The same holds of the page route, which goes to the node only
    for a record whose [State] is [INSTALLING]. *)
Theorem installing_routes_record_the_reported_state
    (user : jsval) (id : string) (w : world) :
  ((exists inst data st rq1 rq2,
      db w !! instance_key id = Some inst /\
      sent (InstanceState.installing_status user id w).2 = sent w ++ [rq1; rq2] /\
      daemon w (length (sent w)) rq1 = Reply st data /\
      (InstanceState.installing_status user id w).1 =
        Json 200 (obj [("success", JBool true); ("state", getf data "state")]) /\
      db (InstanceState.installing_status user id w).2 =
        <[instance_key id := setf inst "State" (getf data "state")]> (db w)) \/
   ((forall body, (InstanceState.installing_status user id w).1 ≠ Json 200 body) /\
    db (InstanceState.installing_status user id w).2 = db w)) /\
  ((exists inst data st rq1 rq2,
      db w !! instance_key id = Some inst /\
      getf inst "State" = JStr "INSTALLING" /\
      sent (InstanceState.installing user id w).2 = sent w ++ [rq1; rq2] /\
      daemon w (length (sent w)) rq1 = Reply st data /\
      (InstanceState.installing user id w).1 = Render 200 "instance/installing" /\
      db (InstanceState.installing user id w).2 =
        <[instance_key id := setf inst "State" (getf data "state")]> (db w)) \/
   ((InstanceState.installing user id w).1 ≠ Render 200 "instance/installing" /\
    db (InstanceState.installing user id w).2 = db w)).
Proof.
  split; [|apply installing_spec].
  destruct (InstanceState.installing_status user id w) as [r w'] eqn:H.
  cbn [fst snd]. revert H. unfold InstanceState.installing_status, route.
  destruct (InstanceView.validateInstanceId id); simpl;
    [|intros [= <- <-]; right; done].
  unfold bind at 1, Db.get. cbn [fst snd].
  destruct (truthy (default JUndef (db w !! (id +:+ "_instance")))); simpl;
    [|intros [= <- <-]; right; done].
  unfold bind at 1, lift. destruct (prop user "userId") as [userId|]; simpl;
    [|intros [= <- <-]; right; done].
  unfold bind at 1.
  match goal with
  | |- context [AuthHelper.isUserAuthorizedForContainer ?a ?b w] =>
      destruct (auth_total a b w) as [ok ->]
  end.
  destruct ok; simpl; [|intros [= <- <-]; right; done].
  unfold bind at 1.
  destruct (InstanceState.checkState id w) as [rs w1] eqn:Hc.
  apply checkState_spec in Hc
    as [(inst & data & st & rq1 & rq2 & H1 & H2 & H3 & -> & H5)|[[e ->] Hdb]].
  - unfold ret. intros [= <- <-]. left. exists inst, data, st, rq1, rq2. done.
  - intros [= <- <-]. right. done.
Qed.

(** X30, at an instance that is being installed: the record is given the
    state the node reports, the entry of the global list keeps the old
    one. *)
Lemma installing_routes_record_the_reported_state_witness :
  (InstanceState.installing_status Example.owner "i1" Sample.being_installed).1 =
    Json 200 (obj [("success", JBool true); ("state", JStr "RUNNING")]) /\
  getf (rec_at (InstanceState.installing_status Example.owner "i1"
                  Sample.being_installed).2 "i1_instance") "State" = JStr "RUNNING" /\
  (fun e => getf e "State") <$>
    entries (InstanceState.installing_status Example.owner "i1"
               Sample.being_installed).2 "instances" = [JStr "INSTALLING"].
Proof.
  destruct (installing_routes_record_the_reported_state Example.owner "i1"
              Sample.being_installed) as [[(inst & data & st & rq1 & rq2 & _)|[Hn _]] _].
  - split; [vm_compute; reflexivity|]. split; vm_compute; reflexivity.
  - exfalso.
    apply (Hn (obj [("success", JBool true); ("state", JStr "RUNNING")])).
    vm_compute. reflexivity.
Defined.
